(** * capabilities/core.py: retry loops, schema flattening, registry

    A shallow embedding of [src/capabilities/core.py].  Python values that
    travel over the wire are [json] terms, the type objects handed to
    [flatten_model] are [pytype] terms, and everything that touches the
    outside (HTTP posts, [time.sleep], [print], aiohttp sessions) runs in a
    state-and-exception monad [M] over a [world] that records a trace. *)

From Stdlib Require Import String Ascii List ZArith Lia Bool Arith PeanoNat.
From Stdlib Require Import DecimalString Permutation.
Import ListNotations.
Open Scope string_scope.
#[local] Set Warnings "-register-all".

(** ** Values *)

(** Decoded JSON, and the Python dicts / lists / strings that are sent as
    JSON.  A dict is an association list in insertion order.  JSON reals are
    kept as their source text: no function of core.py computes on them. *)
Inductive json : Type :=
| JNull
| JBool (b : bool)
| JInt (z : Z)
| JReal (digits : string)
| JStr (s : string)
| JList (l : list json)
| JDict (d : list (string * json)).

(** The objects [flatten_model] receives: the builtins [str],[bool],[float],
    [int]; a [typing] generic alias, whose instance [__dict__] holds [_name]
    and, once subscripted, [__args__] ([typing.List[T]] is
    [Generic "List" [T]], the bare [typing.List], which has no [__args__],
    is [Generic "List" []]); a pydantic model class (an instance of
    [ModelMetaclass]); a dataclass; anything else, known by its repr. *)
Inductive pytype : Type :=
| Str
| Bool
| Float
| Int
| Generic (_name : string) (__args__ : list pytype)
| Model (__name__ : string) (__annotations__ : list (string * pytype))
| Dataclass (__name__ : string) (__annotations__ : list (string * pytype))
| Opaque (repr : string).

(** Exceptions.  [UnsupportedDatatype m] stands for
    [Exception(f"unsupported datatype={m}")]: the message is kept
    structured so that it names the offending object itself.
    [ConnectionError] is requests', [ClientConnectionError] and
    [ContentTypeError] are aiohttp's, [ParserError] is lxml's,
    [ValidationError] pydantic's, [DaciteError] the base class of
    dacite's. *)
Inductive exn : Type :=
| Exception (msg : string)
| UnsupportedDatatype (m : pytype)
| ConnectionError
| ClientConnectionError
| ContentTypeError
| JSONDecodeError
| UnicodeDecodeError
| ParserError (msg : string)
| RuntimeError (msg : string)
| KeyError (key : string)
| TypeError (msg : string)
| AttributeError (msg : string)
| ValidationError (msg : string)
| DaciteError (msg : string).

(** A typed record instance: a pydantic model object or a dataclass object,
    seen through its class and its field dict ([input.dict()] for the
    former, [dataclasses.asdict(input)] for the latter). *)
Record instance : Type := { inst_class : pytype; inst_fields : json }.

(** ** The world *)

Definition sid := nat.

Inductive session_state : Type := Open | Closed.

Record request : Type :=
  { req_url : string;
    req_headers : list (string * string);
    req_json : json }.

(** The two HTTP clients of core.py. *)
Inductive library : Type := Requests | Aiohttp.

(** What came back from a POST, as the client that received it reads it: a
    [requests.Response] or an [aiohttp.ClientResponse].  [resp_json] is
    what that client's [json()] does on the reply, its value or the
    exception it raises; the two clients differ (aiohttp's raises
    [ContentTypeError] unless the reply is served as JSON and returns [None]
    on an empty body, requests' decodes whatever the mimetype).
    [resp_content] is what reading the body and decoding it as UTF-8
    does. *)
Record response : Type :=
  { resp_json : exn + json;
    resp_content : exn + string }.

Inductive event : Type :=
| EvPrint (line : string)
| EvSleep (seconds : Z)
| EvRequest (via : option sid) (r : request)
| EvRefused (via : sid) (r : request)
| EvOpen (s : sid)
| EvClose (s : sid).

(** [sessions]: one entry per [aiohttp.ClientSession] ever created, the
    session's id is its index.  [sent]: number of POSTs that reached the
    network.  [trace]: everything observable, oldest first. *)
Record world : Type :=
  { sessions : list session_state;
    sent : nat;
    trace : list event }.

Definition emit (e : event) (w : world) : world :=
  {| sessions := sessions w; sent := sent w; trace := trace w ++ [e] |}.

Definition emit_sent (e : event) (w : world) : world :=
  {| sessions := sessions w; sent := S (sent w); trace := trace w ++ [e] |}.

Definition set_sessions (l : list session_state) (w : world) : world :=
  {| sessions := l; sent := sent w; trace := trace w |}.

Definition world0 : world := {| sessions := []; sent := 0; trace := [] |}.

(** ** The monad *)

(** [Diverged] is the embedding's own outcome for a loop or a recursion that
    ran out of fuel; no Python handler can catch it. *)
Inductive outcome (A : Type) : Type :=
| Returned (a : A)
| Raised (e : exn)
| Diverged.
Arguments Returned {A} a.
Arguments Raised {A} e.
Arguments Diverged {A}.

Definition M (A : Type) : Type := world -> outcome A * world.

Definition ret {A} (a : A) : M A := fun w => (Returned a, w).

Definition raise {A} (e : exn) : M A := fun w => (Raised e, w).

Definition out_of_fuel {A} : M A := fun w => (Diverged, w).

Definition bind {A B} (m : M A) (k : A -> M B) : M B :=
  fun w =>
    match m w with
    | (Returned a, w') => k a w'
    | (Raised e, w') => (Raised e, w')
    | (Diverged, w') => (Diverged, w')
    end.

(** [try: body / except: handler] with a bare [except]: every exception is
    caught, whatever its class. *)
Definition try_except {A} (body : M A) (handler : M A) : M A :=
  fun w =>
    match body w with
    | (Returned a, w') => (Returned a, w')
    | (Raised _, w') => handler w'
    | (Diverged, w') => (Diverged, w')
    end.

(** [body] followed by [cleanup] on every exit path, the outcome of [body]
    being kept. *)
Definition finally {A} (body : M A) (cleanup : M unit) : M A :=
  fun w =>
    match body w with
    | (r, w') =>
        match cleanup w' with
        | (Returned _, w'') => (r, w'')
        | (Raised e, w'') => (Raised e, w'')
        | (Diverged, w'') => (Diverged, w'')
        end
    end.

Definition lift {A} (r : exn + A) : M A :=
  match r with
  | inl e => raise e
  | inr a => ret a
  end.

Declare Scope py_scope.
Delimit Scope py_scope with py.
Notation "x <- m ;; k" := (bind m (fun x => k))
  (at level 100, m at next level, right associativity) : py_scope.
Notation "m ;; k" := (bind m (fun _ => k))
  (at level 100, right associativity) : py_scope.
Notation "'try' b 'except' h" := (try_except b h)
  (at level 100, b at level 99, h at level 100) : py_scope.
Open Scope py_scope.

(** ** Builtins *)

Definition print (line : string) : M unit :=
  fun w => (Returned tt, emit (EvPrint line) w).

(** [time.sleep(d)].  Every duration the program computes is [2.0**count]
    with [count] a small natural, which binary64 holds exactly, so it is an
    integer here. *)
Definition time_sleep (d : Z) : M unit :=
  fun w => (Returned tt, emit (EvSleep d) w).

Definition str_of_nat (n : nat) : string :=
  NilZero.string_of_uint (Nat.to_uint n).

(** [f"{d:.2f}"] for an integral [d >= 0]. *)
Definition fmt_2f (d : Z) : string :=
  str_of_nat (Z.to_nat d) ++ ".00".

(** [len(s)]; strings are byte strings here, which is [len] on ASCII. *)
Definition len (s : string) : nat := String.length s.

(** [str(x)] for an [os.environ.get] result, as an f-string prints it. *)
Definition str_of_env (v : option string) : string :=
  match v with
  | Some s => s
  | None => "None"
  end.

Fixpoint dict_get {V} (d : list (string * V)) (k : string) : option V :=
  match d with
  | [] => None
  | (k', v) :: d' => if String.eqb k' k then Some v else dict_get d' k
  end.

(** [x[key]] on a decoded JSON value. *)
Definition json_getitem (x : json) (key : string) : exn + json :=
  match x with
  | JDict d =>
      match dict_get d key with
      | Some v => inr v
      | None => inl (KeyError key)
      end
  | JStr _ => inl (TypeError "string indices must be integers")
  | JList _ => inl (TypeError "list indices must be integers or slices, not str")
  | JNull => inl (TypeError "'NoneType' object is not subscriptable")
  | JBool _ => inl (TypeError "'bool' object is not subscriptable")
  | JInt _ => inl (TypeError "'int' object is not subscriptable")
  | JReal _ => inl (TypeError "'float' object is not subscriptable")
  end.

(** ** flatten_model *)

(** [{k: flatten_model(v) for k, v in m.__annotations__.items()}] is the
    inner [items] loop: fields are visited in declaration order and the
    first exception leaves the comprehension.  An alias named "List" is
    asked for [m.__args__[0]] before anything else: the bare [typing.List]
    has no [__args__] (Python 3.9 and later) and the attribute access
    raises [AttributeError('__args__')]. *)
Fixpoint flatten_model (m : pytype) : exn + json :=
  let items :=
    fix items (l : list (string * pytype)) : exn + list (string * json) :=
      match l with
      | [] => inr []
      | (k, v) :: l' =>
          match flatten_model v with
          | inl e => inl e
          | inr fv =>
              match items l' with
              | inl e => inl e
              | inr d => inr ((k, fv) :: d)
              end
          end
      end in
  match m with
  | Generic _name __args__ =>
      if String.eqb _name "List" then
        match __args__ with
        | a :: _ =>
            match flatten_model a with
            | inl e => inl e
            | inr fa => inr (JList [fa])
            end
        | [] => inl (AttributeError "__args__")
        end
      else inl (UnsupportedDatatype m)
  | Model _ __annotations__ =>
      match items __annotations__ with
      | inl e => inl e
      | inr d => inr (JDict d)
      end
  | Dataclass _ __annotations__ =>
      match items __annotations__ with
      | inl e => inl e
      | inr d => inr (JDict d)
      end
  | Str => inr (JStr "string")
  | Bool => inr (JStr "bool")
  | Float => inr (JStr "float")
  | Int => inr (JStr "int")
  | Opaque _ => inl (UnsupportedDatatype m)
  end.

(** The dict comprehension of [flatten_model], standing alone. *)
Fixpoint flatten_items (l : list (string * pytype)) : exn + list (string * json) :=
  match l with
  | [] => inr []
  | (k, v) :: l' =>
      match flatten_model v with
      | inl e => inl e
      | inr fv =>
          match flatten_items l' with
          | inl e => inl e
          | inr d => inr ((k, fv) :: d)
          end
      end
  end.

Definition isinstance_ModelMetaclass (m : pytype) : bool :=
  match m with
  | Model _ _ => true
  | _ => false
  end.

(** [is_dataclass(x)] on an instance asks it of the instance's class. *)
Definition is_dataclass (m : pytype) : bool :=
  match m with
  | Dataclass _ _ => true
  | _ => false
  end.

(** ** The capabilities *)

Section Core.

(** The network, seen through each client: what the client makes of the
    [n]-th POST that reaches the network, the reply or the exception the
    client raises when the POST fails (connection refused, timeout, ...).
    Nothing is assumed of how the two clients relate. *)
Variable net : library -> nat -> request -> exn + response.

(** [CONFIG.api_key] and [os.environ.get('BROWSERLESS_API_KEY')]. *)
Variable api_key : string.
Variable BROWSERLESS_API_KEY : option string.

(** Third-party code that core.py calls on a result:
    [output_spec.parse_obj(x)] of pydantic, [dacite.from_dict(cls, x)], and
    [Document(html).content()] / [Document(html).summary()] of readability,
    each with the value it returns or the exception it raises. *)
Variable parse_obj : pytype -> json -> exn + instance.
Variable dacite_from_dict : pytype -> json -> exn + instance.
Variable Document_content : string -> exn + string.
Variable Document_summary : string -> exn + string.

(** *** Transport *)

Definition mk_request (url : string) (headers : list (string * string))
    (payload : json) : request :=
  {| req_url := url; req_headers := headers; req_json := payload |}.

(** [requests.post(url, headers=headers, json=payload)]. *)
Definition requests_post (url : string) (headers : list (string * string))
    (payload : json) : M response :=
  fun w =>
    let r := mk_request url headers payload in
    match net Requests (sent w) r with
    | inr resp => (Returned resp, emit_sent (EvRequest None r) w)
    | inl e => (Raised e, emit_sent (EvRequest None r) w)
    end.

Definition session_is_open (w : world) (s : sid) : bool :=
  match nth_error (sessions w) s with
  | Some Open => true
  | _ => false
  end.

(** [async with session.post(url, headers=headers, json=payload) as resp].
    aiohttp refuses a request on a closed session before any I/O, with
    [RuntimeError("Session is closed")]. *)
Definition session_post (s : sid) (url : string)
    (headers : list (string * string)) (payload : json) : M response :=
  fun w =>
    let r := mk_request url headers payload in
    if session_is_open w s then
      match net Aiohttp (sent w) r with
      | inr resp => (Returned resp, emit_sent (EvRequest (Some s) r) w)
      | inl e => (Raised e, emit_sent (EvRequest (Some s) r) w)
      end
    else (Raised (RuntimeError "Session is closed"), emit (EvRefused s r) w).

(** [resp.json()] of requests, on a reply that requests received. *)
Definition Response_json (resp : response) : M json :=
  lift (resp_json resp).

(** [await resp.json()] of aiohttp, on a reply that aiohttp received. *)
Definition ClientResponse_json (resp : response) : M json :=
  lift (resp_json resp).

(** [response._content.decode("utf-8")], on a reply of requests. *)
Definition Response_content_decode (resp : response) : M string :=
  lift (resp_content resp).

(** [(await resp.content.read()).decode("utf-8")], on a reply of aiohttp. *)
Definition ClientResponse_read_decode (resp : response) : M string :=
  lift (resp_content resp).

(** [aiohttp.ClientSession(...)]: a fresh open session. *)
Definition ClientSession : M sid :=
  fun w =>
    let s := length (sessions w) in
    (Returned s, emit (EvOpen s) (set_sessions (sessions w ++ [Open]) w)).

Fixpoint close_nth (l : list session_state) (s : sid) : list session_state :=
  match l, s with
  | [], _ => []
  | _ :: l', O => Closed :: l'
  | x :: l', S s' => x :: close_nth l' s'
  end.

Definition session_close (s : sid) : M unit :=
  fun w =>
    (Returned tt, emit (EvClose s) (set_sessions (close_nth (sessions w) s) w)).

(** [async with aiohttp.ClientSession(...) as session: body]: the session
    is closed when the block is left, by [return] or by an exception. *)
Definition async_with_ClientSession {A} (body : sid -> M A) : M A :=
  session <- ClientSession ;;
  finally (body session) (session_close session).

Definition json_headers : list (string * string) :=
  [("Content-type", "application/json"); ("api-key", api_key)].

Definition retrying (count : nat) : M unit :=
  let sleep_duration := (2 ^ Z.of_nat count)%Z in
  print ("retrying after sleeping for " ++ fmt_2f sleep_duration) ;;
  time_sleep sleep_duration.

(** *** DocumentQA *)

Fixpoint DocumentQA_call_while (document query : string) (patience : nat)
    (fuel count : nat) : M json :=
  if (count <? patience)%nat then
    match fuel with
    | O => out_of_fuel
    | S fuel' =>
        try
          (let url := "https://api.multi.dev/documentqa" in
           let headers := json_headers in
           let payload :=
             JDict [("document", JStr document); ("query", JStr query)] in
           resp <- requests_post url headers payload ;;
           Response_json resp)
        except
          (retrying count ;;
           DocumentQA_call_while document query patience fuel' (count + 1))
    end
  else raise (Exception "[DocumentQA] failed after hitting max retries").

Definition DocumentQA_call (document query : string) : M json :=
  print ("[DocumentQA] running query against document with "
         ++ str_of_nat (len document) ++ " characters") ;;
  let patience := 8 in
  let count := 0 in
  DocumentQA_call_while document query patience patience count.

(** The loop of [run_async]; [self] is [self.run_async(document=document,
    query=query, session=...)].  The [async with ClientSession(...) as
    session] of the first branch is written out: the constructor, which does
    not raise, then the block with the session closed on leaving it.  It
    rebinds the local [session], which the later iterations then see.  The
    inner [try: return response] of the second branch cannot raise and is
    the plain return. *)
Fixpoint DocumentQA_run_async_while (self : option sid -> M json)
    (document query : string) (patience : nat) (fuel count : nat)
    (session : option sid) : M json :=
  if (count <? patience)%nat then
    match fuel with
    | O => out_of_fuel
    | S fuel' =>
        let url := "https://api.multi.dev/documentqa" in
        match session with
        | None =>
            session <- ClientSession ;;
            try
              (finally (self (Some session)) (session_close session))
            except
              (retrying count ;;
               DocumentQA_run_async_while self document query patience
                 fuel' (count + 1) (Some session))
        | Some s =>
            try
              (let headers := json_headers in
               let payload :=
                 JDict [("document", JStr document); ("query", JStr query)] in
               resp <- session_post s url headers payload ;;
               response <- ClientResponse_json resp ;;
               ret response)
            except
              (retrying count ;;
               DocumentQA_run_async_while self document query patience
                 fuel' (count + 1) session)
        end
    end
  else raise (Exception "[DocumentQA] failed after hitting max retries").

Fixpoint DocumentQA_run_async_rec (depth : nat) (document query : string)
    (session : option sid) : M json :=
  match depth with
  | O => out_of_fuel
  | S depth' =>
      print ("[DocumentQA] running query against document with "
             ++ str_of_nat (len document) ++ " characters") ;;
      let patience := 8 in
      let count := 0 in
      DocumentQA_run_async_while (DocumentQA_run_async_rec depth' document query)
        document query patience patience count session
  end.

(** The self-call passes a session, so it never calls itself again: two
    levels are all the recursion there is. *)
Definition DocumentQA_run_async (document query : string)
    (session : option sid) : M json :=
  DocumentQA_run_async_rec 2 document query session.

(** *** Summarize *)

Fixpoint Summarize_call_while (document : string) (patience : nat)
    (fuel count : nat) : M json :=
  if (count <? patience)%nat then
    match fuel with
    | O => out_of_fuel
    | S fuel' =>
        try
          (let url := "https://api.multi.dev/summarize" in
           let headers := json_headers in
           let payload := JDict [("document", JStr document)] in
           print ("[Summarize] running query against document with "
                  ++ str_of_nat (len document) ++ " characters") ;;
           resp <- requests_post url headers payload ;;
           Response_json resp)
        except
          (retrying count ;;
           Summarize_call_while document patience fuel' (count + 1))
    end
  else raise (Exception "[Summarize] failed after hitting max retries").

Definition Summarize_call (document : string) : M json :=
  let patience := 8 in
  let count := 0 in
  Summarize_call_while document patience patience count.

Fixpoint Summarize_run_async_while (self : option sid -> M json)
    (document : string) (patience : nat) (fuel count : nat)
    (session : option sid) : M json :=
  if (count <? patience)%nat then
    match fuel with
    | O => out_of_fuel
    | S fuel' =>
        let url := "https://api.multi.dev/summarize" in
        match session with
        | None =>
            session <- ClientSession ;;
            try
              (finally (self (Some session)) (session_close session))
            except
              (retrying count ;;
               Summarize_run_async_while self document patience
                 fuel' (count + 1) (Some session))
        | Some s =>
            try
              (let headers := json_headers in
               let payload := JDict [("document", JStr document)] in
               print ("[Summarize] running query against document with "
                      ++ str_of_nat (len document) ++ " characters") ;;
               resp <- session_post s url headers payload ;;
               response <- ClientResponse_json resp ;;
               ret response)
            except
              (retrying count ;;
               Summarize_run_async_while self document patience
                 fuel' (count + 1) session)
        end
    end
  else raise (Exception "[Summarize] failed after hitting max retries").

Fixpoint Summarize_run_async_rec (depth : nat) (document : string)
    (session : option sid) : M json :=
  match depth with
  | O => out_of_fuel
  | S depth' =>
      let patience := 8 in
      let count := 0 in
      Summarize_run_async_while (Summarize_run_async_rec depth' document)
        document patience patience count session
  end.

Definition Summarize_run_async (document : string) (session : option sid)
    : M json :=
  Summarize_run_async_rec 2 document session.

(** *** Sql *)

Record Sql : Type :=
  { Sql_headers : list (string * string);
    Sql_url : string }.

(** [Sql()]: the dataclass defaults. *)
Definition Sql_new : Sql :=
  {| Sql_headers := json_headers; Sql_url := "https://api.multi.dev/sql" |}.

(** An [Optional[str]] as a JSON value. *)
Definition json_of_optional_str (v : option string) : json :=
  match v with
  | Some s => JStr s
  | None => JNull
  end.

Definition Sql_call (self : Sql) (query sql_schema : string)
    (sql_variant : option string) : M json :=
  let payload :=
    JDict [("query", JStr query); ("sql_schema", JStr sql_schema);
           ("sql_type", json_of_optional_str sql_variant)] in
  r <- requests_post (Sql_url self) (Sql_headers self) payload ;;
  Response_json r.

Definition Sql_run_async (self : Sql) (query sql_schema : string)
    (sql_variant : option string) (session : option sid) : M json :=
  match session with
  | None =>
      async_with_ClientSession (fun session =>
        resp <- session_post session (Sql_url self) (Sql_headers self)
                  (JDict [("query", JStr query);
                          ("sql_schema", JStr sql_schema);
                          ("sql_type", json_of_optional_str sql_variant)]) ;;
        result <- ClientResponse_json resp ;;
        ret result)
  | Some session =>
      resp <- session_post session (Sql_url self) (Sql_headers self)
                (JDict [("query", JStr query)]) ;;
      result <- ClientResponse_json resp ;;
      ret result
  end.

(** *** Search *)

Record Search : Type :=
  { Search_headers : list (string * string);
    Search_url : string }.

Definition Search_new : Search :=
  {| Search_headers := json_headers;
     Search_url := "https://api.multi.dev/search" |}.

Definition Search_call (self : Search) (query : string) : M json :=
  let payload := JDict [("query", JStr query)] in
  r <- requests_post (Search_url self) (Search_headers self) payload ;;
  Response_json r.

Definition Search_run_async (self : Search) (query : string)
    (session : option sid) : M json :=
  match session with
  | None =>
      async_with_ClientSession (fun session =>
        resp <- session_post session (Search_url self) (Search_headers self)
                  (JDict [("query", JStr query)]) ;;
        result <- ClientResponse_json resp ;;
        ret result)
  | Some session =>
      resp <- session_post session (Search_url self) (Search_headers self)
                (JDict [("query", JStr query)]) ;;
      result <- ClientResponse_json resp ;;
      ret result
  end.

(** *** WebContent *)

Definition WebContent_endpoint_url : string :=
  "https://chrome.browserless.io/content?token="
  ++ str_of_env BROWSERLESS_API_KEY.

Definition WebContent_headers : list (string * string) :=
  [("Content-Type", "application/json"); ("Cache-Control", "no-cache")].

Definition WebContent_call (url : string) : M string :=
  let endpoint_url := WebContent_endpoint_url in
  let payload := JDict [("url", JStr url)] in
  let headers := WebContent_headers in
  response <- requests_post endpoint_url headers payload ;;
  html <- Response_content_decode response ;;
  lift (Document_content html).

Fixpoint WebContent_run_async_rec (depth : nat) (url : string)
    (session : option sid) : M string :=
  match depth with
  | O => out_of_fuel
  | S depth' =>
      match session with
      | None =>
          async_with_ClientSession (fun session =>
            WebContent_run_async_rec depth' url (Some session))
      | Some session =>
          let payload := JDict [("url", JStr url)] in
          let endpoint_url := WebContent_endpoint_url in
          let headers := WebContent_headers in
          resp <- session_post session endpoint_url headers payload ;;
          result <- ClientResponse_read_decode resp ;;
          lift (Document_summary result)
      end
  end.

Definition WebContent_run_async (url : string) (session : option sid)
    : M string :=
  WebContent_run_async_rec 2 url session.

(** *** Structured *)

Record Structured : Type :=
  { Structured_headers : list (string * string);
    Structured_url : string }.

Definition Structured_new : Structured :=
  {| Structured_headers := json_headers;
     Structured_url := "https://api.multi.dev/structured" |}.

(** [dataclasses.asdict(input) if is_dataclass(input) else input.dict()]. *)
Definition input_as_dict (input : instance) : json :=
  if is_dataclass (inst_class input) then inst_fields input
  else inst_fields input.

(** [output_spec.parse_obj(result) if isinstance(output_spec, ModelMetaclass)
    else dacite.from_dict(output_spec, result)]. *)
Definition coerce_output (output_spec : pytype) (result : json) : M instance :=
  if isinstance_ModelMetaclass output_spec
  then lift (parse_obj output_spec result)
  else lift (dacite_from_dict output_spec result).

Definition Structured_call (self : Structured)
    (input_spec output_spec : pytype) (instructions : string)
    (input : instance) : M instance :=
  f_in <- lift (flatten_model input_spec) ;;
  f_out <- lift (flatten_model output_spec) ;;
  let payload :=
    JDict [("input_spec", f_in); ("output_spec", f_out);
           ("instructions", JStr instructions);
           ("input", input_as_dict input)] in
  r <- requests_post (Structured_url self) (Structured_headers self) payload ;;
  body <- Response_json r ;;
  result <- lift (json_getitem body "output") ;;
  coerce_output output_spec result.

Definition Structured_run_async (self : Structured)
    (input_spec output_spec : pytype) (instructions : string)
    (input : instance) (session : option sid) : M instance :=
  f_in <- lift (flatten_model input_spec) ;;
  f_out <- lift (flatten_model output_spec) ;;
  let payload :=
    JDict [("input_spec", f_in); ("output_spec", f_out);
           ("input", input_as_dict input);
           ("instructions", JStr instructions)] in
  match session with
  | None =>
      async_with_ClientSession (fun session =>
        resp <- session_post session (Structured_url self)
                  (Structured_headers self) payload ;;
        result <- ClientResponse_json resp ;;
        result <- lift (json_getitem result "output") ;;
        coerce_output output_spec result)
  | Some session =>
      resp <- session_post session (Structured_url self)
                (Structured_headers self) payload ;;
      body <- ClientResponse_json resp ;;
      result <- lift (json_getitem body "output") ;;
      coerce_output output_spec result
  end.

(** *** The registry and [Capability] *)

Inductive CapabilityBase : Type :=
| A_Summarize
| A_DocumentQA
| A_Sql (self : Sql)
| A_Search (self : Search)
| A_Structured (self : Structured)
| A_WebContent.

Definition _CAPABILITIES : list (string * CapabilityBase) :=
  [("multi/summarize", A_Summarize);
   ("multi/document_qa", A_DocumentQA);
   ("multi/sql", A_Sql Sql_new);
   ("multi/search", A_Search Search_new);
   ("multi/structured", A_Structured Structured_new);
   ("multi/web_content", A_WebContent)].

(** The arguments of one call, passed by keyword.  [sql_variant] is [None]
    when the caller leaves it out, and then takes its default. *)
Inductive arguments : Type :=
| ArgsSummarize (document : string)
| ArgsDocumentQA (document query : string)
| ArgsSql (query sql_schema : string) (sql_variant : option (option string))
| ArgsSearch (query : string)
| ArgsStructured (input_spec output_spec : pytype) (instructions : string)
    (input : instance)
| ArgsWebContent (url : string).

(** What a capability returns: decoded JSON, text, or a typed record. *)
Inductive pyvalue : Type :=
| VJson (j : json)
| VText (s : string)
| VInstance (i : instance).

Definition fmap {A B} (f : A -> B) (m : M A) : M B :=
  a <- m ;; ret (f a).

Definition default_sql_variant (v : option (option string)) : option string :=
  match v with
  | Some given => given
  | None => Some "vanilla"
  end.

Definition bad_arguments {A} : M A :=
  raise (TypeError "arguments do not match the signature").

(** [capability(...)] with the caller's arguments: binding the arguments to the signature
    of [__call__] fails with a [TypeError] when they do not fit. *)
Definition CapabilityBase_call (c : CapabilityBase) (a : arguments) : M pyvalue :=
  match c, a with
  | A_Summarize, ArgsSummarize document =>
      fmap VJson (Summarize_call document)
  | A_DocumentQA, ArgsDocumentQA document query =>
      fmap VJson (DocumentQA_call document query)
  | A_Sql self, ArgsSql query sql_schema sql_variant =>
      fmap VJson (Sql_call self query sql_schema (default_sql_variant sql_variant))
  | A_Search self, ArgsSearch query =>
      fmap VJson (Search_call self query)
  | A_Structured self, ArgsStructured input_spec output_spec instructions input =>
      fmap VInstance (Structured_call self input_spec output_spec instructions input)
  | A_WebContent, ArgsWebContent url =>
      fmap VText (WebContent_call url)
  | _, _ => bad_arguments
  end.

(** [await capability.run_async(..., session=session)]. *)
Definition CapabilityBase_run_async (c : CapabilityBase) (a : arguments)
    (session : option sid) : M pyvalue :=
  match c, a with
  | A_Summarize, ArgsSummarize document =>
      fmap VJson (Summarize_run_async document session)
  | A_DocumentQA, ArgsDocumentQA document query =>
      fmap VJson (DocumentQA_run_async document query session)
  | A_Sql self, ArgsSql query sql_schema sql_variant =>
      fmap VJson (Sql_run_async self query sql_schema
                    (default_sql_variant sql_variant) session)
  | A_Search self, ArgsSearch query =>
      fmap VJson (Search_run_async self query session)
  | A_Structured self, ArgsStructured input_spec output_spec instructions input =>
      fmap VInstance (Structured_run_async self input_spec output_spec
                        instructions input session)
  | A_WebContent, ArgsWebContent url =>
      fmap VText (WebContent_run_async url session)
  | _, _ => bad_arguments
  end.

Record Capability : Type :=
  { uri : string;
    _capability : option CapabilityBase }.

Fixpoint print_keys {V} (d : list (string * V)) : M unit :=
  match d with
  | [] => ret tt
  | (k, _) :: d' => print ("  " ++ k) ;; print_keys d'
  end.

Definition newline : string := String (ascii_of_nat 10) EmptyString.

Definition Capability___post_init__ (self : Capability) : M Capability :=
  match dict_get _CAPABILITIES (uri self) with
  | Some c => ret {| uri := uri self; _capability := Some c |}
  | None =>
      print ("Capability lookup failed for uri=" ++ uri self ++ "."
             ++ newline ++ "Valid URIs are:") ;;
      print_keys _CAPABILITIES ;;
      ret self
  end.

(** [Capability(uri)]: the dataclass [__init__] with [_capability] left to
    its default [None], then [__post_init__]. *)
Definition Capability_new (uri : string) : M Capability :=
  Capability___post_init__ {| uri := uri; _capability := None |}.

Definition Capability_call (self : Capability) (a : arguments) : M pyvalue :=
  match _capability self with
  | Some c => CapabilityBase_call c a
  | None => raise (TypeError "'NoneType' object is not callable")
  end.

Definition Capability_run_async (self : Capability) (a : arguments)
    (session : option sid) : M pyvalue :=
  match _capability self with
  | Some c => CapabilityBase_run_async c a session
  | None =>
      raise (AttributeError "'NoneType' object has no attribute 'run_async'")
  end.

(** ** The retry policy *)

(** The terminal failure of a retry loop: the code raises a plain
    [Exception] whose message starts with the capability's name. *)
Definition RetriesExhausted (name : string) : exn :=
  Exception ("[" ++ name ++ "] failed after hitting max retries").

(** Section 4.1 of the specification, as it words it: call [attempt_fn] up
    to [max_attempts] times; return at the first success; after a failure
    wait [2^attempt_index] units; after [max_attempts] failures signal
    [RetriesExhausted] with the capability's name. *)
Fixpoint RetryPolicy_execute_from {A} (attempt_fn : M A) (name : string)
    (remaining attempt_index : nat) : M A :=
  match remaining with
  | O => raise (RetriesExhausted name)
  | S remaining' =>
      try attempt_fn
      except
        (time_sleep (2 ^ Z.of_nat attempt_index) ;;
         RetryPolicy_execute_from attempt_fn name remaining' (S attempt_index))
  end.

Definition RetryPolicy_execute {A} (attempt_fn : M A) (name : string)
    (max_attempts : nat) : M A :=
  RetryPolicy_execute_from attempt_fn name max_attempts 0.

(** The [while count < patience: try ... except ...] loop that core.py
    writes out four times, with its attempt and its name left open. *)
Fixpoint retry_loop {A} (attempt : M A) (name : string)
    (patience fuel count : nat) : M A :=
  if (count <? patience)%nat then
    match fuel with
    | O => out_of_fuel
    | S fuel' =>
        try attempt
        except
          (retrying count ;;
           retry_loop attempt name patience fuel' (count + 1))
    end
  else raise (RetriesExhausted name).

(** One attempt: a POST, through [requests] or through a session, and the
    decoding of its body. *)
Definition post (via : option sid) (url : string)
    (headers : list (string * string)) (payload : json) : M response :=
  match via with
  | None => requests_post url headers payload
  | Some s => session_post s url headers payload
  end.

(** The [json()] of the client that posted. *)
Definition read_json (via : option sid) (resp : response) : M json :=
  match via with
  | None => Response_json resp
  | Some _ => ClientResponse_json resp
  end.

Definition post_json (via : option sid) (r : request) : M json :=
  resp <- post via (req_url r) (req_headers r) (req_json r) ;;
  read_json via resp.

Definition DocumentQA_request (document query : string) : request :=
  mk_request "https://api.multi.dev/documentqa" json_headers
    (JDict [("document", JStr document); ("query", JStr query)]).

Definition Summarize_request (document : string) : request :=
  mk_request "https://api.multi.dev/summarize" json_headers
    (JDict [("document", JStr document)]).

Definition Summarize_banner (document : string) : string :=
  "[Summarize] running query against document with "
  ++ str_of_nat (len document) ++ " characters".

Definition DocumentQA_banner (document : string) : string :=
  "[DocumentQA] running query against document with "
  ++ str_of_nat (len document) ++ " characters".

(** ** Observations on a trace *)

Definition is_attempt (e : event) : bool :=
  match e with
  | EvRequest _ _ => true
  | EvRefused _ _ => true
  | _ => false
  end.

(** Calls of [requests.post] / [session.post]. *)
Definition attempts (t : list event) : nat :=
  length (filter is_attempt t).

Fixpoint sleeps (t : list event) : list Z :=
  match t with
  | [] => []
  | EvSleep d :: t' => d :: sleeps t'
  | _ :: t' => sleeps t'
  end.

Fixpoint requests (t : list event) : list request :=
  match t with
  | [] => []
  | EvRequest _ r :: t' => r :: requests t'
  | _ :: t' => requests t'
  end.

Definition total (l : list Z) : Z := fold_right Z.add 0%Z l.

(** The delays [2^count, ..., 2^(count+n-1)]. *)
Definition backoff (count n : nat) : list Z :=
  map (fun k => (2 ^ Z.of_nat k)%Z) (seq count n).

(** ** Vocabulary of the proofs *)

(** The world [n] POSTs and the events [t] after [w]. *)
Definition after (w : world) (n : nat) (t : list event) : world :=
  {| sessions := sessions w; sent := sent w + n; trace := trace w ++ t |}.

(** A session a call may post through: [requests] needs none. *)
Definition via_ok (w : world) (via : option sid) : Prop :=
  match via with
  | None => True
  | Some s => session_is_open w s = true
  end.

(** ** One attempt *)

(** The client behind a POST: [requests] when there is no session, aiohttp
    through a session. *)
Definition library_of (via : option sid) : library :=
  match via with
  | None => Requests
  | Some _ => Aiohttp
  end.

Definition outcome_of {A} (r : exn + A) : outcome A :=
  match r with
  | inl e => Raised e
  | inr a => Returned a
  end.

(** What the client [lib] decodes from the reply to the [n]-th POST,
    [None] when the POST or the decoding raises. *)
Definition decoded (lib : library) (n : nat) (r : request) : option json :=
  match net lib n r with
  | inr resp =>
      match resp_json resp with
      | inr j => Some j
      | inl _ => None
      end
  | inl _ => None
  end.

(** A POST through [lib] and the decoding of its reply: the body, or the
    exception the client raised on the way. *)
Definition reply_outcome (lib : library) (n : nat) (r : request)
    : outcome json :=
  match net lib n r with
  | inr resp => outcome_of (resp_json resp)
  | inl e => Raised e
  end.

(** The line printed before the wait that follows failure number [count]. *)
Definition retry_line (count : nat) : string :=
  "retrying after sleeping for " ++ fmt_2f (2 ^ Z.of_nat count).

(** What [n] failed iterations leave in the trace, from iteration [count]
    on: the attempt's own events [att], the line, the wait. *)
Definition failed_rounds (att : list event) (count n : nat) : list event :=
  flat_map
    (fun k => (att ++ [EvPrint (retry_line k); EvSleep (2 ^ Z.of_nat k)])%list)
    (seq count n).

(** [attempt] prints [pre], posts [r] through [via] and decodes the reply. *)
Definition posts (attempt : M json) (pre : list event) (via : option sid)
    (r : request) : Prop :=
  forall w, via_ok w via ->
    attempt w = (reply_outcome (library_of via) (sent w) r,
                 after w 1 (pre ++ [EvRequest via r])).

(** [attempt] prints [pre] and is refused on the closed session [s]. *)
Definition refused (attempt : M json) (pre : list event) (s : sid)
    (r : request) : Prop :=
  forall w, session_is_open w s = false ->
    attempt w = (Raised (RuntimeError "Session is closed"),
                 after w 0 (pre ++ [EvRefused s r])).

(** Pointwise equality of computations. *)
Definition eqM {A} (m1 m2 : M A) : Prop := forall w, m1 w = m2 w.

(** The attempts of the two retrying capabilities. *)
Definition DocumentQA_attempt (via : option sid) (document query : string)
    : M json :=
  post_json via (DocumentQA_request document query).

Definition Summarize_attempt (via : option sid) (document : string) : M json :=
  print (Summarize_banner document) ;;
  post_json via (Summarize_request document).

(** How a retry loop with [remaining] iterations left fares on the network
    from POST number [idx] on, posting through [lib]: the number of
    failures before the first decodable reply, and that reply ([None] when
    every attempt fails). *)
Fixpoint failures_then (lib : library) (r : request) (idx remaining : nat)
    : nat * option json :=
  match remaining with
  | O => (0, None)
  | S remaining' =>
      match decoded lib idx r with
      | Some j => (0, Some j)
      | None =>
          let (m, res) := failures_then lib r (S idx) remaining' in
          (S m, res)
      end
  end.

(** The events a call added to the trace. *)
Definition events_since (w w' : world) : list event :=
  skipn (length (trace w)) (trace w').

(** What goes over the wire, and when: the requests and the waits. *)
Inductive wire_event : Type :=
| WRequest (r : request)
| WSleep (d : Z).

Fixpoint wire (t : list event) : list wire_event :=
  match t with
  | [] => []
  | EvRequest _ r :: t' => WRequest r :: wire t'
  | EvSleep d :: t' => WSleep d :: wire t'
  | _ :: t' => wire t'
  end.

(** Two runs from the same world that return or raise the same thing after
    the same requests and the same waits. *)
Definition same_run {A} (w : world) (x y : outcome A * world) : Prop :=
  fst x = fst y /\
  wire (events_since w (snd x)) = wire (events_since w (snd y)).

(** The run of a retrying entry point on any network: [lead] is printed
    first, every iteration leaves [att], and [failures_then] tells how many
    iterations fail. *)
Definition retry_result (name : string) (lead att : list event)
    (patience : nat) (lib : library) (r : request) (w : world)
    : outcome json * world :=
  match failures_then lib r (sent w) patience with
  | (m, Some j) =>
      (Returned j, after w (S m) (lead ++ failed_rounds att 0 m ++ att)%list)
  | (m, None) =>
      (Raised (RetriesExhausted name),
       after w m (lead ++ failed_rounds att 0 m)%list)
  end.

(** The first iteration of a [run_async] loop entered without a session:
    the session is created, the function calls itself with it, the session
    is closed, and on failure the loop goes on with the session it has just
    closed. *)
Definition without_session {A} (self : option sid -> M A)
    (attempt : sid -> M A) (name : string) (patience fuel count : nat) : M A :=
  session <- ClientSession ;;
  try
    (finally (self (Some session)) (session_close session))
  except
    (retrying count ;;
     retry_loop (attempt session) name patience fuel (count + 1)).

(** The world after a call that created one session, and closed it. *)
Definition closed_after (w : world) (n : nat) (t : list event) : world :=
  {| sessions := sessions w ++ [Closed];
     sent := sent w + n;
     trace := trace w ++ t |}.

(** ** Invocations *)

(** The two entry points of a capability. *)
Inductive entry : Type :=
| Sync
| Async (session : option sid).

Definition invoke (c : CapabilityBase) (a : arguments) (e : entry) : M pyvalue :=
  match e with
  | Sync => CapabilityBase_call c a
  | Async session => CapabilityBase_run_async c a session
  end.

(** The client an entry point posts with: [__call__] uses [requests],
    [run_async] an aiohttp session, the caller's or its own. *)
Definition library_of_entry (e : entry) : library :=
  match e with
  | Sync => Requests
  | Async _ => Aiohttp
  end.

(** The arguments are those of the capability's signature. *)
Definition fits (c : CapabilityBase) (a : arguments) : bool :=
  match c, a with
  | A_Summarize, ArgsSummarize _ => true
  | A_DocumentQA, ArgsDocumentQA _ _ => true
  | A_Sql _, ArgsSql _ _ _ => true
  | A_Search _, ArgsSearch _ => true
  | A_Structured _, ArgsStructured _ _ _ _ => true
  | A_WebContent, ArgsWebContent _ => true
  | _, _ => false
  end.

(** The capabilities whose entry points are written as a retry loop. *)
Definition retries (c : CapabilityBase) : bool :=
  match c with
  | A_Summarize | A_DocumentQA => true
  | _ => false
  end.

Definition capability_name (c : CapabilityBase) : string :=
  match c with
  | A_Summarize => "Summarize"
  | A_DocumentQA => "DocumentQA"
  | A_Sql _ => "Sql"
  | A_Search _ => "Search"
  | A_Structured _ => "Structured"
  | A_WebContent => "WebContent"
  end.

(** Both specs of a Structured call flatten; nothing to flatten elsewhere. *)
Definition flattens (a : arguments) : bool :=
  match a with
  | ArgsStructured input_spec output_spec _ _ =>
      match flatten_model input_spec, flatten_model output_spec with
      | inr _, inr _ => true
      | _, _ => false
      end
  | _ => true
  end.

(** The call ended in [RetriesExhausted name] after [n] attempts. *)
Definition exhausted_after {A} (name : string) (n : nat) (w : world)
    (x : outcome A * world) : Prop :=
  fst x = Raised (RetriesExhausted name) /\
  attempts (events_since w (snd x)) = n.

(** The call made one attempt, did not wait, and let the attempt's own
    error through: the exception its client raised for the POST, or the
    refusal of a closed session. *)
Definition failed_at_once {A} (w : world) (x : outcome A * world) : Prop :=
  attempts (events_since w (snd x)) = 1 /\
  sleeps (events_since w (snd x)) = [] /\
  ((exists via r err,
      In (EvRequest via r) (events_since w (snd x)) /\
      net (library_of via) (sent w) r = inl err /\
      fst x = Raised err) \/
   fst x = Raised (RuntimeError "Session is closed")).

(** Every POST fails, whatever the client. *)
Definition transport_down : Prop :=
  forall lib n r, exists err, net lib n r = inl err.

(** No POST through [lib] brings back a body that decodes. *)
Definition nothing_decodes (lib : library) : Prop :=
  forall n r, decoded lib n r = None.

Definition is_returned {A} (o : outcome A) : bool :=
  match o with
  | Returned _ => true
  | _ => false
  end.

Definition map_outcome {A B} (f : A -> B) (o : outcome A) : outcome B :=
  match o with
  | Returned a => Returned (f a)
  | Raised e => Raised e
  | Diverged => Diverged
  end.

(** ** Single attempts *)

(** The outcome of POST number [n] of request [r] through [lib], the reply
    being read by [k]. *)
Definition respond {A} (lib : library) (k : response -> outcome A) (n : nat)
    (r : request) : outcome A :=
  match net lib n r with
  | inr resp => k resp
  | inl e => Raised e
  end.

Definition as_json (resp : response) : outcome json :=
  outcome_of (resp_json resp).

(** The body read as text and handed to readability's [extract]. *)
Definition as_text (extract : string -> exn + string) (resp : response)
    : outcome string :=
  match resp_content resp with
  | inr html => outcome_of (extract html)
  | inl e => Raised e
  end.

(** The [output] field of the decoded reply, handed to pydantic or to
    dacite according to the class of [output_spec]. *)
Definition as_structured (output_spec : pytype) (resp : response)
    : outcome instance :=
  match resp_json resp with
  | inl e => Raised e
  | inr body =>
      match json_getitem body "output" with
      | inl e => Raised e
      | inr result =>
          if isinstance_ModelMetaclass output_spec
          then outcome_of (parse_obj output_spec result)
          else outcome_of (dacite_from_dict output_spec result)
      end
  end.

(** One POST through [via], and nothing else. *)
Definition one_shot {A} (via : option sid) (r : request)
    (k : response -> outcome A) (w : world) : outcome A * world :=
  (respond (library_of via) k (sent w) r, after w 1 [EvRequest via r]).

(** One POST through a session created for it and closed after it. *)
Definition one_shot_own {A} (r : request) (k : response -> outcome A)
    (w : world) : outcome A * world :=
  let s : sid := length (sessions w) in
  (respond Aiohttp k (sent w) r,
   closed_after w 1 [EvOpen s; EvRequest (Some s) r; EvClose s]).

(** One POST that a closed session refuses. *)
Definition one_shot_refused {A} (s : sid) (r : request) (w : world)
    : outcome A * world :=
  (Raised (RuntimeError "Session is closed"), after w 0 [EvRefused s r]).

Definition Sql_request (self : Sql) (query sql_schema : string)
    (sql_variant : option string) : request :=
  mk_request (Sql_url self) (Sql_headers self)
    (JDict [("query", JStr query); ("sql_schema", JStr sql_schema);
            ("sql_type", json_of_optional_str sql_variant)]).

(** What [Sql.run_async] sends when it is given a session. *)
Definition Sql_request_in_session (self : Sql) (query : string) : request :=
  mk_request (Sql_url self) (Sql_headers self) (JDict [("query", JStr query)]).

Definition Search_request (self : Search) (query : string) : request :=
  mk_request (Search_url self) (Search_headers self)
    (JDict [("query", JStr query)]).

Definition WebContent_request (url : string) : request :=
  mk_request WebContent_endpoint_url WebContent_headers
    (JDict [("url", JStr url)]).

Definition Structured_request (self : Structured) (f_in f_out : json)
    (instructions : string) (input : instance) : request :=
  mk_request (Structured_url self) (Structured_headers self)
    (JDict [("input_spec", f_in); ("output_spec", f_out);
            ("instructions", JStr instructions);
            ("input", input_as_dict input)]).

Definition Structured_request_async (self : Structured) (f_in f_out : json)
    (instructions : string) (input : instance) : request :=
  mk_request (Structured_url self) (Structured_headers self)
    (JDict [("input_spec", f_in); ("output_spec", f_out);
            ("input", input_as_dict input);
            ("instructions", JStr instructions)]).

(** ** Sample surroundings *)

(** What each client raises when the connection is refused. *)
Definition refused_connection (lib : library) : exn :=
  match lib with
  | Requests => ConnectionError
  | Aiohttp => ClientConnectionError
  end.

(** A network on which every POST fails. *)
Definition never : library -> nat -> request -> exn + response :=
  fun lib _ _ => inl (refused_connection lib).

Definition quote : string := String (ascii_of_nat 34) EmptyString.

(** The text of a JSON value, as [json.dumps] writes it (no escapes: the
    sample strings need none). *)
Fixpoint dumps (j : json) : string :=
  match j with
  | JNull => "null"
  | JBool true => "true"
  | JBool false => "false"
  | JInt z => NilZero.string_of_int (Z.to_int z)
  | JReal digits => digits
  | JStr s => quote ++ s ++ quote
  | JList l => "[" ++ String.concat ", " (map dumps l) ++ "]"
  | JDict d =>
      "{" ++ String.concat ", "
               (map (fun item : string * json =>
                       let (k, v) := item in
                       quote ++ k ++ quote ++ ": " ++ dumps v) d)
          ++ "}"
  end.

(** The reply with body [dumps j], served as [application/json]: either
    client decodes [j] from it. *)
Definition json_reply (j : json) : response :=
  {| resp_json := inr j; resp_content := inr (dumps j) |}.

(** The same body served as [text/plain], as each client reads it:
    requests' [json()] decodes it all the same, aiohttp's raises
    [ContentTypeError]. *)
Definition text_reply (j : json) (lib : library) : response :=
  {| resp_json := match lib with
                  | Requests => inr j
                  | Aiohttp => inl ContentTypeError
                  end;
     resp_content := inr (dumps j) |}.

(** A network whose POST number [k] is the first to succeed, with body [j]
    served as JSON. *)
Definition succeeds_at (k : nat) (j : json)
    : library -> nat -> request -> exn + response :=
  fun lib n _ =>
    if (n <? k)%nat then inl (refused_connection lib)
    else inr (json_reply j).

(** A network that answers every POST with the same reply. *)
Definition always (resp : response)
    : library -> nat -> request -> exn + response :=
  fun _ _ _ => inr resp.

(** A network that answers every POST with [j] served as [text/plain]. *)
Definition always_as_text (j : json)
    : library -> nat -> request -> exn + response :=
  fun lib _ _ => inr (text_reply j lib).

(** Two strict parsers, to stand in for pydantic and for dacite in the
    concrete runs: a value conforms to a class when every declared field is
    there with a value of the declared type, through nested records and
    lists; the two differ in the exception they raise. *)
Fixpoint conforms (t : pytype) (x : json) : bool :=
  match t, x with
  | Str, JStr _ => true
  | Bool, JBool _ => true
  | Int, JInt _ => true
  | Float, JReal _ => true
  | Float, JInt _ => true
  | Generic _ (elt :: _), JList l => forallb (conforms elt) l
  | Model _ fields, JDict d =>
      forallb (fun f => match dict_get d (fst f) with
                        | Some v => conforms (snd f) v
                        | None => false
                        end) fields
  | Dataclass _ fields, JDict d =>
      forallb (fun f => match dict_get d (fst f) with
                        | Some v => conforms (snd f) v
                        | None => false
                        end) fields
  | _, _ => false
  end.

Definition strict_parse (cls : pytype) (x : json) : exn + instance :=
  if conforms cls x
  then inr {| inst_class := cls; inst_fields := x |}
  else inl (ValidationError "value does not conform to the class").

Definition strict_from_dict (cls : pytype) (x : json) : exn + instance :=
  if conforms cls x
  then inr {| inst_class := cls; inst_fields := x |}
  else inl (DaciteError "value does not conform to the class").

(** A record with a nested record and a list of records, a value of it,
    and a value that lacks a required nested field. *)
Definition Address : pytype := Model "Address" [("city", Str)].

Definition Customer : pytype :=
  Model "Customer"
    [("address", Address); ("previous", Generic "List" [Address])].

Definition customer_value : json :=
  JDict [("address", JDict [("city", JStr "Oslo")]);
         ("previous", JList [JDict [("city", JStr "Bergen")]])].

Definition customer_without_city : json :=
  JDict [("address", JDict []); ("previous", JList [])].

(** The same record as a dataclass. *)
Definition CustomerRecord : pytype :=
  Dataclass "CustomerRecord"
    [("address", Address); ("previous", Generic "List" [Address])].

Definition reply_with_output (x : json) : response :=
  json_reply (JDict [("output", x)]).

(** A schema with a field of a type [flatten_model] has no case for. *)
Definition Appointment : pytype :=
  Model "Appointment" [("title", Str); ("when", Opaque "datetime.datetime")].

(** A schema with a bare [typing.List] field before a field of a type
    [flatten_model] has no case for. *)
Definition Schedule : pytype :=
  Model "Schedule"
    [("slots", Generic "List" []); ("when", Opaque "datetime.datetime")].

Definition a_question : instance :=
  {| inst_class := Model "Question" [("text", Str)];
     inst_fields := JDict [("text", JStr "who?")] |}.

(** Two extractors, to stand in for readability's [content()] and
    [summary()] in the concrete runs: each fails on an empty document, as
    lxml does, and the two differ on every other. *)
Definition sample_content (html : string) : exn + string :=
  if String.eqb html EmptyString then inl (ParserError "Document is empty")
  else inr ("content of " ++ html).

Definition sample_summary (html : string) : exn + string :=
  if String.eqb html EmptyString then inl (ParserError "Document is empty")
  else inr ("summary of " ++ html).

(** The request a retrying capability posts at every attempt. *)
Definition retry_request (a : arguments) : request :=
  match a with
  | ArgsDocumentQA document query => DocumentQA_request document query
  | ArgsSummarize document => Summarize_request document
  | _ => mk_request EmptyString [] JNull
  end.

(** A session handed to an entry point is open. *)
Definition entry_ok (w : world) (e : entry) : Prop :=
  match e with
  | Async (Some s) => session_is_open w s = true
  | _ => True
  end.

(** The trace of a run of a retry loop: [m] failed iterations, each one
    the attempt [att], the progress line and the wait of [2^k], then the
    winning attempt if there is one.  A run that does not return has failed
    [patience] times and raises the terminal failure; a run that returns
    has met a reply that its client [lib] decodes. *)
Definition retry_shaped {A} (name : string) (patience : nat) (lib : library)
    (w : world) (x : outcome A * world) : Prop :=
  exists lead att m,
    m <= patience /\
    attempts lead = 0 /\ sleeps lead = [] /\
    attempts att = 1 /\ sleeps att = [] /\
    events_since w (snd x) =
      (lead ++ failed_rounds att 0 m
       ++ (if is_returned (fst x) then att else []))%list /\
    (is_returned (fst x) = false ->
     m = patience /\ fst x = Raised (RetriesExhausted name)) /\
    (is_returned (fst x) = true -> ~ nothing_decodes lib).

(** ** Comparing entry points *)

(** The two clients decode the same body from the same reply, or both
    decode none: what holds of replies served as [application/json]. *)
Definition clients_decode_alike : Prop :=
  forall n r, decoded Requests n r = decoded Aiohttp n r.

(** What [n] failed iterations of the specification's loop leave in the
    trace: the attempt, the wait, and no progress line. *)
Definition spec_rounds (att : list event) (idx n : nat) : list event :=
  flat_map (fun k => (att ++ [EvSleep (2 ^ Z.of_nat k)])%list) (seq idx n).

(** Two payloads that are the same Python dict: the same items, in any
    order. *)
Definition payload_alike (p q : json) : Prop :=
  match p, q with
  | JDict d1, JDict d2 => Permutation d1 d2
  | _, _ => p = q
  end.

Definition request_alike (r1 r2 : request) : Prop :=
  req_url r1 = req_url r2 /\
  req_headers r1 = req_headers r2 /\
  payload_alike (req_json r1) (req_json r2).

Definition wire_event_alike (x y : wire_event) : Prop :=
  match x, y with
  | WRequest r1, WRequest r2 => request_alike r1 r2
  | WSleep d1, WSleep d2 => d1 = d2
  | _, _ => False
  end.

(** The same requests, to the same URLs, and the same waits, in the same
    order. *)
Definition wire_alike (t u : list event) : Prop :=
  Forall2 wire_event_alike (wire t) (wire u).

(** The ways of calling [run_async] that the comparison covers: no session
    for the capabilities that post once, an open session for all but Sql. *)
Definition compared (c : CapabilityBase) (w : world) (session : option sid)
    : Prop :=
  match session with
  | None => retries c = false
  | Some s =>
      session_is_open w s = true /\
      match c with
      | A_Sql _ => False
      | _ => True
      end
  end.

(** The capabilities that hand back the decoded reply as it is. *)
Definition returns_reply (c : CapabilityBase) : bool :=
  match c with
  | A_Structured _ | A_WebContent => false
  | _ => true
  end.

(** The URL a capability posts to. *)
Definition endpoint (c : CapabilityBase) : string :=
  match c with
  | A_Summarize => "https://api.multi.dev/summarize"
  | A_DocumentQA => "https://api.multi.dev/documentqa"
  | A_Sql self => Sql_url self
  | A_Search self => Search_url self
  | A_Structured self => Structured_url self
  | A_WebContent => WebContent_endpoint_url
  end.

(** Every request of the trace goes to [url]. *)
Definition requests_to (url : string) (t : list event) : Prop :=
  Forall (fun r => req_url r = url) (requests t).

(** ** Schemas *)

(** The objects [flatten_model] has no case for. *)
Definition unsupported (m : pytype) : bool :=
  match m with
  | Opaque _ => true
  | Generic _name _ => negb (String.eqb _name "List")
  | _ => false
  end.

(** [t] is [m] itself, or the type of a field of [m], or the element type
    of a list in [m], and so on down. *)
Inductive occurs_in : pytype -> pytype -> Prop :=
| occurs_here (m : pytype) : occurs_in m m
| occurs_in_model (name field : string) (fields : list (string * pytype))
    (v t : pytype) :
    In (field, v) fields -> occurs_in v t -> occurs_in (Model name fields) t
| occurs_in_dataclass (name field : string)
    (fields : list (string * pytype)) (v t : pytype) :
    In (field, v) fields -> occurs_in v t ->
    occurs_in (Dataclass name fields) t
| occurs_in_list (elt : pytype) (rest : list pytype) (t : pytype) :
    occurs_in elt t -> occurs_in (Generic "List" (elt :: rest)) t.

(** Every [typing.List] alias carries its element type, as [List[T]]
    does. *)
Fixpoint lists_have_element (m : pytype) : bool :=
  match m with
  | Generic _name __args__ =>
      if String.eqb _name "List" then
        match __args__ with
        | a :: _ => lists_have_element a
        | [] => false
        end
      else true
  | Model _ fields =>
      forallb (fun f => lists_have_element (snd f)) fields
  | Dataclass _ fields =>
      forallb (fun f => lists_have_element (snd f)) fields
  | _ => true
  end.

(** The record of the specification's example. *)
Definition Person : pytype :=
  Model "Person"
    [("name", Str); ("age", Int); ("tags", Generic "List" [Str])].

(** ** The registry *)

(** What Python raises when a [Capability] whose lookup failed is used:
    [None(...)] is a [TypeError], [None.run_async] an [AttributeError]. *)
Definition UnboundCapabilityError (e : exn) : Prop :=
  e = TypeError "'NoneType' object is not callable" \/
  e = AttributeError "'NoneType' object has no attribute 'run_async'".

(** The lines [Capability.__post_init__] prints when the lookup fails. *)
Definition lookup_failed_lines (uri : string) : list event :=
  [EvPrint ("Capability lookup failed for uri=" ++ uri ++ "." ++ newline
            ++ "Valid URIs are:");
   EvPrint "  multi/summarize";
   EvPrint "  multi/document_qa";
   EvPrint "  multi/sql";
   EvPrint "  multi/search";
   EvPrint "  multi/structured";
   EvPrint "  multi/web_content"].

(** ** Further vocabulary *)

(** The headers a capability posts with. *)
Definition headers_of (c : CapabilityBase) : list (string * string) :=
  match c with
  | A_Summarize | A_DocumentQA => json_headers
  | A_Sql self => Sql_headers self
  | A_Search self => Search_headers self
  | A_Structured self => Structured_headers self
  | A_WebContent => WebContent_headers
  end.

Definition is_WebContent (c : CapabilityBase) : bool :=
  match c with
  | A_WebContent => true
  | _ => false
  end.

(** What [flatten_model] can return: a tag, a one-element list of such, a
    dict of such. *)
Inductive flat_schema : json -> Prop :=
| flat_tag (s : string) :
    In s ["string"; "bool"; "float"; "int"] -> flat_schema (JStr s)
| flat_list (v : json) : flat_schema v -> flat_schema (JList [v])
| flat_dict (d : list (string * json)) :
    Forall (fun item => flat_schema (snd item)) d -> flat_schema (JDict d).

(** A reply whose body is not JSON, for either client. *)
Definition not_json : response :=
  {| resp_json := inl JSONDecodeError;
     resp_content := inr "<html>busy</html>" |}.

(** A world in which the caller has opened one session, of id 0. *)
Definition world_with_session : world :=
  {| sessions := [Open]; sent := 0; trace := [] |}.

(** * Proofs *)

Local Open Scope list_scope.

(** Step into the entry point that [invoke] selects. *)
Ltac enter := cbn [invoke CapabilityBase_call CapabilityBase_run_async].

(** ** Worlds and single attempts *)

Lemma after_0 (w : world) : after w 0 [] = w.
Proof.
  destruct w as [ss n t]. unfold after. simpl.
  now rewrite Nat.add_0_r, app_nil_r.
Qed.

Lemma after_after (w : world) (n m : nat) (t u : list event) :
  after (after w n t) m u = after w (n + m) (t ++ u).
Proof.
  unfold after. simpl. now rewrite Nat.add_assoc, app_assoc.
Qed.

Lemma emit_after (e : event) (w : world) : emit e w = after w 0 [e].
Proof. unfold emit, after. now rewrite Nat.add_0_r. Qed.

Lemma emit_sent_after (e : event) (w : world) : emit_sent e w = after w 1 [e].
Proof. unfold emit_sent, after. now rewrite Nat.add_1_r. Qed.

Lemma session_is_open_after (w : world) (n : nat) (t : list event) (s : sid) :
  session_is_open (after w n t) s = session_is_open w s.
Proof. reflexivity. Qed.

Lemma via_ok_after (w : world) (n : nat) (t : list event) (via : option sid) :
  via_ok w via -> via_ok (after w n t) via.
Proof. destruct via; simpl; auto. Qed.

Lemma reply_outcome_decoded (lib : library) (n : nat) (r : request) :
  reply_outcome lib n r =
  match decoded lib n r with
  | Some j => Returned j
  | None => reply_outcome lib n r
  end.
Proof.
  unfold reply_outcome, decoded.
  destruct (net lib n r) as [e|resp]; [|destruct (resp_json resp)];
    reflexivity.
Qed.

Lemma reply_outcome_failed (lib : library) (n : nat) (r : request) :
  decoded lib n r = None -> exists e, reply_outcome lib n r = Raised e.
Proof.
  unfold reply_outcome, decoded.
  destruct (net lib n r) as [e|resp]; [|destruct (resp_json resp)];
    intros H; try discriminate; simpl; eauto.
Qed.

Lemma post_json_spec (via : option sid) (r : request) (w : world) :
  via_ok w via ->
  post_json via r w =
  (reply_outcome (library_of via) (sent w) r, after w 1 [EvRequest via r]).
Proof.
  intros Hok. destruct r as [url headers payload].
  unfold post_json, post, bind, reply_outcome, mk_request. simpl.
  destruct via as [s|]; simpl in *.
  - unfold session_post, mk_request. rewrite Hok.
    destruct (net _ _ _) as [e|resp]; rewrite emit_sent_after; auto.
    unfold ClientResponse_json, lift; destruct (resp_json resp); reflexivity.
  - unfold requests_post, mk_request.
    destruct (net _ _ _) as [e|resp]; rewrite emit_sent_after; auto.
    unfold Response_json, lift; destruct (resp_json resp); reflexivity.
Qed.

Lemma post_json_refused (s : sid) (r : request) (w : world) :
  session_is_open w s = false ->
  post_json (Some s) r w =
  (Raised (RuntimeError "Session is closed"), after w 0 [EvRefused s r]).
Proof.
  intros Hc. destruct r as [url headers payload].
  unfold post_json, post, bind, session_post, mk_request. simpl.
  now rewrite Hc, emit_after.
Qed.


(** ** The loop *)

Lemma retrying_spec (count : nat) (w : world) :
  retrying count w =
  (Returned tt,
   after w 0 [EvPrint (retry_line count); EvSleep (2 ^ Z.of_nat count)]).
Proof.
  unfold retrying, bind, print, time_sleep, retry_line.
  rewrite !emit_after, after_after. reflexivity.
Qed.

Lemma retry_loop_ext {A} (a1 a2 : M A) (name : string) (patience : nat) :
  eqM a1 a2 ->
  forall fuel count, eqM (retry_loop a1 name patience fuel count)
                         (retry_loop a2 name patience fuel count).
Proof.
  intros Ha. induction fuel as [|fuel IH]; intros count w; simpl;
    destruct (count <? patience)%nat; try reflexivity.
  unfold try_except. rewrite Ha.
  destruct (a2 w) as [[a|e|] w']; try reflexivity.
  unfold bind. destruct (retrying count w') as [[[]|e'|] w'']; try reflexivity.
  apply IH.
Qed.

Lemma retry_loop_stop {A} (attempt : M A) (name : string)
    (patience fuel count : nat) (w : world) :
  patience <= count ->
  retry_loop attempt name patience fuel count w = (Raised (RetriesExhausted name), w).
Proof.
  intros H. destruct fuel; simpl;
    (destruct (Nat.ltb_spec count patience); [lia | reflexivity]).
Qed.

Lemma retry_loop_failed {A} (attempt : M A) (name : string)
    (patience fuel count : nat) (w w' : world) (e : exn) :
  count < patience ->
  attempt w = (Raised e, w') ->
  retry_loop attempt name patience (S fuel) count w =
  retry_loop attempt name patience fuel (count + 1)
    (after w' 0 [EvPrint (retry_line count); EvSleep (2 ^ Z.of_nat count)]).
Proof.
  intros Hlt Hatt. simpl.
  destruct (Nat.ltb_spec count patience); [|lia].
  unfold try_except. rewrite Hatt. unfold bind. now rewrite retrying_spec.
Qed.

Lemma retry_loop_succeeded {A} (attempt : M A) (name : string)
    (patience fuel count : nat) (w w' : world) (a : A) :
  count < patience ->
  attempt w = (Returned a, w') ->
  retry_loop attempt name patience (S fuel) count w = (Returned a, w').
Proof.
  intros Hlt Hatt. simpl.
  destruct (Nat.ltb_spec count patience); [|lia].
  unfold try_except. now rewrite Hatt.
Qed.

Lemma failed_rounds_S (att : list event) (count n : nat) :
  failed_rounds att count (S n) =
  (att ++ [EvPrint (retry_line count); EvSleep (2 ^ Z.of_nat count)])
  ++ failed_rounds att (S count) n.
Proof. reflexivity. Qed.

(** [n] failing attempts in a row take the loop [n] iterations further. *)
Lemma retry_loop_fail_n (attempt : M json) (name : string) (patience : nat)
    (pre : list event) (via : option sid) (r : request) :
  posts attempt pre via r ->
  forall n fuel count w,
    via_ok w via ->
    (forall i, i < n -> decoded (library_of via) (sent w + i) r = None) ->
    count + n <= patience ->
    retry_loop attempt name patience (n + fuel) count w =
    retry_loop attempt name patience fuel (count + n)
      (after w n (failed_rounds (pre ++ [EvRequest via r]) count n)).
Proof.
  intros Hp. induction n as [|n IH]; intros fuel count w Hok Hfail Hle.
  - now rewrite Nat.add_0_r, after_0.
  - destruct (reply_outcome_failed (library_of via) (sent w) r) as [e He].
    { rewrite <- (Nat.add_0_r (sent w)). apply Hfail. lia. }
    simpl Nat.add.
    rewrite (retry_loop_failed attempt name patience (n + fuel) count w
               (after w 1 (pre ++ [EvRequest via r])) e); [|lia|].
    2:{ rewrite (Hp w Hok). now rewrite He. }
    rewrite after_after.
    rewrite IH.
    + rewrite after_after, failed_rounds_S.
      replace (count + 1 + n) with (count + S n) by lia.
      replace (1 + 0 + n) with (S n) by lia.
      replace (count + 1) with (S count) by lia.
      now rewrite <- !app_assoc.
    + now apply via_ok_after.
    + intros i Hi.
      replace (sent (after w (1 + 0) ((pre ++ [EvRequest via r]) ++
                 [EvPrint (retry_line count); EvSleep (2 ^ Z.of_nat count)])) + i)
        with (sent w + S i) by (simpl; lia).
      apply Hfail. lia.
    + lia.
Qed.

Lemma retry_loop_refused_n (attempt : M json) (name : string)
    (patience : nat) (pre : list event) (s : sid) (r : request) :
  refused attempt pre s r ->
  forall n fuel count w,
    session_is_open w s = false ->
    count + n <= patience ->
    retry_loop attempt name patience (n + fuel) count w =
    retry_loop attempt name patience fuel (count + n)
      (after w 0 (failed_rounds (pre ++ [EvRefused s r]) count n)).
Proof.
  intros Hp. induction n as [|n IH]; intros fuel count w Hc Hle.
  - now rewrite Nat.add_0_r, after_0.
  - simpl Nat.add.
    rewrite (retry_loop_failed attempt name patience (n + fuel) count w
               (after w 0 (pre ++ [EvRefused s r]))
               (RuntimeError "Session is closed")); [|lia|now apply Hp].
    rewrite after_after.
    rewrite IH; [|exact Hc|lia].
    rewrite after_after, failed_rounds_S.
    replace (count + 1 + n) with (count + S n) by lia.
    replace (count + 1) with (S count) by lia.
    now rewrite <- !app_assoc.
Qed.

(** ** The four loops of core.py are [retry_loop] *)

Lemma bind_ret_r {A} (m : M A) : eqM (x <- m ;; ret x) m.
Proof. intros w. unfold bind, ret. now destruct (m w) as [[a|e|] w']. Qed.

Lemma DocumentQA_call_while_eq (document query : string)
    (patience fuel count : nat) :
  DocumentQA_call_while document query patience fuel count =
  retry_loop (DocumentQA_attempt None document query) "DocumentQA"
    patience fuel count.
Proof.
  revert count. induction fuel as [|fuel IH]; intros count; simpl.
  - reflexivity.
  - now rewrite IH.
Qed.

Lemma Summarize_call_while_eq (document : string) (patience fuel count : nat) :
  Summarize_call_while document patience fuel count =
  retry_loop (Summarize_attempt None document) "Summarize"
    patience fuel count.
Proof.
  revert count. induction fuel as [|fuel IH]; intros count; simpl.
  - reflexivity.
  - now rewrite IH.
Qed.

Lemma DocumentQA_run_async_while_Some (self : option sid -> M json)
    (document query : string) (patience : nat) (s : sid) :
  forall fuel count,
    eqM (DocumentQA_run_async_while self document query patience fuel count
           (Some s))
        (retry_loop (DocumentQA_attempt (Some s) document query) "DocumentQA"
           patience fuel count).
Proof.
  induction fuel as [|fuel IH]; intros count w; simpl.
  - reflexivity.
  - destruct (count <? patience)%nat; [|reflexivity].
    unfold try_except.
    change (resp <- session_post s "https://api.multi.dev/documentqa"
                      json_headers
                      (JDict [("document", JStr document); ("query", JStr query)]) ;;
            response <- ClientResponse_json resp ;; ret response)
      with (resp <- post (Some s)
                      (req_url (DocumentQA_request document query))
                      (req_headers (DocumentQA_request document query))
                      (req_json (DocumentQA_request document query)) ;;
            response <- read_json (Some s) resp ;; ret response).
    assert (E : forall w0,
      (resp <- post (Some s)
                 (req_url (DocumentQA_request document query))
                 (req_headers (DocumentQA_request document query))
                 (req_json (DocumentQA_request document query)) ;;
       response <- read_json (Some s) resp ;; ret response) w0 =
      DocumentQA_attempt (Some s) document query w0).
    { intros w0. unfold DocumentQA_attempt, post_json, bind.
      destruct (post _ _ _ _ w0) as [[resp|e|] w1]; try reflexivity.
      apply (bind_ret_r (read_json (Some s) resp)). }
    rewrite E.
    destruct (DocumentQA_attempt (Some s) document query w) as [[a|e|] w'];
      try reflexivity.
    unfold bind. destruct (retrying count w') as [[[]|e'|] w'']; try reflexivity.
    apply IH.
Qed.

Lemma Summarize_run_async_while_Some (self : option sid -> M json)
    (document : string) (patience : nat) (s : sid) :
  forall fuel count,
    eqM (Summarize_run_async_while self document patience fuel count (Some s))
        (retry_loop (Summarize_attempt (Some s) document) "Summarize"
           patience fuel count).
Proof.
  induction fuel as [|fuel IH]; intros count w; simpl.
  - reflexivity.
  - destruct (count <? patience)%nat; [|reflexivity].
    unfold try_except.
    match goal with
    | |- match ?body w with _ => _ end = _ =>
        assert (E : forall w0, body w0 = Summarize_attempt (Some s) document w0)
    end.
    { intros w0. unfold Summarize_attempt, post_json, bind.
      destruct (print _ w0) as [[[]|e|] w1]; try reflexivity.
      change (session_post s "https://api.multi.dev/summarize" json_headers
                (JDict [("document", JStr document)]))
        with (post (Some s) (req_url (Summarize_request document))
                (req_headers (Summarize_request document))
                (req_json (Summarize_request document))).
      destruct (post _ _ _ _ w1) as [[resp|e|] w2]; try reflexivity.
      apply (bind_ret_r (read_json (Some s) resp)). }
    rewrite E.
    destruct (Summarize_attempt (Some s) document w) as [[a|e|] w'];
      try reflexivity.
    unfold bind. destruct (retrying count w') as [[[]|e'|] w'']; try reflexivity.
    apply IH.
Qed.

Lemma DocumentQA_attempt_posts (via : option sid) (document query : string) :
  posts (DocumentQA_attempt via document query) [] via
    (DocumentQA_request document query).
Proof. intros w Hok. apply post_json_spec, Hok. Qed.

Lemma Summarize_attempt_posts (via : option sid) (document : string) :
  posts (Summarize_attempt via document)
    [EvPrint (Summarize_banner document)] via (Summarize_request document).
Proof.
  intros w Hok. unfold Summarize_attempt, bind, print.
  rewrite emit_after, post_json_spec by (apply via_ok_after, Hok).
  rewrite after_after. simpl sent. now rewrite Nat.add_0_r.
Qed.

Lemma DocumentQA_attempt_refused (s : sid) (document query : string) :
  refused (DocumentQA_attempt (Some s) document query) [] s
    (DocumentQA_request document query).
Proof. intros w Hc. apply post_json_refused, Hc. Qed.

Lemma Summarize_attempt_refused (s : sid) (document : string) :
  refused (Summarize_attempt (Some s) document)
    [EvPrint (Summarize_banner document)] s (Summarize_request document).
Proof.
  intros w Hc. unfold Summarize_attempt, bind, print.
  rewrite emit_after, post_json_refused by exact Hc.
  now rewrite after_after.
Qed.

(** ** What a loop leaves in the trace *)

Lemma events_since_after (w : world) (n : nat) (t : list event) :
  events_since w (after w n t) = t.
Proof.
  unfold events_since, after. simpl.
  rewrite skipn_app, skipn_all, Nat.sub_diag. reflexivity.
Qed.

Lemma events_since_refl (w : world) : events_since w w = [].
Proof. unfold events_since. apply skipn_all. Qed.

Lemma sleeps_app (t u : list event) : sleeps (t ++ u) = sleeps t ++ sleeps u.
Proof.
  induction t as [|e t IH]; simpl; [reflexivity|].
  destruct e; simpl; now rewrite IH.
Qed.

Lemma attempts_app (t u : list event) :
  attempts (t ++ u) = attempts t + attempts u.
Proof. unfold attempts. now rewrite filter_app, length_app. Qed.

Lemma wire_app (t u : list event) : wire (t ++ u) = wire t ++ wire u.
Proof.
  induction t as [|e t IH]; simpl; [reflexivity|].
  destruct e; simpl; now rewrite IH.
Qed.

Lemma requests_app (t u : list event) :
  requests (t ++ u) = requests t ++ requests u.
Proof.
  induction t as [|e t IH]; simpl; [reflexivity|].
  destruct e; simpl; now rewrite IH.
Qed.

Lemma sleeps_failed_rounds (att : list event) (count n : nat) :
  sleeps att = [] -> sleeps (failed_rounds att count n) = backoff count n.
Proof.
  intros Hatt. revert count. induction n as [|n IH]; intros count.
  - reflexivity.
  - rewrite failed_rounds_S, !sleeps_app, Hatt, IH. reflexivity.
Qed.

Lemma attempts_failed_rounds (att : list event) (count n : nat) :
  attempts att = 1 -> attempts (failed_rounds att count n) = n.
Proof.
  intros Hatt. revert count. induction n as [|n IH]; intros count.
  - reflexivity.
  - rewrite failed_rounds_S, !attempts_app, Hatt, IH. reflexivity.
Qed.

Lemma requests_failed_rounds (att : list event) (r : request) (count n : nat) :
  requests att = [r] -> requests (failed_rounds att count n) = repeat r n.
Proof.
  intros Hatt. revert count. induction n as [|n IH]; intros count.
  - reflexivity.
  - rewrite failed_rounds_S, !requests_app, Hatt, IH. reflexivity.
Qed.

Lemma wire_failed_rounds (att : list event) (r : request) (count n : nat) :
  wire att = [WRequest r] ->
  wire (failed_rounds att count n) =
  flat_map (fun k => [WRequest r; WSleep (2 ^ Z.of_nat k)]) (seq count n).
Proof.
  intros Hatt. revert count. induction n as [|n IH]; intros count.
  - reflexivity.
  - rewrite failed_rounds_S, !wire_app, Hatt, IH. reflexivity.
Qed.

Lemma failed_rounds_app (att : list event) (count n m : nat) :
  failed_rounds att count (n + m) =
  failed_rounds att count n ++ failed_rounds att (count + n) m.
Proof.
  unfold failed_rounds. now rewrite seq_app, flat_map_app.
Qed.

(** The loop, on any network, through a session that stays open: it fails
    as often as [failures_then] says and stops there. *)
Lemma retry_loop_shape (attempt : M json) (name : string) (patience : nat)
    (pre : list event) (via : option sid) (r : request) :
  posts attempt pre via r ->
  forall fuel count w,
    via_ok w via ->
    patience - count <= fuel ->
    retry_loop attempt name patience fuel count w =
    let att := pre ++ [EvRequest via r] in
    match failures_then (library_of via) r (sent w) (patience - count) with
    | (m, Some j) =>
        (Returned j, after w (S m) (failed_rounds att count m ++ att))
    | (m, None) =>
        (Raised (RetriesExhausted name), after w m (failed_rounds att count m))
    end.
Proof.
  intros Hp. induction fuel as [|fuel IH]; intros count w Hok Hfuel.
  - replace (patience - count) with 0 by lia. simpl.
    destruct (Nat.ltb_spec count patience); [lia|]. now rewrite after_0.
  - destruct (Nat.le_gt_cases patience count) as [Hge|Hlt].
    + rewrite retry_loop_stop by exact Hge.
      replace (patience - count) with 0 by lia. simpl. now rewrite after_0.
    + replace (patience - count) with (S (patience - (count + 1))) by lia.
      simpl failures_then.
      pose proof (Hp w Hok) as Hatt.
      rewrite reply_outcome_decoded in Hatt.
      destruct (decoded (library_of via) (sent w) r) as [j|] eqn:Hd.
      * rewrite (retry_loop_succeeded _ _ _ _ _ _ _ _ Hlt Hatt).
        simpl. reflexivity.
      * destruct (reply_outcome_failed _ _ _ Hd) as [e He].
        rewrite He in Hatt.
        rewrite (retry_loop_failed _ _ _ _ _ _ _ _ Hlt Hatt).
        rewrite after_after.
        rewrite IH; [|now apply via_ok_after|lia].
        replace (sent (after w (1 + 0) ((pre ++ [EvRequest via r]) ++
                   [EvPrint (retry_line count);
                    EvSleep (2 ^ Z.of_nat count)])))
          with (S (sent w)) by (simpl; lia).
        destruct (failures_then (library_of via) r (S (sent w)) (patience - (count + 1)))
          as [m [j|]]; cbv zeta; rewrite after_after;
          rewrite failed_rounds_S;
          replace (count + 1) with (S count) by lia;
          replace (1 + 0 + S m) with (S (S m)) by lia;
          replace (1 + 0 + m) with (S m) by lia;
          now rewrite <- ?app_assoc.
Qed.

Lemma failures_then_le (lib : library) (r : request) (idx remaining : nat) :
  fst (failures_then lib r idx remaining) <= remaining.
Proof.
  revert idx. induction remaining as [|n IH]; intros idx; simpl; [lia|].
  destruct (decoded lib idx r); simpl; [lia|].
  specialize (IH (S idx)). destruct (failures_then lib r (S idx) n). simpl in *. lia.
Qed.

Lemma failures_then_None (lib : library) (r : request) (idx remaining : nat) :
  snd (failures_then lib r idx remaining) = None ->
  fst (failures_then lib r idx remaining) = remaining.
Proof.
  revert idx. induction remaining as [|n IH]; intros idx; simpl; [reflexivity|].
  destruct (decoded lib idx r); simpl; [discriminate|].
  specialize (IH (S idx)). destruct (failures_then lib r (S idx) n). simpl in *.
  intros H. now rewrite IH.
Qed.

Lemma failures_then_Some (lib : library) (r : request) (idx remaining : nat) (j : json) :
  snd (failures_then lib r idx remaining) = Some j ->
  fst (failures_then lib r idx remaining) < remaining.
Proof.
  revert idx. induction remaining as [|n IH]; intros idx; simpl; [discriminate|].
  destruct (decoded lib idx r); simpl; [lia|].
  specialize (IH (S idx)). destruct (failures_then lib r (S idx) n). simpl in *.
  intros H. specialize (IH H). lia.
Qed.

Lemma failures_then_all_fail (lib : library) (r : request) (idx remaining : nat) :
  (forall i, i < remaining -> decoded lib (idx + i) r = None) ->
  failures_then lib r idx remaining = (remaining, None).
Proof.
  revert idx. induction remaining as [|n IH]; intros idx H; simpl; [reflexivity|].
  rewrite <- (Nat.add_0_r idx) at 1. rewrite H by lia.
  rewrite IH; [reflexivity|].
  intros i Hi. replace (S idx + i) with (idx + S i) by lia. apply H. lia.
Qed.

Lemma failures_then_first_success (lib : library) (r : request) (idx remaining k : nat)
    (j : json) :
  k < remaining ->
  (forall i, i < k -> decoded lib (idx + i) r = None) ->
  decoded lib (idx + k) r = Some j ->
  failures_then lib r idx remaining = (k, Some j).
Proof.
  revert idx remaining. induction k as [|k IH]; intros idx remaining Hk Hf Hs.
  - destruct remaining; [lia|]. simpl.
    rewrite Nat.add_0_r in Hs. now rewrite Hs.
  - destruct remaining; [lia|]. simpl.
    rewrite <- (Nat.add_0_r idx) at 1. rewrite Hf by lia.
    rewrite (IH (S idx) remaining); [reflexivity|lia| |].
    + intros i Hi. replace (S idx + i) with (idx + S i) by lia. apply Hf. lia.
    + now replace (S idx + k) with (idx + S k) by lia.
Qed.

(** ** The retrying entry points, on any network *)

Lemma retry_loop_run (attempt : M json) (name : string) (patience : nat)
    (pre lead : list event) (via : option sid) (r : request) (w : world) :
  posts attempt pre via r ->
  via_ok w via ->
  retry_loop attempt name patience patience 0 (after w 0 lead) =
  retry_result name lead (pre ++ [EvRequest via r]) patience (library_of via) r w.
Proof.
  intros Hp Hok.
  rewrite (retry_loop_shape attempt name patience pre via r Hp)
    by (try apply via_ok_after; try exact Hok; lia).
  unfold retry_result. rewrite Nat.sub_0_r.
  replace (sent (after w 0 lead)) with (sent w) by (simpl; lia).
  destruct (failures_then (library_of via) r (sent w) patience) as [m [j|]]; cbv zeta;
    rewrite after_after; now rewrite <- ?app_assoc.
Qed.

Lemma DocumentQA_call_run (document query : string) (w : world) :
  DocumentQA_call document query w =
  retry_result "DocumentQA" [EvPrint (DocumentQA_banner document)]
    [EvRequest None (DocumentQA_request document query)] 8 Requests
    (DocumentQA_request document query) w.
Proof.
  unfold DocumentQA_call, bind, print. rewrite emit_after.
  rewrite DocumentQA_call_while_eq.
  now rewrite (retry_loop_run _ _ _ [] _ None _ w
                 (DocumentQA_attempt_posts None document query)).
Qed.

Lemma Summarize_call_run (document : string) (w : world) :
  Summarize_call document w =
  retry_result "Summarize" []
    [EvPrint (Summarize_banner document);
     EvRequest None (Summarize_request document)] 8 Requests
    (Summarize_request document) w.
Proof.
  unfold Summarize_call. rewrite Summarize_call_while_eq.
  rewrite <- (after_0 w) at 1.
  now rewrite (retry_loop_run _ _ _ _ [] None _ w
                 (Summarize_attempt_posts None document)).
Qed.

Lemma DocumentQA_run_async_rec_S (depth : nat) (document query : string)
    (session : option sid) :
  DocumentQA_run_async_rec (S depth) document query session =
  (print (DocumentQA_banner document) ;;
   DocumentQA_run_async_while (DocumentQA_run_async_rec depth document query)
     document query 8 8 0 session).
Proof. reflexivity. Qed.

Lemma Summarize_run_async_rec_S (depth : nat) (document : string)
    (session : option sid) :
  Summarize_run_async_rec (S depth) document session =
  Summarize_run_async_while (Summarize_run_async_rec depth document)
    document 8 8 0 session.
Proof. reflexivity. Qed.

Lemma DocumentQA_run_async_rec_Some (depth : nat) (document query : string)
    (s : sid) (w : world) :
  session_is_open w s = true ->
  DocumentQA_run_async_rec (S depth) document query (Some s) w =
  retry_result "DocumentQA" [EvPrint (DocumentQA_banner document)]
    [EvRequest (Some s) (DocumentQA_request document query)] 8 Aiohttp
    (DocumentQA_request document query) w.
Proof.
  intros Hopen. rewrite DocumentQA_run_async_rec_S.
  unfold bind, print. rewrite emit_after.
  rewrite DocumentQA_run_async_while_Some.
  now rewrite (retry_loop_run _ _ _ [] _ (Some s) _ w
                 (DocumentQA_attempt_posts (Some s) document query)).
Qed.

Lemma Summarize_run_async_rec_Some (depth : nat) (document : string)
    (s : sid) (w : world) :
  session_is_open w s = true ->
  Summarize_run_async_rec (S depth) document (Some s) w =
  retry_result "Summarize" []
    [EvPrint (Summarize_banner document);
     EvRequest (Some s) (Summarize_request document)] 8 Aiohttp
    (Summarize_request document) w.
Proof.
  intros Hopen. rewrite Summarize_run_async_rec_S.
  rewrite Summarize_run_async_while_Some.
  rewrite <- (after_0 w) at 1.
  now rewrite (retry_loop_run _ _ _ _ [] (Some s) _ w
                 (Summarize_attempt_posts (Some s) document)).
Qed.

(** ** A session that is closed, and a call without a session *)

Lemma retry_loop_refused_run (attempt : M json) (name : string)
    (patience : nat) (pre : list event) (s : sid) (r : request) :
  refused attempt pre s r ->
  forall fuel count w,
    session_is_open w s = false ->
    patience - count <= fuel ->
    retry_loop attempt name patience fuel count w =
    (Raised (RetriesExhausted name),
     after w 0 (failed_rounds (pre ++ [EvRefused s r]) count (patience - count))).
Proof.
  intros Hp fuel count w Hc Hfuel.
  destruct (Nat.le_gt_cases patience count) as [Hge|Hlt].
  - rewrite retry_loop_stop by exact Hge.
    replace (patience - count) with 0 by lia. simpl. now rewrite after_0.
  - replace fuel with ((patience - count) + (fuel - (patience - count))) at 1
      by lia.
    rewrite (retry_loop_refused_n attempt name patience pre s r Hp)
      by (try exact Hc; lia).
    now rewrite retry_loop_stop by lia.
Qed.

Lemma DocumentQA_run_async_rec_Some_refused (depth : nat)
    (document query : string) (s : sid) (w : world) :
  session_is_open w s = false ->
  DocumentQA_run_async_rec (S depth) document query (Some s) w =
  (Raised (RetriesExhausted "DocumentQA"),
   after w 0
     ([EvPrint (DocumentQA_banner document)]
      ++ failed_rounds [EvRefused s (DocumentQA_request document query)] 0 8)).
Proof.
  intros Hc. rewrite DocumentQA_run_async_rec_S.
  unfold bind, print. rewrite emit_after.
  rewrite DocumentQA_run_async_while_Some.
  rewrite (retry_loop_refused_run _ _ _ [] s _
             (DocumentQA_attempt_refused s document query))
    by (try exact Hc; simpl; lia).
  now rewrite after_after.
Qed.

Lemma Summarize_run_async_rec_Some_refused (depth : nat) (document : string)
    (s : sid) (w : world) :
  session_is_open w s = false ->
  Summarize_run_async_rec (S depth) document (Some s) w =
  (Raised (RetriesExhausted "Summarize"),
   after w 0
     (failed_rounds [EvPrint (Summarize_banner document);
                     EvRefused s (Summarize_request document)] 0 8)).
Proof.
  intros Hc. rewrite Summarize_run_async_rec_S.
  rewrite Summarize_run_async_while_Some.
  now rewrite (retry_loop_refused_run _ _ _ _ s _
                 (Summarize_attempt_refused s document))
    by (try exact Hc; simpl; lia).
Qed.

Lemma close_nth_last (ss : list session_state) (x : session_state) :
  close_nth (ss ++ [x]) (length ss) = ss ++ [Closed].
Proof. induction ss as [|y ss IH]; simpl; [reflexivity|now rewrite IH]. Qed.

Lemma nth_error_last {A} (l : list A) (x : A) :
  nth_error (l ++ [x]) (length l) = Some x.
Proof. rewrite nth_error_app2, Nat.sub_diag by lia. reflexivity. Qed.

Lemma DocumentQA_run_async_while_None (self : option sid -> M json)
    (document query : string) (patience fuel count : nat) :
  count < patience ->
  eqM (DocumentQA_run_async_while self document query patience (S fuel)
         count None)
      (without_session self
         (fun s => DocumentQA_attempt (Some s) document query)
         "DocumentQA" patience fuel count).
Proof.
  intros Hlt w. simpl.
  destruct (Nat.ltb_spec count patience); [|lia].
  unfold without_session, bind.
  destruct (ClientSession w) as [[s|e|] w1]; try reflexivity.
  unfold try_except.
  destruct (finally _ _ w1) as [[a|e|] w2]; try reflexivity.
  destruct (retrying count w2) as [[[]|e'|] w3]; try reflexivity.
  apply DocumentQA_run_async_while_Some.
Qed.

Lemma Summarize_run_async_while_None (self : option sid -> M json)
    (document : string) (patience fuel count : nat) :
  count < patience ->
  eqM (Summarize_run_async_while self document patience (S fuel) count None)
      (without_session self
         (fun s => Summarize_attempt (Some s) document)
         "Summarize" patience fuel count).
Proof.
  intros Hlt w. simpl.
  destruct (Nat.ltb_spec count patience); [|lia].
  unfold without_session, bind.
  destruct (ClientSession w) as [[s|e|] w1]; try reflexivity.
  unfold try_except.
  destruct (finally _ _ w1) as [[a|e|] w2]; try reflexivity.
  destruct (retrying count w2) as [[[]|e'|] w3]; try reflexivity.
  apply Summarize_run_async_while_Some.
Qed.

Lemma without_session_run (self : option sid -> M json)
    (attempt : sid -> M json) (name : string) (patience fuel count : nat)
    (lead pre : list event) (att : sid -> list event) (r : request)
    (w : world) :
  let s : sid := length (sessions w) in
  (forall w1, session_is_open w1 s = true ->
     self (Some s) w1 = retry_result name lead (att s) patience Aiohttp r w1) ->
  refused (attempt s) pre s r ->
  patience - (count + 1) <= fuel ->
  without_session self attempt name patience fuel count w =
  match failures_then Aiohttp r (sent w) patience with
  | (m, Some j) =>
      (Returned j,
       closed_after w (S m)
         ([EvOpen s] ++ lead ++ failed_rounds (att s) 0 m ++ att s
          ++ [EvClose s]))
  | (m, None) =>
      (Raised (RetriesExhausted name),
       closed_after w m
         ([EvOpen s] ++ lead ++ failed_rounds (att s) 0 m
          ++ [EvClose s; EvPrint (retry_line count);
              EvSleep (2 ^ Z.of_nat count)]
          ++ failed_rounds (pre ++ [EvRefused s r]) (count + 1)
               (patience - (count + 1))))
  end.
Proof.
  intros s Hself Href Hfuel.
  unfold without_session, bind, ClientSession. cbv beta iota. fold s.
  set (w1 := emit (EvOpen s) (set_sessions (sessions w ++ [Open]) w)).

  assert (Hopen : session_is_open w1 s = true).
  { unfold session_is_open, w1, s. simpl. now rewrite nth_error_last. }
  unfold try_except, finally. rewrite (Hself w1 Hopen).
  unfold retry_result.
  replace (sent w1) with (sent w) by reflexivity.
  destruct (failures_then Aiohttp r (sent w) patience) as [m [j|]].
  - unfold session_close, closed_after, after, emit, set_sessions, w1. simpl.
    unfold s. rewrite close_nth_last. f_equal. f_equal.
    now rewrite <- !app_assoc.
  - unfold session_close. rewrite retrying_spec.
    rewrite (retry_loop_refused_run (attempt s) name patience pre s r Href).
    + unfold closed_after, after, emit, set_sessions, w1. simpl.
      unfold s. rewrite close_nth_last. f_equal. f_equal.
      * lia.
      * now rewrite <- !app_assoc.
    + unfold session_is_open, after, emit, set_sessions, w1. simpl.
      unfold s. rewrite close_nth_last, nth_error_last. reflexivity.
    + exact Hfuel.
Qed.

Lemma DocumentQA_run_async_rec_None (depth : nat) (document query : string)
    (w : world) :
  let s : sid := length (sessions w) in
  let r := DocumentQA_request document query in
  let banner := EvPrint (DocumentQA_banner document) in
  DocumentQA_run_async_rec (S (S depth)) document query None w =
  match failures_then Aiohttp r (sent w) 8 with
  | (m, Some j) =>
      (Returned j,
       closed_after w (S m)
         ([banner; EvOpen s; banner]
          ++ failed_rounds [EvRequest (Some s) r] 0 m
          ++ [EvRequest (Some s) r; EvClose s]))
  | (m, None) =>
      (Raised (RetriesExhausted "DocumentQA"),
       closed_after w m
         ([banner; EvOpen s; banner]
          ++ failed_rounds [EvRequest (Some s) r] 0 m
          ++ [EvClose s; EvPrint (retry_line 0); EvSleep 1]
          ++ failed_rounds [EvRefused s r] 1 7))
  end.
Proof.
  intros s r banner.
  rewrite DocumentQA_run_async_rec_S.
  unfold bind at 1. unfold print. rewrite emit_after.
  rewrite DocumentQA_run_async_while_None by lia.
  rewrite (without_session_run _ _ "DocumentQA" 8 7 0
             [EvPrint (DocumentQA_banner document)] []
             (fun s => [EvRequest (Some s) r]) r).
  - replace (sent (after w 0 [EvPrint (DocumentQA_banner document)]))
      with (sent w) by (simpl; lia).
    destruct (failures_then Aiohttp r (sent w) 8) as [m [j|]];
      unfold closed_after, after; simpl; f_equal; f_equal; try lia;
      now rewrite <- !app_assoc.
  - intros w1 Hopen. now apply DocumentQA_run_async_rec_Some.
  - apply DocumentQA_attempt_refused.
  - simpl. lia.
Qed.

Lemma Summarize_run_async_rec_None (depth : nat) (document : string)
    (w : world) :
  let s : sid := length (sessions w) in
  let r := Summarize_request document in
  let att := [EvPrint (Summarize_banner document); EvRequest (Some s) r] in
  Summarize_run_async_rec (S (S depth)) document None w =
  match failures_then Aiohttp r (sent w) 8 with
  | (m, Some j) =>
      (Returned j,
       closed_after w (S m)
         ([EvOpen s] ++ failed_rounds att 0 m ++ att ++ [EvClose s]))
  | (m, None) =>
      (Raised (RetriesExhausted "Summarize"),
       closed_after w m
         ([EvOpen s] ++ failed_rounds att 0 m
          ++ [EvClose s; EvPrint (retry_line 0); EvSleep 1]
          ++ failed_rounds
               [EvPrint (Summarize_banner document); EvRefused s r] 1 7))
  end.
Proof.
  intros s r att.
  rewrite Summarize_run_async_rec_S.
  rewrite Summarize_run_async_while_None by lia.
  rewrite (without_session_run _ _ "Summarize" 8 7 0 []
             [EvPrint (Summarize_banner document)]
             (fun s => [EvPrint (Summarize_banner document);
                        EvRequest (Some s) r]) r).
  - reflexivity.
  - intros w1 Hopen. now apply Summarize_run_async_rec_Some.
  - apply Summarize_attempt_refused.
  - simpl. lia.
Qed.

Lemma DocumentQA_run_async_None (document query : string) (w : world) :
  DocumentQA_run_async document query None w =
  DocumentQA_run_async_rec 2 document query None w.
Proof. reflexivity. Qed.

Lemma Summarize_run_async_None (document : string) (w : world) :
  Summarize_run_async document None w =
  Summarize_run_async_rec 2 document None w.
Proof. reflexivity. Qed.

(** Two levels of recursion are enough: deeper ones are never entered. *)
Lemma DocumentQA_run_async_rec_enough (depth : nat) (document query : string)
    (session : option sid) (w : world) :
  DocumentQA_run_async_rec (S (S depth)) document query session w =
  DocumentQA_run_async document query session w.
Proof.
  unfold DocumentQA_run_async. destruct session as [s|].
  - destruct (session_is_open w s) eqn:Hs.
    + now rewrite !DocumentQA_run_async_rec_Some by exact Hs.
    + now rewrite !DocumentQA_run_async_rec_Some_refused by exact Hs.
  - now rewrite (DocumentQA_run_async_rec_None depth),
      (DocumentQA_run_async_rec_None 0).
Qed.

Lemma Summarize_run_async_rec_enough (depth : nat) (document : string)
    (session : option sid) (w : world) :
  Summarize_run_async_rec (S (S depth)) document session w =
  Summarize_run_async document session w.
Proof.
  unfold Summarize_run_async. destruct session as [s|].
  - destruct (session_is_open w s) eqn:Hs.
    + now rewrite !Summarize_run_async_rec_Some by exact Hs.
    + now rewrite !Summarize_run_async_rec_Some_refused by exact Hs.
  - now rewrite (Summarize_run_async_rec_None depth),
      (Summarize_run_async_rec_None 0).
Qed.


(** ** The entry points that post once *)

Lemma post_then {A} (via : option sid) (r : request)
    (k : response -> outcome A) (cont : response -> M A) (w : world) :
  (forall resp w', cont resp w' = (k resp, w')) ->
  via_ok w via ->
  (resp <- post via (req_url r) (req_headers r) (req_json r) ;; cont resp) w =
  one_shot via r k w.
Proof.
  intros Hk Hok. destruct r as [url headers payload].
  unfold bind, post, one_shot, respond, mk_request. simpl.
  destruct via as [s|]; simpl in Hok.
  - unfold session_post, mk_request. rewrite Hok.
    destruct (net _ _ _) as [e|resp]; rewrite emit_sent_after; auto.
  - unfold requests_post, mk_request.
    destruct (net _ _ _) as [e|resp]; rewrite emit_sent_after; auto.
Qed.

Lemma post_then_refused {A} (s : sid) (r : request) (cont : response -> M A)
    (w : world) :
  session_is_open w s = false ->
  (resp <- post (Some s) (req_url r) (req_headers r) (req_json r) ;;
   cont resp) w = one_shot_refused s r w.
Proof.
  intros Hc. destruct r as [url headers payload].
  unfold bind, post, one_shot_refused, session_post, mk_request. simpl.
  now rewrite Hc, emit_after.
Qed.

Lemma async_with_one_shot {A} (body : sid -> M A) (r : request)
    (k : response -> outcome A) (w : world) :
  (forall s w1, session_is_open w1 s = true ->
     body s w1 = one_shot (Some s) r k w1) ->
  async_with_ClientSession body w = one_shot_own r k w.
Proof.
  intros Hbody.
  unfold async_with_ClientSession, bind, ClientSession. cbv beta iota.
  set (s := length (sessions w) : sid).
  set (w1 := emit (EvOpen s) (set_sessions (sessions w ++ [Open]) w)).
  assert (Hopen : session_is_open w1 s = true).
  { unfold session_is_open, w1, s. simpl. now rewrite nth_error_last. }
  unfold finally. rewrite (Hbody s w1 Hopen).
  unfold one_shot, one_shot_own, session_close. fold s.
  unfold closed_after, after, emit, set_sessions, w1. simpl.
  unfold s. rewrite close_nth_last. f_equal. f_equal.
  now rewrite <- !app_assoc.
Qed.

Lemma lift_pure {A} (r : exn + A) (w : world) : lift r w = (outcome_of r, w).
Proof. now destruct r. Qed.

Lemma Response_json_pure (resp : response) (w : world) :
  Response_json resp w = (as_json resp, w).
Proof. apply lift_pure. Qed.

Lemma ClientResponse_json_pure (resp : response) (w : world) :
  ClientResponse_json resp w = (as_json resp, w).
Proof. apply lift_pure. Qed.

Lemma ClientResponse_json_ret_pure (resp : response) (w : world) :
  (result <- ClientResponse_json resp ;; ret result) w = (as_json resp, w).
Proof. rewrite bind_ret_r. apply ClientResponse_json_pure. Qed.

Lemma Response_content_then_pure (extract : string -> exn + string)
    (resp : response) (w : world) :
  (html <- Response_content_decode resp ;; lift (extract html)) w =
  (as_text extract resp, w).
Proof.
  unfold bind, Response_content_decode, as_text. rewrite lift_pure.
  destruct (resp_content resp) as [e|html]; [reflexivity|apply lift_pure].
Qed.

Lemma ClientResponse_read_then_pure (extract : string -> exn + string)
    (resp : response) (w : world) :
  (html <- ClientResponse_read_decode resp ;; lift (extract html)) w =
  (as_text extract resp, w).
Proof. apply Response_content_then_pure. Qed.

Lemma coerce_output_pure (output_spec : pytype) (result : json) (w : world) :
  coerce_output output_spec result w =
  ((if isinstance_ModelMetaclass output_spec
    then outcome_of (parse_obj output_spec result)
    else outcome_of (dacite_from_dict output_spec result)), w).
Proof.
  unfold coerce_output.
  destruct (isinstance_ModelMetaclass output_spec); apply lift_pure.
Qed.

Lemma structured_tail_pure (output_spec : pytype) (resp : response)
    (w : world) :
  (body <- Response_json resp ;;
   result <- lift (json_getitem body "output") ;;
   coerce_output output_spec result) w = (as_structured output_spec resp, w).
Proof.
  unfold bind, as_structured. rewrite Response_json_pure. unfold as_json.
  destruct (resp_json resp) as [e|body]; [reflexivity|]. cbn [outcome_of].
  rewrite lift_pure.
  destruct (json_getitem body "output") as [e|result]; [reflexivity|].
  apply coerce_output_pure.
Qed.

Lemma structured_tail_async_pure (output_spec : pytype) (resp : response)
    (w : world) :
  (body <- ClientResponse_json resp ;;
   result <- lift (json_getitem body "output") ;;
   coerce_output output_spec result) w = (as_structured output_spec resp, w).
Proof. apply structured_tail_pure. Qed.

(** *** Sql *)

Lemma Sql_call_run (self : Sql) (query sql_schema : string)
    (sql_variant : option string) (w : world) :
  Sql_call self query sql_schema sql_variant w =
  one_shot None (Sql_request self query sql_schema sql_variant) as_json w.
Proof.
  apply (post_then None (Sql_request self query sql_schema sql_variant)
           as_json Response_json w Response_json_pure I).
Qed.

Lemma Sql_run_async_None_run (self : Sql) (query sql_schema : string)
    (sql_variant : option string) (w : world) :
  Sql_run_async self query sql_schema sql_variant None w =
  one_shot_own (Sql_request self query sql_schema sql_variant) as_json w.
Proof.
  apply async_with_one_shot. intros s w1 Hopen.
  apply (post_then (Some s) (Sql_request self query sql_schema sql_variant)
           as_json _ w1 ClientResponse_json_ret_pure Hopen).
Qed.

Lemma Sql_run_async_Some_run (self : Sql) (query sql_schema : string)
    (sql_variant : option string) (s : sid) (w : world) :
  session_is_open w s = true ->
  Sql_run_async self query sql_schema sql_variant (Some s) w =
  one_shot (Some s) (Sql_request_in_session self query) as_json w.
Proof.
  intros Hopen.
  apply (post_then (Some s) (Sql_request_in_session self query)
           as_json _ w ClientResponse_json_ret_pure Hopen).
Qed.

Lemma Sql_run_async_Some_refused (self : Sql) (query sql_schema : string)
    (sql_variant : option string) (s : sid) (w : world) :
  session_is_open w s = false ->
  Sql_run_async self query sql_schema sql_variant (Some s) w =
  one_shot_refused s (Sql_request_in_session self query) w.
Proof.
  intros Hc.
  apply (post_then_refused s (Sql_request_in_session self query) _ w Hc).
Qed.

(** *** Search *)

Lemma Search_call_run (self : Search) (query : string) (w : world) :
  Search_call self query w =
  one_shot None (Search_request self query) as_json w.
Proof.
  apply (post_then None (Search_request self query) as_json Response_json w
           Response_json_pure I).
Qed.

Lemma Search_run_async_None_run (self : Search) (query : string) (w : world) :
  Search_run_async self query None w =
  one_shot_own (Search_request self query) as_json w.
Proof.
  apply async_with_one_shot. intros s w1 Hopen.
  apply (post_then (Some s) (Search_request self query) as_json _ w1
           ClientResponse_json_ret_pure Hopen).
Qed.

Lemma Search_run_async_Some_run (self : Search) (query : string) (s : sid)
    (w : world) :
  session_is_open w s = true ->
  Search_run_async self query (Some s) w =
  one_shot (Some s) (Search_request self query) as_json w.
Proof.
  intros Hopen.
  apply (post_then (Some s) (Search_request self query) as_json _ w
           ClientResponse_json_ret_pure Hopen).
Qed.

Lemma Search_run_async_Some_refused (self : Search) (query : string)
    (s : sid) (w : world) :
  session_is_open w s = false ->
  Search_run_async self query (Some s) w =
  one_shot_refused s (Search_request self query) w.
Proof.
  intros Hc. apply (post_then_refused s (Search_request self query) _ w Hc).
Qed.

(** *** WebContent *)

Lemma WebContent_call_run (url : string) (w : world) :
  WebContent_call url w =
  one_shot None (WebContent_request url) (as_text Document_content) w.
Proof.
  apply (post_then None (WebContent_request url) (as_text Document_content)
           _ w (Response_content_then_pure Document_content) I).
Qed.

Lemma WebContent_run_async_Some_run (depth : nat) (url : string) (s : sid)
    (w : world) :
  session_is_open w s = true ->
  WebContent_run_async_rec (S depth) url (Some s) w =
  one_shot (Some s) (WebContent_request url) (as_text Document_summary) w.
Proof.
  intros Hopen.
  apply (post_then (Some s) (WebContent_request url)
           (as_text Document_summary) _ w
           (ClientResponse_read_then_pure Document_summary) Hopen).
Qed.

Lemma WebContent_run_async_Some_refused (depth : nat) (url : string)
    (s : sid) (w : world) :
  session_is_open w s = false ->
  WebContent_run_async_rec (S depth) url (Some s) w =
  one_shot_refused s (WebContent_request url) w.
Proof.
  intros Hc. apply (post_then_refused s (WebContent_request url) _ w Hc).
Qed.

Lemma WebContent_run_async_None_run (url : string) (w : world) :
  WebContent_run_async url None w =
  one_shot_own (WebContent_request url) (as_text Document_summary) w.
Proof.
  unfold WebContent_run_async.
  change (WebContent_run_async_rec 2 url None)
    with (async_with_ClientSession
            (fun session => WebContent_run_async_rec 1 url (Some session))).
  apply async_with_one_shot. intros s w1 Hopen.
  now apply WebContent_run_async_Some_run.
Qed.

Lemma WebContent_run_async_rec_enough (depth : nat) (url : string)
    (session : option sid) (w : world) :
  WebContent_run_async_rec (S (S depth)) url session w =
  WebContent_run_async url session w.
Proof.
  unfold WebContent_run_async. destruct session as [s|].
  - destruct (session_is_open w s) eqn:Hs.
    + now rewrite !WebContent_run_async_Some_run by exact Hs.
    + now rewrite !WebContent_run_async_Some_refused by exact Hs.
  - transitivity (one_shot_own (WebContent_request url)
                    (as_text Document_summary) w).
    + change (WebContent_run_async_rec (S (S depth)) url None)
        with (async_with_ClientSession
                (fun session =>
                   WebContent_run_async_rec (S depth) url (Some session))).
      apply async_with_one_shot. intros s w1 Hopen.
      now apply WebContent_run_async_Some_run.
    + symmetry. apply WebContent_run_async_None_run.
Qed.

(** *** Structured *)

Lemma Structured_call_run (self : Structured) (input_spec output_spec : pytype)
    (instructions : string) (input : instance) (f_in f_out : json)
    (w : world) :
  flatten_model input_spec = inr f_in ->
  flatten_model output_spec = inr f_out ->
  Structured_call self input_spec output_spec instructions input w =
  one_shot None (Structured_request self f_in f_out instructions input)
    (as_structured output_spec) w.
Proof.
  intros Hin Hout. unfold Structured_call.
  unfold bind at 1. rewrite Hin. cbn [lift ret].
  unfold bind at 1. rewrite Hout. cbn [lift ret].
  apply (post_then None (Structured_request self f_in f_out instructions input)
           (as_structured output_spec) _ w
           (structured_tail_pure output_spec) I).
Qed.

Lemma Structured_call_unflattened (self : Structured)
    (input_spec output_spec : pytype) (instructions : string)
    (input : instance) (w : world) :
  flattens (ArgsStructured input_spec output_spec instructions input) = false ->
  exists e,
    Structured_call self input_spec output_spec instructions input w =
    (Raised e, w) /\
    (flatten_model input_spec = inl e \/ flatten_model output_spec = inl e).
Proof.
  unfold flattens, Structured_call. intros H.
  destruct (flatten_model input_spec) as [e|f_in] eqn:Hin.
  - exists e. split; [reflexivity|now left].
  - destruct (flatten_model output_spec) as [e|f_out] eqn:Hout; [|discriminate].
    exists e. split; [|now right].
    unfold bind at 1. cbn [lift ret]. unfold bind at 1. reflexivity.
Qed.

Lemma Structured_run_async_unflattened (self : Structured)
    (input_spec output_spec : pytype) (instructions : string)
    (input : instance) (session : option sid) (w : world) :
  flattens (ArgsStructured input_spec output_spec instructions input) = false ->
  exists e,
    Structured_run_async self input_spec output_spec instructions input
      session w = (Raised e, w) /\
    (flatten_model input_spec = inl e \/ flatten_model output_spec = inl e).
Proof.
  unfold flattens, Structured_run_async. intros H.
  destruct (flatten_model input_spec) as [e|f_in] eqn:Hin.
  - exists e. split; [reflexivity|now left].
  - destruct (flatten_model output_spec) as [e|f_out] eqn:Hout; [|discriminate].
    exists e. split; [|now right].
    unfold bind at 1. cbn [lift ret]. unfold bind at 1. reflexivity.
Qed.

Lemma Structured_run_async_Some_run (self : Structured)
    (input_spec output_spec : pytype) (instructions : string)
    (input : instance) (f_in f_out : json) (s : sid) (w : world) :
  flatten_model input_spec = inr f_in ->
  flatten_model output_spec = inr f_out ->
  session_is_open w s = true ->
  Structured_run_async self input_spec output_spec instructions input
    (Some s) w =
  one_shot (Some s)
    (Structured_request_async self f_in f_out instructions input)
    (as_structured output_spec) w.
Proof.
  intros Hin Hout Hopen. unfold Structured_run_async.
  unfold bind at 1. rewrite Hin. cbn [lift ret].
  unfold bind at 1. rewrite Hout. cbn [lift ret].
  apply (post_then (Some s)
           (Structured_request_async self f_in f_out instructions input)
           (as_structured output_spec) _ w
           (structured_tail_async_pure output_spec) Hopen).
Qed.

Lemma Structured_run_async_Some_refused (self : Structured)
    (input_spec output_spec : pytype) (instructions : string)
    (input : instance) (f_in f_out : json) (s : sid) (w : world) :
  flatten_model input_spec = inr f_in ->
  flatten_model output_spec = inr f_out ->
  session_is_open w s = false ->
  Structured_run_async self input_spec output_spec instructions input
    (Some s) w =
  one_shot_refused s
    (Structured_request_async self f_in f_out instructions input) w.
Proof.
  intros Hin Hout Hc. unfold Structured_run_async.
  unfold bind at 1. rewrite Hin. cbn [lift ret].
  unfold bind at 1. rewrite Hout. cbn [lift ret].
  apply (post_then_refused s
           (Structured_request_async self f_in f_out instructions input) _ w Hc).
Qed.

Lemma Structured_run_async_None_run (self : Structured)
    (input_spec output_spec : pytype) (instructions : string)
    (input : instance) (f_in f_out : json) (w : world) :
  flatten_model input_spec = inr f_in ->
  flatten_model output_spec = inr f_out ->
  Structured_run_async self input_spec output_spec instructions input None w =
  one_shot_own (Structured_request_async self f_in f_out instructions input)
    (as_structured output_spec) w.
Proof.
  intros Hin Hout. unfold Structured_run_async.
  unfold bind at 1. rewrite Hin. cbn [lift ret].
  unfold bind at 1. rewrite Hout. cbn [lift ret].
  apply async_with_one_shot. intros s w1 Hopen.
  apply (post_then (Some s)
           (Structured_request_async self f_in f_out instructions input)
           (as_structured output_spec) _ w1
           (structured_tail_async_pure output_spec) Hopen).
Qed.

(** ** Counting on the trace of a run *)

Lemma events_since_closed_after (w : world) (n : nat) (t : list event) :
  events_since w (closed_after w n t) = t.
Proof.
  unfold events_since, closed_after. simpl.
  rewrite skipn_app, skipn_all, Nat.sub_diag. reflexivity.
Qed.

Lemma fmap_run {A B} (f : A -> B) (m : M A) (w : world) :
  fmap f m w = (map_outcome f (fst (m w)), snd (m w)).
Proof. unfold fmap, bind, ret. now destruct (m w) as [[a|e|] w']. Qed.

Lemma transport_down_nothing_decodes (lib : library) :
  transport_down -> nothing_decodes lib.
Proof.
  intros H n r. unfold decoded. destruct (H lib n r) as [err Herr].
  now rewrite Herr.
Qed.

Lemma retry_result_exhausted (name : string) (lead att : list event)
    (patience : nat) (lib : library) (r : request) (w : world) :
  nothing_decodes lib ->
  retry_result name lead att patience lib r w =
  (Raised (RetriesExhausted name),
   after w patience (lead ++ failed_rounds att 0 patience)).
Proof.
  intros H. unfold retry_result.
  now rewrite failures_then_all_fail by (intros; apply H).
Qed.

Lemma retry_result_first_success (name : string) (lead att : list event)
    (patience k : nat) (lib : library) (r : request) (j : json) (w : world) :
  k < patience ->
  (forall i, i < k -> decoded lib (sent w + i) r = None) ->
  decoded lib (sent w + k) r = Some j ->
  retry_result name lead att patience lib r w =
  (Returned j, after w (S k) (lead ++ failed_rounds att 0 k ++ att)).
Proof.
  intros Hk Hf Hs. unfold retry_result.
  now rewrite (failures_then_first_success lib r (sent w) patience k j
                 Hk Hf Hs).
Qed.

(** On any network: one wait per failed attempt, the [k]-th of [2^k]. *)
Lemma retry_result_counts (name : string) (lead att : list event)
    (patience : nat) (lib : library) (r : request) (w : world) :
  attempts lead = 0 -> attempts att = 1 ->
  sleeps lead = [] -> sleeps att = [] ->
  let x := retry_result name lead att patience lib r w in
  let t := events_since w (snd x) in
  exists m,
    m <= patience /\
    sleeps t = backoff 0 m /\
    attempts t = (if is_returned (fst x) then S m else m) /\
    (is_returned (fst x) = false ->
     m = patience /\ fst x = Raised (RetriesExhausted name)).
Proof.
  intros Hla Haa Hls Has. unfold retry_result.
  pose proof (failures_then_le lib r (sent w) patience) as Hle.
  pose proof (failures_then_None lib r (sent w) patience) as Hnone.
  destruct (failures_then lib r (sent w) patience) as [m [j|]]; simpl in *;
    exists m; rewrite events_since_after;
    rewrite !sleeps_app, !attempts_app, ?Hls, ?Has, ?Hla, ?Haa;
    rewrite sleeps_failed_rounds, attempts_failed_rounds by assumption;
    rewrite ?app_nil_r; simpl.
  - repeat split; try lia; try discriminate.
  - specialize (Hnone eq_refl). repeat split; try lia.
Qed.

Lemma exhausted_after_fmap {A B} (f : A -> B) (m : M A) (name : string)
    (n : nat) (w : world) :
  exhausted_after name n w (m w) -> exhausted_after name n w (fmap f m w).
Proof.
  unfold exhausted_after. rewrite fmap_run. simpl.
  intros [Hr Hn]. now rewrite Hr.
Qed.

Lemma failed_at_once_fmap {A B} (f : A -> B) (m : M A) (w : world) :
  failed_at_once w (m w) -> failed_at_once w (fmap f m w).
Proof.
  unfold failed_at_once. rewrite fmap_run. simpl.
  intros (Hn & Hs & [(via & r & err & Hin & Hnet & Hr)|Hr]); rewrite Hr.
  - split; [exact Hn|]. split; [exact Hs|]. left. now exists via, r, err.
  - auto.
Qed.

Lemma one_shot_down {A} (via : option sid) (r : request)
    (k : response -> outcome A) (w : world) :
  transport_down -> failed_at_once w (one_shot via r k w).
Proof.
  intros Hd. unfold failed_at_once, one_shot, respond. simpl.
  rewrite events_since_after.
  destruct (Hd (library_of via) (sent w) r) as [err Herr]. rewrite Herr.
  split; [reflexivity|]. split; [reflexivity|]. left.
  exists via, r, err. split; [now left|]. now split.
Qed.

Lemma one_shot_own_down {A} (r : request) (k : response -> outcome A)
    (w : world) :
  transport_down -> failed_at_once w (one_shot_own r k w).
Proof.
  intros Hd. unfold failed_at_once, one_shot_own, respond. simpl.
  rewrite events_since_closed_after.
  destruct (Hd Aiohttp (sent w) r) as [err Herr]. rewrite Herr.
  split; [reflexivity|]. split; [reflexivity|]. left.
  exists (Some (length (sessions w))), r, err.
  split; [right; now left|]. now split.
Qed.

Lemma one_shot_refused_failed {A} (s : sid) (r : request) (w : world) :
  failed_at_once w (@one_shot_refused A s r w).
Proof.
  unfold failed_at_once, one_shot_refused. simpl.
  rewrite events_since_after. auto.
Qed.

Lemma retry_result_exhausted_after (name : string) (lead att : list event)
    (patience : nat) (lib : library) (r : request) (w : world) :
  nothing_decodes lib ->
  attempts lead = 0 -> attempts att = 1 ->
  exhausted_after name patience w
    (retry_result name lead att patience lib r w).
Proof.
  intros Hd Hl Ha. rewrite retry_result_exhausted by exact Hd.
  split; [reflexivity|]. simpl.
  now rewrite events_since_after, attempts_app, Hl, attempts_failed_rounds.
Qed.

Lemma flattens_Structured (input_spec output_spec : pytype)
    (instructions : string) (input : instance) :
  flattens (ArgsStructured input_spec output_spec instructions input) = true ->
  exists f_in f_out,
    flatten_model input_spec = inr f_in /\
    flatten_model output_spec = inr f_out.
Proof.
  unfold flattens.
  destruct (flatten_model input_spec) as [e|f_in]; [discriminate|].
  destruct (flatten_model output_spec) as [e|f_out]; [discriminate|].
  eauto.
Qed.

Lemma failures_then_Some_decoded (lib : library) (r : request)
    (idx remaining : nat) (j : json) :
  snd (failures_then lib r idx remaining) = Some j ->
  decoded lib (idx + fst (failures_then lib r idx remaining)) r = Some j.
Proof.
  revert idx. induction remaining as [|n IH]; intros idx; simpl; [discriminate|].
  destruct (decoded lib idx r) as [j'|] eqn:Hd; simpl.
  - intros H. now rewrite Nat.add_0_r, Hd.
  - specialize (IH (S idx)). destruct (failures_then lib r (S idx) n).
    simpl in *.
    intros H. specialize (IH H).
    now replace (idx + S n0) with (S (idx + n0)) by lia.
Qed.

Lemma retry_result_shaped (name : string) (lead att : list event)
    (patience : nat) (lib : library) (r : request) (w : world) :
  attempts lead = 0 -> sleeps lead = [] ->
  attempts att = 1 -> sleeps att = [] ->
  retry_shaped name patience lib w
    (retry_result name lead att patience lib r w).
Proof.
  intros Hla Hls Haa Has. exists lead, att. unfold retry_result.
  pose proof (failures_then_le lib r (sent w) patience) as Hle.
  pose proof (failures_then_None lib r (sent w) patience) as Hnone.
  pose proof (failures_then_Some_decoded lib r (sent w) patience) as Hsome.
  destruct (failures_then lib r (sent w) patience) as [m [j|]]; simpl in *;
    exists m; rewrite events_since_after.
  - repeat split; auto; try discriminate.
    intros _ Hnd. specialize (Hsome j eq_refl). now rewrite Hnd in Hsome.
  - specialize (Hnone eq_refl). rewrite app_nil_r.
    repeat split; auto; try discriminate.
Qed.

Lemma retry_shaped_fmap {A B} (f : A -> B) (m : M A) (name : string)
    (patience : nat) (lib : library) (w : world) :
  retry_shaped name patience lib w (m w) ->
  retry_shaped name patience lib w (fmap f m w).
Proof.
  unfold retry_shaped. rewrite fmap_run. simpl.
  intros (lead & att & k & H). exists lead, att, k.
  destruct H as (H1 & H2 & H3 & H4 & H5 & H6 & H7 & H8).
  destruct (fst (m w)) as [a|e|]; simpl in *;
    (split; [|split; [|split; [|split; [|split; [|split; [|split]]]]]]);
    auto; try discriminate;
    intros Hf; destruct (H7 Hf) as [Hk Hx]; (split; [exact Hk|]);
    inversion Hx; reflexivity.
Qed.

Lemma refused_run_shaped {A} (name : string) (lead att : list event)
    (lib : library) (w : world) :
  attempts lead = 0 -> sleeps lead = [] ->
  attempts att = 1 -> sleeps att = [] ->
  @retry_shaped A name 8 lib w
    (Raised (RetriesExhausted name),
     after w 0 (lead ++ failed_rounds att 0 8)).
Proof.
  intros Hla Hls Haa Has. exists lead, att, 8.
  cbn [fst snd is_returned]. rewrite events_since_after, app_nil_r.
  repeat split; auto; try discriminate.
Qed.

(** Every run of a retrying capability, from the synchronous entry point
    or with the caller's session, has the shape of a retry loop. *)
Lemma retrying_invoke_shaped (c : CapabilityBase) (a : arguments)
    (e : entry) (w : world) :
  fits c a = true -> retries c = true -> e <> Async None ->
  retry_shaped (capability_name c) 8 (library_of_entry e) w (invoke c a e w).
Proof.
  intros Hfits Hr Hne.
  destruct c as [| |self|self|self|]; destruct a; try discriminate Hfits;
    try discriminate Hr; clear Hr Hfits;
    (destruct e as [|[s|]]; [| |congruence]); enter; apply retry_shaped_fmap.
  - rewrite Summarize_call_run. now apply retry_result_shaped.
  - unfold Summarize_run_async. destruct (session_is_open w s) eqn:Hs.
    + rewrite Summarize_run_async_rec_Some by exact Hs.
      now apply retry_result_shaped.
    + rewrite Summarize_run_async_rec_Some_refused by exact Hs.
      now apply (refused_run_shaped "Summarize" []).
  - rewrite DocumentQA_call_run. now apply retry_result_shaped.
  - unfold DocumentQA_run_async. destruct (session_is_open w s) eqn:Hs.
    + rewrite DocumentQA_run_async_rec_Some by exact Hs.
      now apply retry_result_shaped.
    + rewrite DocumentQA_run_async_rec_Some_refused by exact Hs.
      now apply refused_run_shaped.
Qed.

Lemma nth_error_backoff (m k : nat) :
  k < m -> nth_error (backoff 0 m) k = Some (2 ^ Z.of_nat k)%Z.
Proof.
  intros Hk. unfold backoff.
  rewrite nth_error_map, nth_error_seq.
  destruct (Nat.ltb_spec k m); [reflexivity|lia].
Qed.

(** ** Retry exhaustion *)

(** C1, as amended.  When every POST fails, DocumentQA and Summarize make
    exactly 8 attempts and raise the terminal failure that names them, from
    the synchronous entry point and from the asynchronous one given a
    session; Sql, Search, Structured and WebContent have no retry loop:
    from either entry point they make one attempt, wait for nothing and let
    its error through, the exception their client raised for the POST or
    the refusal of a closed session. *)
Theorem retry_stops_after_patience_attempts :
  transport_down ->
  forall (c : CapabilityBase) (a : arguments) (e : entry) (w : world),
    fits c a = true ->
    (retries c = true -> e <> Async None ->
     exhausted_after (capability_name c) 8 w (invoke c a e w)) /\
    (retries c = false -> flattens a = true ->
     failed_at_once w (invoke c a e w)).
Proof.
  intros Hdown c a e w Hfits.
  assert (Hnd : forall lib, nothing_decodes lib)
    by (intros lib; now apply transport_down_nothing_decodes).
  destruct c as [| |self|self|self|]; destruct a; try discriminate Hfits;
    (split; [intros Hr Hne | intros Hr Hfl]); try discriminate Hr; clear Hr.
  - (* Summarize *)
    destruct e as [|[s|]]; [| |congruence]; enter; apply exhausted_after_fmap.
    + rewrite Summarize_call_run.
      apply retry_result_exhausted_after; [apply Hnd|reflexivity|reflexivity].
    + unfold Summarize_run_async.
      destruct (session_is_open w s) eqn:Hs.
      * rewrite Summarize_run_async_rec_Some by exact Hs.
        apply retry_result_exhausted_after; [apply Hnd|reflexivity|reflexivity].
      * rewrite Summarize_run_async_rec_Some_refused by exact Hs.
        split; [reflexivity|]. cbn [fst snd].
        now rewrite events_since_after, attempts_failed_rounds.
  - (* DocumentQA *)
    destruct e as [|[s|]]; [| |congruence]; enter; apply exhausted_after_fmap.
    + rewrite DocumentQA_call_run.
      apply retry_result_exhausted_after; [apply Hnd|reflexivity|reflexivity].
    + unfold DocumentQA_run_async.
      destruct (session_is_open w s) eqn:Hs.
      * rewrite DocumentQA_run_async_rec_Some by exact Hs.
        apply retry_result_exhausted_after; [apply Hnd|reflexivity|reflexivity].
      * rewrite DocumentQA_run_async_rec_Some_refused by exact Hs.
        split; [reflexivity|]. cbn [fst snd].
        now rewrite events_since_after, attempts_app, attempts_failed_rounds.
  - (* Sql *)
    destruct e as [|[s|]]; enter; apply failed_at_once_fmap.
    + rewrite Sql_call_run. now apply one_shot_down.
    + destruct (session_is_open w s) eqn:Hs.
      * rewrite Sql_run_async_Some_run by exact Hs. now apply one_shot_down.
      * rewrite Sql_run_async_Some_refused by exact Hs.
        apply one_shot_refused_failed.
    + rewrite Sql_run_async_None_run. now apply one_shot_own_down.
  - (* Search *)
    destruct e as [|[s|]]; enter; apply failed_at_once_fmap.
    + rewrite Search_call_run. now apply one_shot_down.
    + destruct (session_is_open w s) eqn:Hs.
      * rewrite Search_run_async_Some_run by exact Hs. now apply one_shot_down.
      * rewrite Search_run_async_Some_refused by exact Hs.
        apply one_shot_refused_failed.
    + rewrite Search_run_async_None_run. now apply one_shot_own_down.
  - (* Structured *)
    destruct (flattens_Structured _ _ _ _ Hfl) as (f_in & f_out & Hin & Hout).
    destruct e as [|[s|]]; enter; apply failed_at_once_fmap.
    + rewrite (Structured_call_run _ _ _ _ _ f_in f_out) by assumption.
      now apply one_shot_down.
    + destruct (session_is_open w s) eqn:Hs.
      * rewrite (Structured_run_async_Some_run _ _ _ _ _ f_in f_out)
          by assumption.
        now apply one_shot_down.
      * rewrite (Structured_run_async_Some_refused _ _ _ _ _ f_in f_out)
          by assumption.
        apply one_shot_refused_failed.
    + rewrite (Structured_run_async_None_run _ _ _ _ _ f_in f_out)
        by assumption.
      now apply one_shot_own_down.
  - (* WebContent *)
    destruct e as [|[s|]]; enter; apply failed_at_once_fmap.
    + rewrite WebContent_call_run. now apply one_shot_down.
    + unfold WebContent_run_async. destruct (session_is_open w s) eqn:Hs.
      * rewrite WebContent_run_async_Some_run by exact Hs.
        now apply one_shot_down.
      * rewrite WebContent_run_async_Some_refused by exact Hs.
        apply one_shot_refused_failed.
    + rewrite WebContent_run_async_None_run. now apply one_shot_own_down.
Qed.

(** ** Backoff *)

(** C3.  A retry loop waits [2^k] units after its [k]-th failed attempt
    (counting from 0) and at no other time: on any network the trace of a
    run is [m <= 8] rounds of attempt, progress line and wait of [2^k],
    then the winning attempt if there is one.  When the client of the
    entry point never decodes a reply the waits are 1, 2, 4, 8, 16, 32, 64,
    128 and add up to 255. *)
Theorem backoff_doubles_after_each_failure :
  forall (c : CapabilityBase) (a : arguments) (e : entry) (w : world),
    fits c a = true -> retries c = true -> e <> Async None ->
    let x := invoke c a e w in
    let t := events_since w (snd x) in
    retry_shaped (capability_name c) 8 (library_of_entry e) w x /\
    (exists m, m <= 8 /\ sleeps t = backoff 0 m /\
       forall k, k < m -> nth_error (sleeps t) k = Some (2 ^ Z.of_nat k)%Z) /\
    (nothing_decodes (library_of_entry e) ->
     sleeps t = [1; 2; 4; 8; 16; 32; 64; 128]%Z /\ total (sleeps t) = 255%Z).
Proof.
  intros c a e w Hfits Hr Hne x t.
  pose proof (retrying_invoke_shaped c a e w Hfits Hr Hne) as Hshape.
  fold x in Hshape. split; [exact Hshape|].
  destruct Hshape as (lead & att & m & Hm & Hla & Hls & Haa & Has & Ht & Hfail & Hret).
  fold t in Ht.
  assert (Hsl : sleeps t = backoff 0 m).
  { rewrite Ht, !sleeps_app, Hls, sleeps_failed_rounds by exact Has.
    destruct (is_returned (fst x)); simpl; now rewrite ?Has, app_nil_r. }
  split.
  - exists m. repeat split; auto.
    intros k Hk. rewrite Hsl. now apply nth_error_backoff.
  - intros Hnd. destruct (is_returned (fst x)) eqn:Hir.
    + exfalso. now apply Hret.
    + destruct (Hfail eq_refl) as [-> _]. rewrite Hsl. split; reflexivity.
Qed.

(** ** First success *)

Lemma winning_trace_counts (lead att tail : list event) (r : request)
    (k : nat) :
  attempts lead = 0 -> sleeps lead = [] -> requests lead = [] ->
  wire lead = [] ->
  attempts att = 1 -> sleeps att = [] -> requests att = [r] ->
  wire att = [WRequest r] ->
  attempts tail = 0 -> sleeps tail = [] -> requests tail = [] ->
  wire tail = [] ->
  let t := lead ++ failed_rounds att 0 k ++ att ++ tail in
  attempts t = S k /\
  requests t = repeat r (S k) /\
  sleeps t = backoff 0 k /\
  exists t', wire t = t' ++ [WRequest r].
Proof.
  intros Hla Hls Hlr Hlw Haa Has Har Haw Hta Hts Htr Htw t. unfold t.
  repeat split.
  - rewrite !attempts_app, Hla, Haa, Hta, attempts_failed_rounds by exact Haa.
    lia.
  - rewrite !requests_app, Hlr, Har, Htr,
      (requests_failed_rounds att r) by exact Har.
    simpl. symmetry. apply repeat_cons.
  - rewrite !sleeps_app, Hls, Has, Hts, sleeps_failed_rounds by exact Has.
    simpl. now rewrite ?app_nil_r.
  - exists (wire (failed_rounds att 0 k)).
    rewrite !wire_app, Hlw, Haw, Htw. simpl. now rewrite ?app_nil_r.
Qed.

Lemma winning_trace_counts_plain (lead att : list event) (r : request)
    (k : nat) :
  attempts lead = 0 -> sleeps lead = [] -> requests lead = [] ->
  wire lead = [] ->
  attempts att = 1 -> sleeps att = [] -> requests att = [r] ->
  wire att = [WRequest r] ->
  let t := lead ++ failed_rounds att 0 k ++ att in
  attempts t = S k /\
  requests t = repeat r (S k) /\
  sleeps t = backoff 0 k /\
  exists t', wire t = t' ++ [WRequest r].
Proof.
  intros Hla Hls Hlr Hlw Haa Has Har Haw.
  pose proof (winning_trace_counts lead att [] r k Hla Hls Hlr Hlw
                Haa Has Har Haw eq_refl eq_refl eq_refl eq_refl) as H.
  now rewrite app_nil_r in H.
Qed.

(** C4.  The first attempt whose reply decodes ends the call: when the
    attempts of index [0..k-1] fail and the attempt of index [k < 8]
    succeeds, the call returns that attempt's result after exactly [k+1]
    attempts, all with the same request, having waited only after the [k]
    failures; the last thing on the wire is the winning request, and no
    POST is sent after it.  With [k = 3]: exactly 4 attempts. *)
Theorem first_success_returns_at_once :
  forall (c : CapabilityBase) (a : arguments) (e : entry) (w : world)
         (k : nat) (j : json),
    fits c a = true -> retries c = true -> entry_ok w e ->
    k < 8 ->
    (forall i, i < k ->
       decoded (library_of_entry e) (sent w + i) (retry_request a) = None) ->
    decoded (library_of_entry e) (sent w + k) (retry_request a) = Some j ->
    let x := invoke c a e w in
    let t := events_since w (snd x) in
    fst x = Returned (VJson j) /\
    sent (snd x) = sent w + S k /\
    attempts t = S k /\
    requests t = repeat (retry_request a) (S k) /\
    sleeps t = backoff 0 k /\
    exists t', wire t = t' ++ [WRequest (retry_request a)].
Proof.
  intros c a e w k j Hfits Hr Hok Hk Hfail Hwin x t. subst t x.
  destruct c as [| |self|self|self|]; destruct a; try discriminate Hfits;
    try discriminate Hr; clear Hr Hfits; cbn [retry_request] in *;
    destruct e as [|[s|]]; enter; rewrite fmap_run;
    cbn [entry_ok library_of_entry] in *.
  - rewrite Summarize_call_run.
    rewrite (retry_result_first_success _ _ _ 8 k _ _ j w Hk Hfail Hwin).
    cbn [fst snd map_outcome]. rewrite events_since_after.
    split; [reflexivity|]. split; [reflexivity|].
    now apply (winning_trace_counts_plain []).
  - unfold Summarize_run_async.
    rewrite Summarize_run_async_rec_Some by exact Hok.
    rewrite (retry_result_first_success _ _ _ 8 k _ _ j w Hk Hfail Hwin).
    cbn [fst snd map_outcome]. rewrite events_since_after.
    split; [reflexivity|]. split; [reflexivity|].
    now apply (winning_trace_counts_plain []).
  - rewrite Summarize_run_async_None, Summarize_run_async_rec_None.
    rewrite (failures_then_first_success _ _ _ 8 k j Hk Hfail Hwin).
    cbn [fst snd map_outcome]. rewrite events_since_closed_after.
    split; [reflexivity|]. split; [reflexivity|].
    now apply (winning_trace_counts [EvOpen _] _ [EvClose _]).
  - rewrite DocumentQA_call_run.
    rewrite (retry_result_first_success _ _ _ 8 k _ _ j w Hk Hfail Hwin).
    cbn [fst snd map_outcome]. rewrite events_since_after.
    split; [reflexivity|]. split; [reflexivity|].
    now apply (winning_trace_counts_plain [EvPrint _]).
  - unfold DocumentQA_run_async.
    rewrite DocumentQA_run_async_rec_Some by exact Hok.
    rewrite (retry_result_first_success _ _ _ 8 k _ _ j w Hk Hfail Hwin).
    cbn [fst snd map_outcome]. rewrite events_since_after.
    split; [reflexivity|]. split; [reflexivity|].
    now apply (winning_trace_counts_plain [EvPrint _]).
  - rewrite DocumentQA_run_async_None, DocumentQA_run_async_rec_None.
    rewrite (failures_then_first_success _ _ _ 8 k j Hk Hfail Hwin).
    cbn [fst snd map_outcome]. rewrite events_since_closed_after.
    split; [reflexivity|]. split; [reflexivity|].
    now apply (winning_trace_counts [EvPrint _; EvOpen _; EvPrint _]
                 [EvRequest (Some (length (sessions w)))
                    (DocumentQA_request document query)]
                 [EvClose _]
                 (DocumentQA_request document query) k).
Qed.

(** ** Sessions *)

Lemma retry_result_sessions (name : string) (lead att : list event)
    (patience : nat) (lib : library) (r : request) (w : world) :
  sessions (snd (retry_result name lead att patience lib r w)) = sessions w.
Proof.
  unfold retry_result.
  now destruct (failures_then lib r (sent w) patience) as [m [j|]].
Qed.

Lemma bad_arguments_run {A} (w : world) :
  @bad_arguments A w = (Raised (TypeError "arguments do not match the signature"), w).
Proof. reflexivity. Qed.

(** With the caller's session, whatever its state: no session is created,
    none is closed. *)
Lemma run_async_with_session_keeps_sessions (c : CapabilityBase)
    (a : arguments) (s : sid) (w : world) :
  sessions (snd (CapabilityBase_run_async c a (Some s) w)) = sessions w.
Proof.
  destruct c as [| |self|self|self|]; destruct a;
    cbn [CapabilityBase_run_async]; try reflexivity;
    rewrite fmap_run; cbn [snd].
  - unfold Summarize_run_async. destruct (session_is_open w s) eqn:Hs.
    + rewrite Summarize_run_async_rec_Some by exact Hs.
      apply retry_result_sessions.
    + now rewrite Summarize_run_async_rec_Some_refused by exact Hs.
  - unfold DocumentQA_run_async. destruct (session_is_open w s) eqn:Hs.
    + rewrite DocumentQA_run_async_rec_Some by exact Hs.
      apply retry_result_sessions.
    + now rewrite DocumentQA_run_async_rec_Some_refused by exact Hs.
  - destruct (session_is_open w s) eqn:Hs.
    + now rewrite Sql_run_async_Some_run by exact Hs.
    + now rewrite Sql_run_async_Some_refused by exact Hs.
  - destruct (session_is_open w s) eqn:Hs.
    + now rewrite Search_run_async_Some_run by exact Hs.
    + now rewrite Search_run_async_Some_refused by exact Hs.
  - destruct (flattens (ArgsStructured input_spec output_spec instructions
                          input)) eqn:Hfl.
    + destruct (flattens_Structured _ _ _ _ Hfl) as (f_in & f_out & Hin & Hout).
      destruct (session_is_open w s) eqn:Hs.
      * now rewrite (Structured_run_async_Some_run _ _ _ _ _ f_in f_out)
          by assumption.
      * now rewrite (Structured_run_async_Some_refused _ _ _ _ _ f_in f_out)
          by assumption.
    + destruct (Structured_run_async_unflattened self _ _ _ _ (Some s) w Hfl)
        as (e & -> & _).
      reflexivity.
  - unfold WebContent_run_async. destruct (session_is_open w s) eqn:Hs.
    + now rewrite WebContent_run_async_Some_run by exact Hs.
    + now rewrite WebContent_run_async_Some_refused by exact Hs.
Qed.

(** Without a session: one session is created, and it is closed when the
    call is over. *)
Lemma run_async_without_session_closes (c : CapabilityBase) (a : arguments)
    (w : world) :
  fits c a = true -> flattens a = true ->
  sessions (snd (CapabilityBase_run_async c a None w)) = sessions w ++ [Closed].
Proof.
  intros Hfits Hfl.
  destruct c as [| |self|self|self|]; destruct a; try discriminate Hfits;
    cbn [CapabilityBase_run_async]; rewrite fmap_run; cbn [snd].
  - rewrite Summarize_run_async_None, Summarize_run_async_rec_None.
    now destruct (failures_then _ _ _ _) as [m [j|]].
  - rewrite DocumentQA_run_async_None, DocumentQA_run_async_rec_None.
    now destruct (failures_then _ _ _ _) as [m [j|]].
  - now rewrite Sql_run_async_None_run.
  - now rewrite Search_run_async_None_run.
  - destruct (flattens_Structured _ _ _ _ Hfl) as (f_in & f_out & Hin & Hout).
    now rewrite (Structured_run_async_None_run _ _ _ _ _ f_in f_out)
      by assumption.
  - now rewrite WebContent_run_async_None_run.
Qed.

(** A call that stops before it posts creates no session at all. *)
Lemma run_async_without_session_stopped (c : CapabilityBase) (a : arguments)
    (w : world) :
  fits c a = false \/ flattens a = false ->
  snd (CapabilityBase_run_async c a None w) = w.
Proof.
  intros [H|H].
  - destruct c as [| |self|self|self|]; destruct a; try discriminate H;
      reflexivity.
  - destruct a; try discriminate H.
    destruct c as [| |self|self|self|]; try reflexivity.
    cbn [CapabilityBase_run_async]. rewrite fmap_run. cbn [snd].
    destruct (Structured_run_async_unflattened self _ _ _ _ None w H)
      as (e & -> & _).
    reflexivity.
Qed.

(** C8.  An asynchronous call given a session leaves every session as it
    found it: it does not close the caller's session, whether it returns,
    fails or runs out of retries.  Given none, it creates one session of
    its own, and that session is closed when the call is over, on every
    network, so on every exit path; a call that stops before it posts
    (arguments that do not fit, a schema that does not flatten) creates
    none. *)
Theorem sessions_closed_by_their_owner :
  forall (c : CapabilityBase) (a : arguments) (w : world),
    (forall s,
       sessions (snd (invoke c a (Async (Some s)) w)) = sessions w) /\
    (fits c a = true -> flattens a = true ->
     sessions (snd (invoke c a (Async None) w)) = sessions w ++ [Closed]) /\
    (fits c a = false \/ flattens a = false ->
     sessions (snd (invoke c a (Async None) w)) = sessions w).
Proof.
  intros c a w. split; [|split].
  - intros s. apply run_async_with_session_keeps_sessions.
  - apply run_async_without_session_closes.
  - intros H. cbn [invoke].
    now rewrite run_async_without_session_stopped.
Qed.

(** ** The specification's loop *)

Lemma spec_rounds_S (att : list event) (idx n : nat) :
  spec_rounds att idx (S n) =
  (att ++ [EvSleep (2 ^ Z.of_nat idx)]) ++ spec_rounds att (S idx) n.
Proof. reflexivity. Qed.

Lemma wire_spec_rounds (att : list event) (r : request) (idx n : nat) :
  wire att = [WRequest r] ->
  wire (spec_rounds att idx n) =
  flat_map (fun k => [WRequest r; WSleep (2 ^ Z.of_nat k)]) (seq idx n).
Proof.
  intros Hatt. revert idx. induction n as [|n IH]; intros idx.
  - reflexivity.
  - rewrite spec_rounds_S, !wire_app, Hatt, IH. reflexivity.
Qed.

Lemma time_sleep_spec (d : Z) (w : world) :
  time_sleep d w = (Returned tt, after w 0 [EvSleep d]).
Proof. unfold time_sleep. now rewrite emit_after. Qed.

(** The loop of section 4.1, on any network. *)
Lemma RetryPolicy_execute_from_run (attempt : M json) (name : string)
    (pre : list event) (via : option sid) (r : request) :
  posts attempt pre via r ->
  forall remaining idx w,
    via_ok w via ->
    RetryPolicy_execute_from attempt name remaining idx w =
    let att := pre ++ [EvRequest via r] in
    match failures_then (library_of via) r (sent w) remaining with
    | (m, Some j) =>
        (Returned j, after w (S m) (spec_rounds att idx m ++ att))
    | (m, None) =>
        (Raised (RetriesExhausted name), after w m (spec_rounds att idx m))
    end.
Proof.
  intros Hp. induction remaining as [|n IH]; intros idx w Hok.
  - simpl. now rewrite after_0.
  - simpl RetryPolicy_execute_from. simpl failures_then.
    unfold try_except. rewrite (Hp w Hok), reply_outcome_decoded.
    destruct (decoded (library_of via) (sent w) r) as [j|] eqn:Hd.
    + reflexivity.
    + destruct (reply_outcome_failed _ _ _ Hd) as [e ->].
      unfold bind. rewrite time_sleep_spec, after_after.
      rewrite IH by (now apply via_ok_after).
      replace (sent (after w (1 + 0) ((pre ++ [EvRequest via r]) ++
                 [EvSleep (2 ^ Z.of_nat idx)])))
        with (S (sent w)) by (simpl; lia).
      destruct (failures_then (library_of via) r (S (sent w)) n)
        as [m [j|]]; cbv zeta;
        rewrite after_after, spec_rounds_S;
        replace (1 + 0 + S m) with (S (S m)) by lia;
        replace (1 + 0 + m) with (S m) by lia;
        now rewrite <- ?app_assoc.
Qed.

Lemma wire_alike_refl (t u : list event) : wire t = wire u -> wire_alike t u.
Proof.
  unfold wire_alike. intros ->. induction (wire u) as [|x l IH]; constructor.
  - destruct x as [r|d]; simpl; [|reflexivity].
    repeat split. unfold payload_alike.
    destruct (req_json r); reflexivity.
  - exact IH.
Qed.

(** A retry loop of the code and the loop of section 4.1 over the same
    request: the same outcome, the same requests, the same waits. *)
Lemma retry_result_is_RetryPolicy (attempt : M json) (name : string)
    (lead att pre : list event) (via : option sid) (r : request)
    (w : world) :
  posts attempt pre via r -> via_ok w via ->
  wire lead = [] -> wire att = [WRequest r] -> wire pre = [] ->
  same_run w (retry_result name lead att 8 (library_of via) r w)
    (RetryPolicy_execute attempt name 8 w).
Proof.
  intros Hp Hok Hl Ha Hpre. unfold RetryPolicy_execute.
  rewrite (RetryPolicy_execute_from_run attempt name pre via r Hp 8 0 w Hok).
  unfold retry_result, same_run.
  assert (Hatt : wire (pre ++ [EvRequest via r]) = [WRequest r]).
  { now rewrite wire_app, Hpre. }
  destruct (failures_then (library_of via) r (sent w) 8) as [m [j|]];
    cbv zeta;
    cbn [fst snd]; rewrite !events_since_after; (split; [reflexivity|]);
    rewrite !wire_app, Hl, ?Hpre, ?Ha,
      (wire_failed_rounds att r) by exact Ha;
    rewrite (wire_spec_rounds _ r) by exact Hatt; reflexivity.
Qed.

Lemma same_run_fmap {A B} (f : A -> B) (m1 m2 : M A) (w : world) :
  same_run w (m1 w) (m2 w) -> same_run w (fmap f m1 w) (fmap f m2 w).
Proof.
  unfold same_run. rewrite !fmap_run. cbn [fst snd].
  intros [Hr Hw]. now rewrite Hr.
Qed.

(** ** The two entry points, side by side *)

Lemma Permutation_swap_last {A} (a b c d : A) :
  Permutation [a; b; c; d] [a; b; d; c].
Proof. do 2 apply perm_skip. apply perm_swap. Qed.

(** Unfold a run that posts once down to its trace. *)
Ltac one_shot_trace :=
  rewrite ?fmap_run; unfold one_shot, one_shot_own; cbn [fst snd];
  rewrite ?events_since_after, ?events_since_closed_after.

(** ** What goes over the wire *)

Lemma Forall_requests_app (P : request -> Prop) (t u : list event) :
  Forall P (requests t) -> Forall P (requests u) ->
  Forall P (requests (t ++ u)).
Proof. intros Ht Hu. rewrite requests_app. now apply Forall_app. Qed.

Lemma Forall_requests_rounds (P : request -> Prop) (att : list event)
    (count n : nat) :
  Forall P (requests att) -> Forall P (requests (failed_rounds att count n)).
Proof.
  intros Hatt. revert count. induction n as [|n IH]; intros count.
  - constructor.
  - rewrite failed_rounds_S. repeat apply Forall_requests_app; auto.
Qed.

(** Break a trace of rounds down to its requests. *)
Ltac requests_ok :=
  rewrite ?events_since_after, ?events_since_closed_after, ?events_since_refl;
  repeat first
    [ apply Forall_requests_app
    | apply Forall_requests_rounds
    | progress (cbn [requests]; repeat constructor) ].

Lemma retry_result_requests (P : request -> Prop) (name : string)
    (lead att : list event) (patience : nat) (lib : library) (r : request)
    (w : world) :
  Forall P (requests lead) -> Forall P (requests att) ->
  Forall P (requests
              (events_since w
                 (snd (retry_result name lead att patience lib r w)))).
Proof.
  intros Hl Ha. unfold retry_result.
  destruct (failures_then lib r (sent w) patience) as [m [j|]]; cbn [snd];
    rewrite events_since_after; repeat apply Forall_requests_app;
    try apply Forall_requests_rounds; auto.
Qed.

(** Every request a call sends, from any entry point, with a session in
    any state, on any network, goes to the capability's endpoint with the
    capability's headers. *)
Lemma requests_go_to_the_endpoint (c : CapabilityBase) (a : arguments)
    (e : entry) (w : world) :
  Forall (fun r => req_url r = endpoint c /\ req_headers r = headers_of c)
    (requests (events_since w (snd (invoke c a e w)))).
Proof.
  destruct c as [| |self|self|self|]; destruct a;
    destruct e as [|[s|]]; enter;
    try (rewrite bad_arguments_run; cbn [snd]; requests_ok; fail);
    rewrite fmap_run; cbn [snd].
  - rewrite Summarize_call_run. apply retry_result_requests; requests_ok.
  - unfold Summarize_run_async. destruct (session_is_open w s) eqn:Hs.
    + rewrite Summarize_run_async_rec_Some by exact Hs.
      apply retry_result_requests; requests_ok.
    + rewrite Summarize_run_async_rec_Some_refused by exact Hs.
      cbn [snd]. requests_ok.
  - rewrite Summarize_run_async_None, Summarize_run_async_rec_None.
    destruct (failures_then _ _ _ _) as [m [j|]]; cbn [snd]; requests_ok.
  - rewrite DocumentQA_call_run. apply retry_result_requests; requests_ok.
  - unfold DocumentQA_run_async. destruct (session_is_open w s) eqn:Hs.
    + rewrite DocumentQA_run_async_rec_Some by exact Hs.
      apply retry_result_requests; requests_ok.
    + rewrite DocumentQA_run_async_rec_Some_refused by exact Hs.
      cbn [snd]. requests_ok.
  - rewrite DocumentQA_run_async_None, DocumentQA_run_async_rec_None.
    destruct (failures_then _ _ _ _) as [m [j|]]; cbn [snd]; requests_ok.
  - rewrite Sql_call_run. one_shot_trace. requests_ok.
  - destruct (session_is_open w s) eqn:Hs.
    + rewrite Sql_run_async_Some_run by exact Hs. one_shot_trace. requests_ok.
    + rewrite Sql_run_async_Some_refused by exact Hs.
      unfold one_shot_refused. cbn [snd]. requests_ok.
  - rewrite Sql_run_async_None_run. one_shot_trace. requests_ok.
  - rewrite Search_call_run. one_shot_trace. requests_ok.
  - destruct (session_is_open w s) eqn:Hs.
    + rewrite Search_run_async_Some_run by exact Hs. one_shot_trace.
      requests_ok.
    + rewrite Search_run_async_Some_refused by exact Hs.
      unfold one_shot_refused. cbn [snd]. requests_ok.
  - rewrite Search_run_async_None_run. one_shot_trace. requests_ok.
  - destruct (flattens (ArgsStructured input_spec output_spec instructions
                          input)) eqn:Hfl.
    + destruct (flattens_Structured _ _ _ _ Hfl) as (f_in & f_out & Hin & Hout).
      rewrite (Structured_call_run _ _ _ _ _ f_in f_out) by assumption.
      one_shot_trace. requests_ok.
    + destruct (Structured_call_unflattened self _ _ _ _ w Hfl) as (e & -> & _).
      cbn [snd]. requests_ok.
  - destruct (flattens (ArgsStructured input_spec output_spec instructions
                          input)) eqn:Hfl.
    + destruct (flattens_Structured _ _ _ _ Hfl) as (f_in & f_out & Hin & Hout).
      destruct (session_is_open w s) eqn:Hs.
      * rewrite (Structured_run_async_Some_run _ _ _ _ _ f_in f_out)
          by assumption.
        one_shot_trace. requests_ok.
      * rewrite (Structured_run_async_Some_refused _ _ _ _ _ f_in f_out)
          by assumption.
        unfold one_shot_refused. cbn [snd]. requests_ok.
    + destruct (Structured_run_async_unflattened self _ _ _ _ (Some s) w Hfl)
        as (e & -> & _).
      cbn [snd]. requests_ok.
  - destruct (flattens (ArgsStructured input_spec output_spec instructions
                          input)) eqn:Hfl.
    + destruct (flattens_Structured _ _ _ _ Hfl) as (f_in & f_out & Hin & Hout).
      rewrite (Structured_run_async_None_run _ _ _ _ _ f_in f_out)
        by assumption.
      one_shot_trace. requests_ok.
    + destruct (Structured_run_async_unflattened self _ _ _ _ None w Hfl)
        as (e & -> & _).
      cbn [snd]. requests_ok.
  - rewrite WebContent_call_run. one_shot_trace. requests_ok.
  - unfold WebContent_run_async. destruct (session_is_open w s) eqn:Hs.
    + rewrite WebContent_run_async_Some_run by exact Hs. one_shot_trace.
      requests_ok.
    + rewrite WebContent_run_async_Some_refused by exact Hs.
      unfold one_shot_refused. cbn [snd]. requests_ok.
  - rewrite WebContent_run_async_None_run. one_shot_trace. requests_ok.
Qed.


Lemma failures_then_alike (r : request) :
  clients_decode_alike ->
  forall remaining idx,
    failures_then Requests r idx remaining =
    failures_then Aiohttp r idx remaining.
Proof.
  intros Halike. induction remaining as [|n IH]; intros idx; simpl.
  - reflexivity.
  - now rewrite Halike, IH.
Qed.

Lemma retry_results_same_run (name : string)
    (lead1 att1 lead2 att2 : list event) (r : request) (w : world) :
  clients_decode_alike ->
  wire lead1 = [] -> wire att1 = [WRequest r] ->
  wire lead2 = [] -> wire att2 = [WRequest r] ->
  same_run w (retry_result name lead1 att1 8 Requests r w)
    (retry_result name lead2 att2 8 Aiohttp r w).
Proof.
  intros Halike Hl1 Ha1 Hl2 Ha2. unfold retry_result, same_run.
  rewrite (failures_then_alike r Halike).
  destruct (failures_then Aiohttp r (sent w) 8) as [m [j|]];
    cbn [fst snd]; rewrite !events_since_after; (split; [reflexivity|]);
    rewrite !wire_app, Hl1, Hl2, ?Ha1, ?Ha2,
      (wire_failed_rounds att1 r), (wire_failed_rounds att2 r) by assumption;
    reflexivity.
Qed.

Lemma respond_as_json_returned (lib : library) (n : nat) (r : request)
    (v : pyvalue) :
  map_outcome VJson (respond lib as_json n r) = Returned v <->
  exists j, decoded lib n r = Some j /\ v = VJson j.
Proof.
  unfold respond, as_json, decoded.
  destruct (net lib n r) as [e|resp]; [|destruct (resp_json resp) as [e|j]];
    simpl; split; try discriminate.
  - intros (j & H & _). discriminate.
  - intros (j & H & _). discriminate.
  - intros H. exists j. split; [reflexivity|]. now inversion H.
  - intros (j' & H & ->). now inversion H.
Qed.

Lemma respond_as_json_alike (n : nat) (r : request) (v : pyvalue) :
  clients_decode_alike ->
  (map_outcome VJson (respond Requests as_json n r) = Returned v <->
   map_outcome VJson (respond Aiohttp as_json n r) = Returned v).
Proof.
  intros Halike. rewrite !respond_as_json_returned. now rewrite Halike.
Qed.

(** C2, as amended.  Every request of every capability, whatever the entry
    point, goes to the capability's one endpoint.  For fitting arguments,
    comparing the synchronous entry point with the asynchronous one (given
    no session by a capability that posts once, or given an open session by
    any capability but Sql): DocumentQA and Summarize run the loop of
    section 4.1 over their request from both entry points, each over its
    own client; Sql, Search, Structured and WebContent run no loop: one
    request with the same payload as a dict, no wait, from both.  When
    the two clients decode the replies alike, the two entry points send the
    same requests and wait the same waits, the capabilities that hand back
    the reply as it is return the same value from both, and DocumentQA and
    Summarize end alike. *)
Theorem entry_points_agree :
  forall (c : CapabilityBase) (a : arguments) (w : world),
    let x := invoke c a Sync w in
    let tx := events_since w (snd x) in
    (forall e : entry,
       requests_to (endpoint c) (events_since w (snd (invoke c a e w)))) /\
    (forall session : option sid,
       fits c a = true -> flattens a = true -> compared c w session ->
       let y := invoke c a (Async session) w in
       let ty := events_since w (snd y) in
       (retries c = true ->
        same_run w x
          (fmap VJson
             (RetryPolicy_execute (post_json None (retry_request a))
                (capability_name c) 8) w) /\
        same_run w y
          (fmap VJson
             (RetryPolicy_execute (post_json session (retry_request a))
                (capability_name c) 8) w)) /\
       (retries c = false ->
        wire_alike tx ty /\
        length (requests tx) = 1 /\ sleeps tx = [] /\
        length (requests ty) = 1 /\ sleeps ty = []) /\
       (clients_decode_alike ->
        wire_alike tx ty /\
        (returns_reply c = true ->
         forall v, fst x = Returned v <-> fst y = Returned v) /\
        (retries c = true -> fst x = fst y))).
Proof.
  intros c a w x tx. split.
  { intros e. unfold requests_to.
    eapply Forall_impl; [|apply requests_go_to_the_endpoint].
    now intros r [Hurl _]. }
  intros session Hfits Hfl Hcmp y ty. subst tx ty x y.
  destruct c as [| |self|self|self|]; destruct a; try discriminate Hfits;
    clear Hfits; cbn [retries returns_reply endpoint capability_name
                      retry_request]; enter.
  - (* Summarize *)
    destruct session as [s|]; [destruct Hcmp as [Hs _]|discriminate Hcmp].
    unfold Summarize_run_async.
    refine (conj _ (conj _ _)); [intros _; split|discriminate|intros Halike].
    + apply same_run_fmap. rewrite Summarize_call_run.
      apply (retry_result_is_RetryPolicy _ _ _ _ [] None);
        try reflexivity; try exact I; intros w0 H0; now apply post_json_spec.
    + apply same_run_fmap. rewrite Summarize_run_async_rec_Some by exact Hs.
      apply (retry_result_is_RetryPolicy _ _ _ _ [] (Some s));
        try reflexivity; try exact Hs; intros w0 H0; now apply post_json_spec.
    + assert (Hsame :
        same_run w (Summarize_call document w)
          (Summarize_run_async_rec 2 document (Some s) w)).
      { rewrite Summarize_call_run, Summarize_run_async_rec_Some by exact Hs.
        apply retry_results_same_run; [exact Halike|reflexivity..]. }
      rewrite !fmap_run. cbn [fst snd]. split; [|split].
      * apply wire_alike_refl, Hsame.
      * intros _ v. now rewrite (proj1 Hsame).
      * intros _. now rewrite (proj1 Hsame).
  - (* DocumentQA *)
    destruct session as [s|]; [destruct Hcmp as [Hs _]|discriminate Hcmp].
    unfold DocumentQA_run_async.
    refine (conj _ (conj _ _)); [intros _; split|discriminate|intros Halike].
    + apply same_run_fmap. rewrite DocumentQA_call_run.
      apply (retry_result_is_RetryPolicy _ _ _ _ [] None);
        try reflexivity; try exact I; intros w0 H0; now apply post_json_spec.
    + apply same_run_fmap. rewrite DocumentQA_run_async_rec_Some by exact Hs.
      apply (retry_result_is_RetryPolicy _ _ _ _ [] (Some s));
        try reflexivity; try exact Hs; intros w0 H0; now apply post_json_spec.
    + assert (Hsame :
        same_run w (DocumentQA_call document query w)
          (DocumentQA_run_async_rec 2 document query (Some s) w)).
      { rewrite DocumentQA_call_run, DocumentQA_run_async_rec_Some by exact Hs.
        apply retry_results_same_run; [exact Halike|reflexivity..]. }
      rewrite !fmap_run. cbn [fst snd]. split; [|split].
      * apply wire_alike_refl, Hsame.
      * intros _ v. now rewrite (proj1 Hsame).
      * intros _. now rewrite (proj1 Hsame).
  - (* Sql *)
    destruct session as [s|]; [now destruct Hcmp|].
    rewrite !fmap_run, Sql_call_run, Sql_run_async_None_run. one_shot_trace.
    assert (Hw : wire_alike
                   [EvRequest None
                      (Sql_request self query sql_schema
                         (default_sql_variant sql_variant))]
                   [EvOpen (length (sessions w));
                    EvRequest (Some (length (sessions w)))
                      (Sql_request self query sql_schema
                         (default_sql_variant sql_variant));
                    EvClose (length (sessions w))])
      by (now apply wire_alike_refl).
    refine (conj _ (conj _ _)); [discriminate|intros _|intros Halike].
    + split; [exact Hw|]. now repeat split.
    + split; [exact Hw|]. split; [|discriminate].
      intros _ v. now apply respond_as_json_alike.
  - (* Search *)
    rewrite !fmap_run, Search_call_run.
    destruct session as [s|]; [destruct Hcmp as [Hs _]|].
    + rewrite Search_run_async_Some_run by exact Hs. one_shot_trace.
      assert (Hw : wire_alike
                     [EvRequest None (Search_request self query)]
                     [EvRequest (Some s) (Search_request self query)])
        by (now apply wire_alike_refl).
      refine (conj _ (conj _ _)); [discriminate|intros _|intros Halike].
      * split; [exact Hw|]. now repeat split.
      * split; [exact Hw|]. split; [|discriminate].
        intros _ v. now apply respond_as_json_alike.
    + rewrite Search_run_async_None_run. one_shot_trace.
      assert (Hw : wire_alike
                     [EvRequest None (Search_request self query)]
                     [EvOpen (length (sessions w));
                      EvRequest (Some (length (sessions w)))
                        (Search_request self query);
                      EvClose (length (sessions w))])
        by (now apply wire_alike_refl).
      refine (conj _ (conj _ _)); [discriminate|intros _|intros Halike].
      * split; [exact Hw|]. now repeat split.
      * split; [exact Hw|]. split; [|discriminate].
        intros _ v. now apply respond_as_json_alike.
  - (* Structured *)
    destruct (flattens_Structured _ _ _ _ Hfl) as (f_in & f_out & Hin & Hout).
    rewrite !fmap_run.
    rewrite (Structured_call_run _ _ _ _ _ f_in f_out) by assumption.
    assert (Halike : forall via1 via2,
      wire_alike
        [EvRequest via1
           (Structured_request self f_in f_out instructions input)]
        [EvRequest via2
           (Structured_request_async self f_in f_out instructions input)]).
    { intros via1 via2. constructor; [|constructor].
      repeat split. apply Permutation_swap_last. }
    destruct session as [s|]; [destruct Hcmp as [Hs _]|].
    + rewrite (Structured_run_async_Some_run _ _ _ _ _ f_in f_out)
        by assumption.
      one_shot_trace.
      refine (conj _ (conj _ _)); [discriminate|intros _|intros _].
      * split; [apply Halike|]. now repeat split.
      * split; [apply Halike|]. split; discriminate.
    + rewrite (Structured_run_async_None_run _ _ _ _ _ f_in f_out)
        by assumption.
      one_shot_trace.
      refine (conj _ (conj _ _)); [discriminate|intros _|intros _].
      * split; [apply (Halike None (Some (length (sessions w))))|]. now repeat split.
      * split; [apply (Halike None (Some (length (sessions w))))|]. split; discriminate.
  - (* WebContent *)
    rewrite !fmap_run, WebContent_call_run. unfold WebContent_run_async.
    destruct session as [s|]; [destruct Hcmp as [Hs _]|].
    + rewrite WebContent_run_async_Some_run by exact Hs. one_shot_trace.
      assert (Hw : wire_alike
                     [EvRequest None (WebContent_request url)]
                     [EvRequest (Some s) (WebContent_request url)])
        by (now apply wire_alike_refl).
      refine (conj _ (conj _ _)); [discriminate|intros _|intros _].
      * split; [exact Hw|]. now repeat split.
      * split; [exact Hw|]. split; discriminate.
    + change (WebContent_run_async_rec 2 url None)
        with (WebContent_run_async url None).
      rewrite WebContent_run_async_None_run. one_shot_trace.
      assert (Hw : wire_alike
                     [EvRequest None (WebContent_request url)]
                     [EvOpen (length (sessions w));
                      EvRequest (Some (length (sessions w)))
                        (WebContent_request url);
                      EvClose (length (sessions w))])
        by (now apply wire_alike_refl).
      refine (conj _ (conj _ _)); [discriminate|intros _|intros _].
      * split; [exact Hw|]. now repeat split.
      * split; [exact Hw|]. split; discriminate.
Qed.

(** ** flatten_model *)

Lemma pytype_nested_ind (P : pytype -> Prop) :
  P Str -> P Bool -> P Float -> P Int ->
  (forall name args, Forall P args -> P (Generic name args)) ->
  (forall name fields,
     Forall (fun f => P (snd f)) fields -> P (Model name fields)) ->
  (forall name fields,
     Forall (fun f => P (snd f)) fields -> P (Dataclass name fields)) ->
  (forall repr, P (Opaque repr)) ->
  forall m, P m.
Proof.
  intros HS HB HF HI HG HM HD HO.
  fix IH 1. intros [| | | |name args|name fields|name fields|repr].
  - exact HS.
  - exact HB.
  - exact HF.
  - exact HI.
  - apply HG.
    refine ((fix go (l : list pytype) : Forall P l :=
               match l with
               | [] => Forall_nil _
               | x :: l' => Forall_cons _ (IH x) (go l')
               end) args).
  - apply HM.
    refine ((fix go (l : list (string * pytype))
               : Forall (fun f => P (snd f)) l :=
               match l with
               | [] => Forall_nil _
               | x :: l' => Forall_cons _ (IH (snd x)) (go l')
               end) fields).
  - apply HD.
    refine ((fix go (l : list (string * pytype))
               : Forall (fun f => P (snd f)) l :=
               match l with
               | [] => Forall_nil _
               | x :: l' => Forall_cons _ (IH (snd x)) (go l')
               end) fields).
  - apply HO.
Qed.

Lemma flatten_model_Model (name : string) (fields : list (string * pytype)) :
  flatten_model (Model name fields) =
  match flatten_items fields with
  | inl e => inl e
  | inr d => inr (JDict d)
  end.
Proof.
  simpl.
  assert (E : forall l,
    (fix items (l : list (string * pytype)) : exn + list (string * json) :=
       match l with
       | [] => inr []
       | (k, v) :: l' =>
           match flatten_model v with
           | inl e => inl e
           | inr fv =>
               match items l' with
               | inl e => inl e
               | inr d => inr ((k, fv) :: d)
               end
           end
       end) l = flatten_items l).
  { induction l as [|[k v] l IHl]; simpl; [reflexivity|].
    destruct (flatten_model v); [reflexivity|]. now rewrite IHl. }
  now rewrite E.
Qed.

Lemma flatten_model_Dataclass (name : string)
    (fields : list (string * pytype)) :
  flatten_model (Dataclass name fields) =
  match flatten_items fields with
  | inl e => inl e
  | inr d => inr (JDict d)
  end.
Proof.
  rewrite <- (flatten_model_Model name fields). reflexivity.
Qed.

Lemma flatten_model_List (elt : pytype) (rest : list pytype) :
  flatten_model (Generic "List" (elt :: rest)) =
  match flatten_model elt with
  | inl e => inl e
  | inr v => inr (JList [v])
  end.
Proof. reflexivity. Qed.

(** The dict of a record: one item per declared field, in the order of
    declaration, under the field's name, holding the field's type
    flattened. *)
Lemma flatten_items_Forall2 (fields : list (string * pytype))
    (d : list (string * json)) :
  flatten_items fields = inr d <->
  Forall2 (fun f item => fst item = fst f /\
                         flatten_model (snd f) = inr (snd item)) fields d.
Proof.
  revert d. induction fields as [|[k v] fields IH]; intros d; simpl.
  - split.
    + intros H. injection H as <-. constructor.
    + intros H. inversion H. reflexivity.
  - split.
    + destruct (flatten_model v) as [e|fv] eqn:Hv; [discriminate|].
      destruct (flatten_items fields) as [e|d'] eqn:Hd; [discriminate|].
      intros H. injection H as <-. constructor; [now split|].
      now apply IH.
    + intros H. inversion H as [|f [k' fv] fs d' [Hk Hv] Hrest]; subst.
      simpl in Hk, Hv. subst k'. rewrite Hv.
      apply IH in Hrest. now rewrite Hrest.
Qed.

(** C5.  [flatten_model] sends [str], [bool], [float], [int] to the tags
    "string", "bool", "float", "int"; a [List[T]] to the one-element list of
    the flattened [T]; a record (pydantic model or dataclass) to the dict
    that maps each declared field name to the flattened type of the field,
    recursively; the record [name: str, age: int, tags: List[str]] to
    [{"name": "string", "age": "int", "tags": ["string"]}]. *)
Theorem flatten_model_emits_field_type_map :
  (flatten_model Str = inr (JStr "string") /\
   flatten_model Bool = inr (JStr "bool") /\
   flatten_model Float = inr (JStr "float") /\
   flatten_model Int = inr (JStr "int")) /\
  (forall elt rest,
     flatten_model (Generic "List" (elt :: rest)) =
     match flatten_model elt with
     | inl e => inl e
     | inr v => inr (JList [v])
     end) /\
  (forall name fields d,
     (flatten_model (Model name fields) = inr (JDict d) <->
      Forall2 (fun f item => fst item = fst f /\
                             flatten_model (snd f) = inr (snd item))
        fields d) /\
     (flatten_model (Dataclass name fields) = inr (JDict d) <->
      Forall2 (fun f item => fst item = fst f /\
                             flatten_model (snd f) = inr (snd item))
        fields d)) /\
  flatten_model Person =
  inr (JDict [("name", JStr "string"); ("age", JStr "int");
              ("tags", JList [JStr "string"])]).
Proof.
  split; [repeat split|]. split; [exact flatten_model_List|].
  split; [|reflexivity].
  intros name fields d.
  rewrite flatten_model_Model, flatten_model_Dataclass,
    <- flatten_items_Forall2.
  destruct (flatten_items fields) as [e|d']; split; split;
    intros H; try discriminate; congruence.
Qed.

Lemma flatten_items_inl (fields : list (string * pytype)) (e : exn) :
  flatten_items fields = inl e ->
  exists k v, In (k, v) fields /\ flatten_model v = inl e.
Proof.
  induction fields as [|[k v] fields IH]; simpl; [discriminate|].
  destruct (flatten_model v) as [e'|fv] eqn:Hv.
  - intros H. injection H as <-. exists k, v. auto.
  - destruct (flatten_items fields) as [e'|d]; [|discriminate].
    intros H. injection H as <-.
    destruct (IH eq_refl) as (k' & v' & Hin & Hv'). exists k', v'. auto.
Qed.

Lemma flatten_items_inr (fields : list (string * pytype))
    (d : list (string * json)) :
  flatten_items fields = inr d ->
  forall k v, In (k, v) fields -> exists fv, flatten_model v = inr fv.
Proof.
  revert d. induction fields as [|[k0 v0] fields IH]; intros d; simpl.
  - intros _ k v [].
  - destruct (flatten_model v0) as [e|fv0] eqn:Hv0; [discriminate|].
    destruct (flatten_items fields) as [e|d'] eqn:Hd; [discriminate|].
    intros _ k v [H|H].
    + injection H as <- <-. eauto.
    + eapply IH; eauto.
Qed.

(** A failure of [flatten_model] names an object it has no case for, found
    in the schema. *)
Lemma flatten_model_failure_names_offender (m : pytype) :
  lists_have_element m = true ->
  forall e, flatten_model m = inl e ->
  exists t, e = UnsupportedDatatype t /\ occurs_in m t /\ unsupported t = true.
Proof.
  induction m as [| | | |name args IH|name fields IH|name fields IH|repr]
    using pytype_nested_ind; intros Hwf e He; try discriminate He.
  - simpl in He, Hwf. destruct (String.eqb_spec name "List") as [->|Hne].
    + destruct args as [|a rest]; [discriminate Hwf|].
      destruct (flatten_model a) as [e'|fa] eqn:Ha; [|discriminate He].
      injection He as <-. inversion IH as [|? ? IHa _]; subst.
      destruct (IHa Hwf e' Ha) as (t & -> & Hocc & Hun).
      exists t. repeat split; auto. now constructor.
    + injection He as <-. exists (Generic name args).
      repeat split; [constructor|]. simpl.
      now destruct (String.eqb_spec name "List").
  - rewrite flatten_model_Model in He.
    destruct (flatten_items fields) as [e'|d] eqn:Hd; [|discriminate He].
    injection He as <-.
    destruct (flatten_items_inl _ _ Hd) as (k & v & Hin & Hv).
    rewrite Forall_forall in IH. simpl in Hwf. rewrite forallb_forall in Hwf.
    destruct (IH (k, v) Hin (Hwf (k, v) Hin) e' Hv) as (t & -> & Hocc & Hun).
    exists t. repeat split; auto. eapply occurs_in_model; eauto.
  - rewrite flatten_model_Dataclass in He.
    destruct (flatten_items fields) as [e'|d] eqn:Hd; [|discriminate He].
    injection He as <-.
    destruct (flatten_items_inl _ _ Hd) as (k & v & Hin & Hv).
    rewrite Forall_forall in IH. simpl in Hwf. rewrite forallb_forall in Hwf.
    destruct (IH (k, v) Hin (Hwf (k, v) Hin) e' Hv) as (t & -> & Hocc & Hun).
    exists t. repeat split; auto. eapply occurs_in_dataclass; eauto.
  - injection He as <-. exists (Opaque repr). repeat split. constructor.
Qed.

(** A schema that flattens holds nothing [flatten_model] has no case for. *)
Lemma flatten_model_success_all_supported (m : pytype) :
  forall v, flatten_model m = inr v ->
  forall t, occurs_in m t -> unsupported t = false.
Proof.
  induction m as [| | | |name args IH|name fields IH|name fields IH|repr]
    using pytype_nested_ind; intros fv Hv t Hocc;
    try (inversion Hocc; subst; reflexivity).
  - simpl in Hv. destruct (String.eqb_spec name "List") as [->|Hne];
      [|discriminate Hv].
    destruct args as [|a rest]; [discriminate Hv|].
    destruct (flatten_model a) as [e|fa] eqn:Ha; [discriminate Hv|].
    inversion IH as [|? ? IHa _]; subst.
    inversion Hocc; subst; [reflexivity|]. eapply IHa; eauto.
  - rewrite flatten_model_Model in Hv.
    destruct (flatten_items fields) as [e|d] eqn:Hd; [discriminate Hv|].
    inversion Hocc as [|? k ? v ? Hin Hsub| |]; subst; [reflexivity|].
    destruct (flatten_items_inr _ _ Hd k v Hin) as [fv' Hfv'].
    rewrite Forall_forall in IH. eapply (IH (k, v) Hin); eauto.
  - rewrite flatten_model_Dataclass in Hv.
    destruct (flatten_items fields) as [e|d] eqn:Hd; [discriminate Hv|].
    inversion Hocc as [| |? k ? v ? Hin Hsub|]; subst; [reflexivity|].
    destruct (flatten_items_inr _ _ Hd k v Hin) as [fv' Hfv'].
    rewrite Forall_forall in IH. eapply (IH (k, v) Hin); eauto.
  - discriminate Hv.
Qed.

(** A schema in which every [List] alias carries its element type and
    that holds, anywhere in it, an object outside str, bool, float, int,
    records and [List[T]] does not flatten: [flatten_model] raises the
    exception that names such an object, and returns nothing.  Structured
    flattens both specs before it posts, so an exception of [flatten_model]
    leaves either entry point with the world untouched: no request, no
    wait, no retry. *)
Theorem unsupported_type_fails_flatten :
  (forall m t,
     lists_have_element m = true ->
     occurs_in m t -> unsupported t = true ->
     exists t',
       occurs_in m t' /\ unsupported t' = true /\
       flatten_model m = inl (UnsupportedDatatype t')) /\
  (forall self input_spec output_spec instructions input session w e,
     flatten_model input_spec = inl e \/
     ((exists f_in, flatten_model input_spec = inr f_in) /\
      flatten_model output_spec = inl e) ->
     Structured_call self input_spec output_spec instructions input w =
       (Raised e, w) /\
     Structured_run_async self input_spec output_spec instructions input
       session w = (Raised e, w)).
Proof.
  split.
  - intros m t Hwf Hocc Hun.
    destruct (flatten_model m) as [e|v] eqn:Hm.
    + destruct (flatten_model_failure_names_offender m Hwf e Hm)
        as (t' & -> & Hocc' & Hun').
      exists t'. auto.
    + rewrite (flatten_model_success_all_supported m v Hm t Hocc) in Hun.
      discriminate Hun.
  - intros self input_spec output_spec instructions input session w e H.
    unfold Structured_call, Structured_run_async, bind.
    destruct H as [Hin|[[f_in Hin] Hout]].
    + rewrite Hin. split; reflexivity.
    + rewrite Hin. cbn [lift ret]. rewrite Hout. split; reflexivity.
Qed.

(** C6.  The claim fails on a bare [typing.List]: [flatten_model] asks an
    alias named "List" for [__args__[0]] before it looks at anything else,
    and the bare alias has none.  On the record [slots: List, when:
    datetime] the call raises [AttributeError('__args__')], not the
    exception for an unsupported datatype, although the record holds a
    [datetime]; nothing is returned, and the exception names no type.  The
    same exception leaves both entry points of Structured, before any
    request. *)
Theorem flatten_model_bare_List_raises_AttributeError :
  unsupported (Opaque "datetime.datetime") = true /\
  occurs_in Schedule (Opaque "datetime.datetime") /\
  flatten_model (Generic "List" []) = inl (AttributeError "__args__") /\
  flatten_model Schedule = inl (AttributeError "__args__") /\
  (forall t, flatten_model Schedule <> inl (UnsupportedDatatype t)) /\
  (forall self output_spec instructions input session w,
     Structured_call self Schedule output_spec instructions input w =
       (Raised (AttributeError "__args__"), w) /\
     Structured_run_async self Schedule output_spec instructions input
       session w = (Raised (AttributeError "__args__"), w)).
Proof.
  split; [reflexivity|]. split.
  { apply (occurs_in_model "Schedule" "when" _ (Opaque "datetime.datetime")).
    - right. now left.
    - constructor. }
  split; [reflexivity|]. split; [reflexivity|]. split; [discriminate|].
  intros self output_spec instructions input session w.
  split; reflexivity.
Qed.

(** ** Structured: coercion of the reply *)

(** Structured takes the [output] field of the decoded reply and hands
    it, with the declared output class, to [parse_obj] when the class is a
    pydantic model and to [dacite.from_dict] when it is anything else; what
    the parser returns is the call's result and what it raises is the
    call's failure; a reply without [output] fails with [KeyError].  The
    same from both entry points. *)
Theorem Structured_hands_output_to_the_parser_of_its_class :
  forall (self : Structured) (input_spec output_spec : pytype)
         (instructions : string) (input : instance) (f_in f_out : json)
         (e : entry) (w : world) (resp : response) (body : json),
    flatten_model input_spec = inr f_in ->
    flatten_model output_spec = inr f_out ->
    entry_ok w e ->
    (forall r, net (library_of_entry e) (sent w) r = inr resp) ->
    resp_json resp = inr body ->
    let result :=
      fst (invoke (A_Structured self)
             (ArgsStructured input_spec output_spec instructions input) e w) in
    (forall raw,
       json_getitem body "output" = inr raw ->
       result =
       map_outcome VInstance
         (outcome_of
            match output_spec with
            | Model _ _ => parse_obj output_spec raw
            | _ => dacite_from_dict output_spec raw
            end)) /\
    (forall err, json_getitem body "output" = inl err -> result = Raised err) /\
    (forall d, body = JDict d -> dict_get d "output" = None ->
     result = Raised (KeyError "output")).
Proof.
  intros self input_spec output_spec instructions input f_in f_out e w resp
    body Hin Hout Hok Hnet Hbody result.
  assert (Hres : result =
    map_outcome VInstance (as_structured output_spec resp)).
  { subst result. destruct e as [|[s|]]; enter; rewrite fmap_run; cbn [fst];
      cbn [entry_ok library_of_entry] in *.
    - rewrite (Structured_call_run _ _ _ _ _ f_in f_out) by assumption.
      unfold one_shot, respond. cbn [fst library_of]. now rewrite Hnet.
    - rewrite (Structured_run_async_Some_run _ _ _ _ _ f_in f_out)
        by assumption.
      unfold one_shot, respond. cbn [fst library_of]. now rewrite Hnet.
    - rewrite (Structured_run_async_None_run _ _ _ _ _ f_in f_out)
        by assumption.
      unfold one_shot_own, respond. cbn [fst]. now rewrite Hnet. }
  rewrite Hres. unfold as_structured. rewrite Hbody. split; [|split].
  - intros raw Hraw. rewrite Hraw. now destruct output_spec.
  - intros err Herr. now rewrite Herr.
  - intros d -> Hmissing. unfold json_getitem. now rewrite Hmissing.
Qed.

(** ** The registry *)

(** C9.  [Capability(uri)] with a [uri] that is not in the registry does
    not raise: it prints the failed lookup and the valid URIs and returns a
    reference whose [_capability] is [None].  Calling that reference raises
    [TypeError], awaiting its [run_async] raises [AttributeError]; neither
    touches the world. *)
Theorem unknown_capability_fails_on_use :
  forall (uri : string) (w : world),
    dict_get _CAPABILITIES uri = None ->
    let x := Capability_new uri w in
    let ref := {| uri := uri; _capability := None |} in
    x = (Returned ref, after w 0 (lookup_failed_lines uri)) /\
    (forall a w',
       exists e, Capability_call ref a w' = (Raised e, w') /\
                 UnboundCapabilityError e) /\
    (forall a session w',
       exists e, Capability_run_async ref a session w' = (Raised e, w') /\
                 UnboundCapabilityError e).
Proof.
  intros uri0 w Hmiss x ref. subst x ref. split; [|split].
  - unfold Capability_new, Capability___post_init__. cbn [uri].
    rewrite Hmiss. unfold bind, print, ret. cbn.
    unfold emit, after, lookup_failed_lines. cbn.
    rewrite <- !app_assoc, Nat.add_0_r. reflexivity.
  - intros a w'. eexists. split; [reflexivity|]. now left.
  - intros a session w'. eexists. split; [reflexivity|]. now right.
Qed.

(** ** WebContent *)

(** C10.  WebContent posts the URL once, to the browserless endpoint with
    the key in the [token] query parameter and no [api-key] header, from
    both entry points; nothing is retried: an exception of the POST, of the
    decoding of the body as text or of readability is the call's; the reply
    is read as text, whatever it would decode to as JSON; the synchronous
    entry point returns readability's [content()] of that text, the
    asynchronous one its [summary()]. *)
Theorem web_content_paths :
  forall (url : string) (e : entry) (w : world),
    entry_ok w e ->
    let x := invoke A_WebContent (ArgsWebContent url) e w in
    let t := events_since w (snd x) in
    let r :=
      {| req_url :=
           match BROWSERLESS_API_KEY with
           | Some key =>
               ("https://chrome.browserless.io/content?token=" ++ key)%string
           | None => "https://chrome.browserless.io/content?token=None"
           end;
         req_headers :=
           [("Content-Type", "application/json");
            ("Cache-Control", "no-cache")];
         req_json := JDict [("url", JStr url)] |} in
    requests t = [r] /\ attempts t = 1 /\ sleeps t = [] /\
    dict_get (req_headers r) "api-key" = None /\
    fst x =
    match net (library_of_entry e) (sent w) r with
    | inl err => Raised err
    | inr resp =>
        match resp_content resp with
        | inl err => Raised err
        | inr html =>
            match
              match e with
              | Sync => Document_content html
              | Async _ => Document_summary html
              end
            with
            | inl err => Raised err
            | inr text => Returned (VText text)
            end
        end
    end.
Proof.
  intros url e w Hok x t r.
  assert (Hr : WebContent_request url = r).
  { unfold r, WebContent_request, mk_request, WebContent_endpoint_url,
      WebContent_headers, str_of_env.
    now destruct BROWSERLESS_API_KEY. }
  clearbody r. subst t x.
  destruct e as [|[s|]]; enter; cbn [entry_ok library_of_entry] in *;
    rewrite fmap_run; unfold WebContent_run_async.
  - rewrite WebContent_call_run, Hr. one_shot_trace.
    unfold respond, as_text. cbn [library_of].
    split; [reflexivity|]. split; [reflexivity|]. split; [reflexivity|].
    split; [now rewrite <- Hr|].
    destruct (net Requests (sent w) r) as [err|resp]; [reflexivity|].
    destruct (resp_content resp) as [err|html]; [reflexivity|].
    now destruct (Document_content html).
  - rewrite WebContent_run_async_Some_run, Hr by exact Hok.
    one_shot_trace. unfold respond, as_text. cbn [library_of].
    split; [reflexivity|]. split; [reflexivity|]. split; [reflexivity|].
    split; [now rewrite <- Hr|].
    destruct (net Aiohttp (sent w) r) as [err|resp]; [reflexivity|].
    destruct (resp_content resp) as [err|html]; [reflexivity|].
    now destruct (Document_summary html).
  - change (WebContent_run_async_rec 2 url None)
      with (WebContent_run_async url None).
    rewrite WebContent_run_async_None_run, Hr.
    one_shot_trace. unfold respond, as_text.
    split; [reflexivity|]. split; [reflexivity|]. split; [reflexivity|].
    split; [now rewrite <- Hr|].
    destruct (net Aiohttp (sent w) r) as [err|resp]; [reflexivity|].
    destruct (resp_content resp) as [err|html]; [reflexivity|].
    now destruct (Document_summary html).
Qed.

(** * Further properties *)

(** ** Bounds of a retrying call *)

Lemma backoff_S (count n : nat) :
  backoff count (S n) = (2 ^ Z.of_nat count)%Z :: backoff (S count) n.
Proof. reflexivity. Qed.

Lemma total_backoff (count n : nat) :
  total (backoff count n) =
  (2 ^ Z.of_nat (count + n) - 2 ^ Z.of_nat count)%Z.
Proof.
  revert count. induction n as [|n IH]; intros count.
  - rewrite Nat.add_0_r. simpl. lia.
  - rewrite backoff_S. cbn [total fold_right]. fold (total (backoff (S count) n)).
    rewrite IH.
    replace (S count + n) with (count + S n) by lia.
    rewrite (Nat2Z.inj_succ count), Z.pow_succ_r by lia. lia.
Qed.

Lemma total_backoff_le (m : nat) :
  m <= 8 -> (0 <= total (backoff 0 m) <= 255)%Z.
Proof.
  intros Hm. rewrite total_backoff. simpl Nat.add. change (2 ^ Z.of_nat 0)%Z with 1%Z.
  assert (H : (2 ^ Z.of_nat m <= 2 ^ 8)%Z)
    by (apply Z.pow_le_mono_r; lia).
  assert (H0 : (0 < 2 ^ Z.of_nat m)%Z) by (apply Z.pow_pos_nonneg; lia).
  change (2 ^ 8)%Z with 256%Z in H. lia.
Qed.

Lemma retry_result_bounds (name : string) (lead att : list event)
    (lib : library) (r : request) (w : world) :
  attempts lead = 0 -> attempts att = 1 ->
  sleeps lead = [] -> sleeps att = [] ->
  let x := retry_result name lead att 8 lib r w in
  let t := events_since w (snd x) in
  1 <= attempts t <= 8 /\ (0 <= total (sleeps t) <= 255)%Z /\
  ((exists j, fst x = Returned j) \/
   (fst x = Raised (RetriesExhausted name) /\ attempts t = 8 /\
    total (sleeps t) = 255%Z)).
Proof.
  intros Hla Haa Hls Has. unfold retry_result.
  pose proof (failures_then_None lib r (sent w) 8) as Hnone.
  pose proof (failures_then_Some lib r (sent w) 8) as Hsome.
  destruct (failures_then lib r (sent w) 8) as [m [j|]]; cbn [fst snd] in *;
    rewrite events_since_after, !sleeps_app, !attempts_app, Hla, Hls,
      ?Haa, ?Has, sleeps_failed_rounds, attempts_failed_rounds by assumption;
    rewrite ?app_nil_r; cbn [app].
  - specialize (Hsome j eq_refl).
    split; [lia|]. split; [apply total_backoff_le; lia|]. left. eauto.
  - specialize (Hnone eq_refl). subst m.
    split; [lia|]. split; [apply total_backoff_le; lia|]. right.
    repeat split.
Qed.

(** On any network a DocumentQA or Summarize call, synchronous or given a
    session, makes between 1 and 8 attempts and waits at most 255 units;
    it returns the decoded reply or raises the terminal failure, after 8
    attempts and 255 units: the errors of the attempts themselves never
    leave the call. *)
Theorem retrying_call_is_bounded_and_absorbs_errors :
  forall (c : CapabilityBase) (a : arguments) (e : entry) (w : world),
    fits c a = true -> retries c = true -> e <> Async None ->
    let x := invoke c a e w in
    let t := events_since w (snd x) in
    1 <= attempts t <= 8 /\ (0 <= total (sleeps t) <= 255)%Z /\
    ((exists j, fst x = Returned (VJson j)) \/
     (fst x = Raised (RetriesExhausted (capability_name c)) /\
      attempts t = 8 /\ total (sleeps t) = 255%Z)).
Proof.
  intros c a e w Hfits Hr Hne x t. subst t x.
  assert (Hmap : forall (m : M json) name,
    (let x := m w in
     let t := events_since w (snd x) in
     1 <= attempts t <= 8 /\ (0 <= total (sleeps t) <= 255)%Z /\
     ((exists j, fst x = Returned j) \/
      (fst x = Raised (RetriesExhausted name) /\ attempts t = 8 /\
       total (sleeps t) = 255%Z))) ->
    let x := fmap VJson m w in
    let t := events_since w (snd x) in
    1 <= attempts t <= 8 /\ (0 <= total (sleeps t) <= 255)%Z /\
    ((exists j, fst x = Returned (VJson j)) \/
     (fst x = Raised (RetriesExhausted name) /\ attempts t = 8 /\
      total (sleeps t) = 255%Z))).
  { intros m name H. cbv zeta in *. rewrite fmap_run. cbn [fst snd].
    destruct H as (H1 & H2 & [[j Hj]|(Hx & H3 & H4)]).
    - split; [exact H1|]. split; [exact H2|]. left. exists j. now rewrite Hj.
    - split; [exact H1|]. split; [exact H2|]. right. now rewrite Hx. }
  assert (Hrefused : forall name lead att,
    attempts lead = 0 -> attempts att = 1 ->
    sleeps lead = [] -> sleeps att = [] ->
    let x := (@Raised json (RetriesExhausted name),
              after w 0 (lead ++ failed_rounds att 0 8)) in
    let t := events_since w (snd x) in
    1 <= attempts t <= 8 /\ (0 <= total (sleeps t) <= 255)%Z /\
    ((exists j, fst x = Returned j) \/
     (fst x = Raised (RetriesExhausted name) /\ attempts t = 8 /\
      total (sleeps t) = 255%Z))).
  { intros name lead att Hla Haa Hls Has. cbn [fst snd].
    rewrite events_since_after, !sleeps_app, !attempts_app, Hla, Hls,
      sleeps_failed_rounds, attempts_failed_rounds by assumption.
    cbn [app]. split; [lia|]. split; [apply total_backoff_le; lia|].
    right. repeat split. }
  destruct c as [| |self|self|self|]; destruct a; try discriminate Hfits;
    try discriminate Hr; clear Hr Hfits;
    (destruct e as [|[s|]]; [| |congruence]); enter; apply Hmap.
  - rewrite Summarize_call_run. now apply retry_result_bounds.
  - unfold Summarize_run_async. destruct (session_is_open w s) eqn:Hs.
    + rewrite Summarize_run_async_rec_Some by exact Hs.
      now apply retry_result_bounds.
    + rewrite Summarize_run_async_rec_Some_refused by exact Hs.
      now apply (Hrefused "Summarize" []).
  - rewrite DocumentQA_call_run. now apply retry_result_bounds.
  - unfold DocumentQA_run_async. destruct (session_is_open w s) eqn:Hs.
    + rewrite DocumentQA_run_async_rec_Some by exact Hs.
      now apply retry_result_bounds.
    + rewrite DocumentQA_run_async_rec_Some_refused by exact Hs.
      now apply Hrefused.
Qed.

(** ** A retrying call without a session *)

(** When aiohttp decodes no reply, [run_async] of DocumentQA or Summarize
    without a session does not stop at 8 attempts: the self-call, made inside the
    [try], fails after its own 8 requests and 255 units; its terminal
    failure is caught, and the loop goes on for 7 more calls of
    [session.post], on the session it has closed, and 255 more units.  In
    all 15 attempts, 8 requests sent, 510 units waited, before the terminal
    failure is raised; the session is closed. *)
Theorem run_async_without_session_overruns :
  nothing_decodes Aiohttp ->
  forall (c : CapabilityBase) (a : arguments) (w : world),
    fits c a = true -> retries c = true ->
    let x := invoke c a (Async None) w in
    let t := events_since w (snd x) in
    fst x = Raised (RetriesExhausted (capability_name c)) /\
    attempts t = 15 /\
    length (requests t) = 8 /\
    sleeps t = backoff 0 8 ++ backoff 0 8 /\
    total (sleeps t) = 510%Z /\
    sent (snd x) = sent w + 8 /\
    sessions (snd x) = sessions w ++ [Closed].
Proof.
  intros Hnd c a w Hfits Hr x t. subst t x.
  destruct c as [| |self|self|self|]; destruct a; try discriminate Hfits;
    try discriminate Hr; clear Hr Hfits; enter; rewrite fmap_run.
  - rewrite Summarize_run_async_None, Summarize_run_async_rec_None.
    rewrite failures_then_all_fail by (intros; apply Hnd).
    cbn [fst snd map_outcome]. rewrite events_since_closed_after.
    repeat split.
  - rewrite DocumentQA_run_async_None, DocumentQA_run_async_rec_None.
    rewrite failures_then_all_fail by (intros; apply Hnd).
    cbn [fst snd map_outcome]. rewrite events_since_closed_after.
    repeat split.
Qed.

(** ** Replies that do not decode *)

Lemma map_outcome_respond_as_json (lib : library) (n : nat) (r : request) :
  map_outcome VJson (respond lib as_json n r) =
  match net lib n r with
  | inl err => Raised err
  | inr resp =>
      match resp_json resp with
      | inr j => Returned (VJson j)
      | inl err => Raised err
      end
  end.
Proof.
  unfold respond, as_json.
  destruct (net lib n r) as [err|resp]; [|destruct (resp_json resp)];
    reflexivity.
Qed.

(** A Sql or Search call is one request and nothing else, and what the
    entry point's client makes of that request decides the call: the body
    its [json()] decodes is returned as it is; an exception of its [json()]
    or of the POST itself leaves the call as it is, unretried. *)
Theorem single_post_outcome_is_the_first_reply :
  forall (c : CapabilityBase) (a : arguments) (e : entry) (w : world),
    fits c a = true -> retries c = false -> returns_reply c = true ->
    entry_ok w e ->
    let x := invoke c a e w in
    let t := events_since w (snd x) in
    exists r,
      requests t = [r] /\ attempts t = 1 /\ sleeps t = [] /\
      sent (snd x) = sent w + 1 /\
      fst x =
      match net (library_of_entry e) (sent w) r with
      | inl err => Raised err
      | inr resp =>
          match resp_json resp with
          | inr j => Returned (VJson j)
          | inl err => Raised err
          end
      end.
Proof.
  intros c a e w Hfits Hr Hrr Hok x t. subst t x.
  destruct c as [| |self|self|self|]; destruct a; try discriminate Hfits;
    try discriminate Hr; try discriminate Hrr; clear Hr Hrr Hfits;
    destruct e as [|[s|]]; cbn [entry_ok library_of_entry] in *; enter;
    rewrite fmap_run.
  - rewrite Sql_call_run. one_shot_trace.
    eexists. repeat split. apply map_outcome_respond_as_json.
  - rewrite Sql_run_async_Some_run by exact Hok. one_shot_trace.
    eexists. repeat split. apply map_outcome_respond_as_json.
  - rewrite Sql_run_async_None_run. one_shot_trace.
    eexists. repeat split. apply map_outcome_respond_as_json.
  - rewrite Search_call_run. one_shot_trace.
    eexists. repeat split. apply map_outcome_respond_as_json.
  - rewrite Search_run_async_Some_run by exact Hok. one_shot_trace.
    eexists. repeat split. apply map_outcome_respond_as_json.
  - rewrite Search_run_async_None_run. one_shot_trace.
    eexists. repeat split. apply map_outcome_respond_as_json.
Qed.

(** A reply that arrives but does not decode as JSON counts as a failed
    attempt of DocumentQA and Summarize: when every reply is such for the
    entry point's client, the call, synchronous or through an open session,
    sends its request 8 times and raises the terminal failure, not a
    decoding error. *)
Theorem undecodable_replies_are_retried :
  forall (c : CapabilityBase) (a : arguments) (e : entry) (w : world),
    (forall n r, exists resp err,
       net (library_of_entry e) n r = inr resp /\
       resp_json resp = inl err) ->
    fits c a = true -> retries c = true -> e <> Async None -> entry_ok w e ->
    let x := invoke c a e w in
    let t := events_since w (snd x) in
    fst x = Raised (RetriesExhausted (capability_name c)) /\
    requests t = repeat (retry_request a) 8 /\
    sent (snd x) = sent w + 8 /\
    sleeps t = backoff 0 8.
Proof.
  intros c a e w Hnet Hfits Hr Hne Hok x t. subst t x.
  assert (Hnd : nothing_decodes (library_of_entry e)).
  { intros n r. unfold decoded.
    destruct (Hnet n r) as (resp & err & -> & ->). reflexivity. }
  destruct c as [| |self|self|self|]; destruct a; try discriminate Hfits;
    try discriminate Hr; clear Hr Hfits;
    (destruct e as [|[s|]]; [| |congruence]);
    cbn [entry_ok library_of_entry] in *;
    enter; rewrite fmap_run; cbn [retry_request capability_name].
  - rewrite Summarize_call_run, retry_result_exhausted by exact Hnd.
    cbn [fst snd map_outcome]. rewrite events_since_after. repeat split.
  - unfold Summarize_run_async.
    rewrite Summarize_run_async_rec_Some, retry_result_exhausted by assumption.
    cbn [fst snd map_outcome]. rewrite events_since_after. repeat split.
  - rewrite DocumentQA_call_run, retry_result_exhausted by exact Hnd.
    cbn [fst snd map_outcome]. rewrite events_since_after. repeat split.
  - unfold DocumentQA_run_async.
    rewrite DocumentQA_run_async_rec_Some, retry_result_exhausted by assumption.
    cbn [fst snd map_outcome]. rewrite events_since_after. repeat split.
Qed.

Lemma registry_cases (uri0 : string) (c : CapabilityBase) :
  dict_get _CAPABILITIES uri0 = Some c ->
  (uri0 = "multi/summarize" /\ c = A_Summarize) \/
  (uri0 = "multi/document_qa" /\ c = A_DocumentQA) \/
  (uri0 = "multi/sql" /\ c = A_Sql Sql_new) \/
  (uri0 = "multi/search" /\ c = A_Search Search_new) \/
  (uri0 = "multi/structured" /\ c = A_Structured Structured_new) \/
  (uri0 = "multi/web_content" /\ c = A_WebContent).
Proof.
  unfold _CAPABILITIES. cbn [dict_get].
  repeat match goal with
  | |- context [String.eqb ?k uri0] =>
      destruct (String.eqb_spec k uri0) as [<-|_];
      [intros H; injection H as <-; tauto|]
  end.
  discriminate.
Qed.

(** The capabilities of the registry keep each credential with its
    service: whatever the entry point, the session and the network, every
    request of WebContent goes to browserless and carries no [api-key]
    header, and every request of the five others goes to api.multi.dev as
    JSON with [CONFIG.api_key] in its [api-key] header. *)
Theorem credentials_stay_with_their_service :
  forall (uri0 : string) (c : CapabilityBase) (a : arguments) (e : entry)
         (w : world),
    dict_get _CAPABILITIES uri0 = Some c ->
    Forall
      (fun r =>
         if is_WebContent c
         then String.prefix "https://chrome.browserless.io/" (req_url r) = true
              /\ dict_get (req_headers r) "api-key" = None
         else String.prefix "https://api.multi.dev/" (req_url r) = true
              /\ dict_get (req_headers r) "api-key" = Some api_key
              /\ dict_get (req_headers r) "Content-type"
                 = Some "application/json"%string)
      (requests (events_since w (snd (invoke c a e w)))).
Proof.
  intros uri0 c a e w Hreg.
  pose proof (requests_go_to_the_endpoint c a e w) as H.
  eapply Forall_impl; [|exact H]. clear H.
  intros r [Hurl Hh]. rewrite Hurl, Hh.
  destruct (registry_cases _ _ Hreg)
    as [[_ ->]|[[_ ->]|[[_ ->]|[[_ ->]|[[_ ->]|[_ ->]]]]]];
    repeat split.
Qed.

Lemma requests_rounds_none (att : list event) (count n : nat) :
  requests att = [] -> requests (failed_rounds att count n) = [].
Proof.
  intros Hatt. revert count. induction n as [|n IH]; intros count.
  - reflexivity.
  - now rewrite failed_rounds_S, !requests_app, Hatt, IH.
Qed.

Lemma retry_result_requests_repeat (name : string) (lead att : list event)
    (lib : library) (r : request) (w : world) :
  requests lead = [] -> requests att = [r] ->
  exists n, n <= 8 /\
    requests (events_since w (snd (retry_result name lead att 8 lib r w))) =
    repeat r n.
Proof.
  intros Hl Ha. unfold retry_result.
  pose proof (failures_then_le lib r (sent w) 8) as Hle.
  pose proof (failures_then_Some lib r (sent w) 8) as Hsome.
  destruct (failures_then lib r (sent w) 8) as [m [j|]]; cbn [fst snd] in *;
    rewrite events_since_after, !requests_app, Hl, ?Ha,
      (requests_failed_rounds att r) by exact Ha; cbn [app].
  - exists (S m). split; [specialize (Hsome j eq_refl); lia|].
    symmetry. apply repeat_cons.
  - exists m. split; [lia|]. now rewrite ?app_nil_r.
Qed.

(** A DocumentQA or Summarize call sends one and the same request at every
    attempt, and never more than 8 of them reach the network: from any
    entry point, with a session in any state, on any network. *)
Theorem retries_resend_one_request :
  forall (c : CapabilityBase) (a : arguments) (e : entry) (w : world),
    fits c a = true -> retries c = true ->
    exists n, n <= 8 /\
      requests (events_since w (snd (invoke c a e w))) =
      repeat (retry_request a) n.
Proof.
  intros c a e w Hfits Hr.
  destruct c as [| |self|self|self|]; destruct a; try discriminate Hfits;
    try discriminate Hr; clear Hr Hfits;
    destruct e as [|[s|]]; enter; rewrite fmap_run; cbn [snd retry_request].
  - rewrite Summarize_call_run.
    now apply retry_result_requests_repeat.
  - unfold Summarize_run_async. destruct (session_is_open w s) eqn:Hs.
    + rewrite Summarize_run_async_rec_Some by exact Hs.
      now apply retry_result_requests_repeat.
    + rewrite Summarize_run_async_rec_Some_refused by exact Hs.
      exists 0. split; [lia|]. cbn [snd]. rewrite events_since_after.
      now apply requests_rounds_none.
  - rewrite Summarize_run_async_None, Summarize_run_async_rec_None.
    pose proof (failures_then_le Aiohttp (Summarize_request document)
                  (sent w) 8) as Hle.
    pose proof (failures_then_Some Aiohttp (Summarize_request document)
                  (sent w) 8) as Hsome.
    destruct (failures_then _ _ _ _) as [m [j|]]; cbn [fst snd] in *;
      rewrite events_since_closed_after, !requests_app,
        (requests_failed_rounds _ (Summarize_request document)) by reflexivity.
    + exists (S m). split; [specialize (Hsome j eq_refl); lia|].
      cbn [requests app]. symmetry. apply repeat_cons.
    + exists m. split; [lia|].
      rewrite requests_rounds_none by reflexivity.
      cbn [requests app]. now rewrite ?app_nil_r.
  - rewrite DocumentQA_call_run.
    now apply retry_result_requests_repeat.
  - unfold DocumentQA_run_async. destruct (session_is_open w s) eqn:Hs.
    + rewrite DocumentQA_run_async_rec_Some by exact Hs.
      now apply retry_result_requests_repeat.
    + rewrite DocumentQA_run_async_rec_Some_refused by exact Hs.
      exists 0. split; [lia|]. cbn [snd]. rewrite events_since_after.
      rewrite requests_app. now rewrite requests_rounds_none.
  - rewrite DocumentQA_run_async_None, DocumentQA_run_async_rec_None.
    pose proof (failures_then_le Aiohttp (DocumentQA_request document query)
                  (sent w) 8) as Hle.
    pose proof (failures_then_Some Aiohttp (DocumentQA_request document query)
                  (sent w) 8) as Hsome.
    destruct (failures_then _ _ _ _) as [m [j|]]; cbn [fst snd] in *;
      rewrite events_since_closed_after, !requests_app,
        (requests_failed_rounds _ (DocumentQA_request document query))
        by reflexivity.
    + exists (S m). split; [specialize (Hsome j eq_refl); lia|].
      cbn [requests app]. symmetry. apply repeat_cons.
    + exists m. split; [lia|].
      rewrite requests_rounds_none by reflexivity.
      cbn [requests app]. now rewrite ?app_nil_r.
Qed.

(** ** Sql *)

(** What Sql posts.  The synchronous entry point and the asynchronous one
    without a session send [query], [sql_schema] and [sql_type], the last
    being "vanilla" when [sql_variant] is left out and null when it is
    [None]; the asynchronous entry point given an open session sends
    [query] alone. *)
Theorem Sql_payload_by_entry_point :
  forall (self : Sql) (query sql_schema : string)
         (sql_variant : option (option string)) (w : world),
    let sent_by e :=
      requests (events_since w
                  (snd (invoke (A_Sql self)
                          (ArgsSql query sql_schema sql_variant) e w))) in
    let sql_type :=
      match sql_variant with
      | None => JStr "vanilla"
      | Some None => JNull
      | Some (Some variant) => JStr variant
      end in
    let full :=
      mk_request (Sql_url self) (Sql_headers self)
        (JDict [("query", JStr query); ("sql_schema", JStr sql_schema);
                ("sql_type", sql_type)]) in
    sent_by Sync = [full] /\
    sent_by (Async None) = [full] /\
    (forall s, session_is_open w s = true ->
       sent_by (Async (Some s)) =
       [mk_request (Sql_url self) (Sql_headers self)
          (JDict [("query", JStr query)])]).
Proof.
  intros self query sql_schema sql_variant w sent_by sql_type full.
  subst sent_by full sql_type. cbv beta. enter. rewrite !fmap_run.
  split; [|split].
  - rewrite Sql_call_run. one_shot_trace.
    now destruct sql_variant as [[variant|]|].
  - rewrite Sql_run_async_None_run. one_shot_trace.
    now destruct sql_variant as [[variant|]|].
  - intros s Hs. rewrite fmap_run, Sql_run_async_Some_run by exact Hs.
    one_shot_trace. reflexivity.
Qed.

(** ** flatten_model, further *)

Lemma flatten_items_flat (fields : list (string * pytype))
    (d : list (string * json)) :
  Forall (fun f => forall v, flatten_model (snd f) = inr v -> flat_schema v)
    fields ->
  flatten_items fields = inr d ->
  Forall (fun item => flat_schema (snd item)) d.
Proof.
  intros IH Hd. apply flatten_items_Forall2 in Hd.
  induction Hd as [|f item fields d [_ Hv] _ IHd]; constructor.
  - inversion IH; subst. auto.
  - apply IHd. now inversion IH.
Qed.

(** Whatever [flatten_model] returns is a schema of tags: a string among
    "string", "bool", "float", "int", a list of exactly one schema, or a
    dict of schemas. *)
Theorem flatten_model_returns_a_flat_schema :
  forall (m : pytype) (v : json), flatten_model m = inr v -> flat_schema v.
Proof.
  induction m as [| | | |name args IH|name fields IH|name fields IH|repr]
    using pytype_nested_ind; intros v Hv.
  - injection Hv as <-. constructor. now left.
  - injection Hv as <-. constructor. right. now left.
  - injection Hv as <-. constructor. right. right. now left.
  - injection Hv as <-. constructor. right. right. right. now left.
  - simpl in Hv. destruct (String.eqb name "List"); [|discriminate Hv].
    destruct args as [|a rest]; [discriminate Hv|].
    destruct (flatten_model a) as [e|fa] eqn:Ha; [discriminate Hv|].
    injection Hv as <-. constructor. inversion IH; subst. auto.
  - rewrite flatten_model_Model in Hv.
    destruct (flatten_items fields) as [e|d] eqn:Hd; [discriminate Hv|].
    injection Hv as <-. constructor. eapply flatten_items_flat; eauto.
  - rewrite flatten_model_Dataclass in Hv.
    destruct (flatten_items fields) as [e|d] eqn:Hd; [discriminate Hv|].
    injection Hv as <-. constructor. eapply flatten_items_flat; eauto.
  - discriminate Hv.
Qed.

(** A schema in which every [List] alias has its element type flattens if
    and only if nothing [flatten_model] has no case for occurs in it. *)
Theorem flatten_model_succeeds_iff_supported :
  forall m : pytype,
    lists_have_element m = true ->
    ((exists v, flatten_model m = inr v) <->
     (forall t, occurs_in m t -> unsupported t = false)).
Proof.
  intros m Hwf. split.
  - intros [v Hv]. now apply (flatten_model_success_all_supported m v).
  - intros Hall. destruct (flatten_model m) as [e|v] eqn:Hm; [|eauto].
    destruct (flatten_model_failure_names_offender m Hwf e Hm)
      as (t & _ & Hocc & Hun).
    rewrite (Hall t Hocc) in Hun. discriminate Hun.
Qed.

Lemma flatten_items_first_failure (earlier later : list (string * pytype))
    (k : string) (v : pytype) (e : exn) :
  Forall (fun f => exists fv, flatten_model (snd f) = inr fv) earlier ->
  flatten_model v = inl e ->
  flatten_items (earlier ++ (k, v) :: later) = inl e.
Proof.
  intros Hok Hv. induction Hok as [|[k0 v0] earlier [fv Hfv] _ IH]; simpl.
  - now rewrite Hv.
  - simpl in Hfv. now rewrite Hfv, IH.
Qed.

(** Of the fields of a record that do not flatten, the first in
    declaration order decides the exception: the fields after it are not
    looked at. *)
Theorem flatten_model_reports_the_first_failing_field :
  forall (name : string) (earlier later : list (string * pytype))
         (k : string) (v : pytype) (e : exn),
    Forall (fun f => exists fv, flatten_model (snd f) = inr fv) earlier ->
    flatten_model v = inl e ->
    flatten_model (Model name (earlier ++ (k, v) :: later)) = inl e /\
    flatten_model (Dataclass name (earlier ++ (k, v) :: later)) = inl e.
Proof.
  intros name earlier later k v e Hok Hv.
  rewrite flatten_model_Model, flatten_model_Dataclass.
  now rewrite (flatten_items_first_failure earlier later k v e Hok Hv).
Qed.

(** ** The registry, further *)

(** [__post_init__] takes the invoker from the registry whenever the URI
    is registered, whatever was passed as [_capability], and prints
    nothing; it leaves a passed [_capability] in place when the URI is not
    registered.  The URIs that are registered are the six of the table and
    no other string.  A bound reference hands every call and every
    [run_async] to its invoker. *)
Theorem post_init_binds_from_the_registry :
  forall (self : Capability) (w : world),
    (forall c,
       dict_get _CAPABILITIES (uri self) = Some c ->
       Capability___post_init__ self w =
       (Returned {| uri := uri self; _capability := Some c |}, w)) /\
    (dict_get _CAPABILITIES (uri self) = None ->
     Capability___post_init__ self w =
     (Returned self, after w 0 (lookup_failed_lines (uri self)))) /\
    (dict_get _CAPABILITIES (uri self) <> None <->
     In (uri self)
       ["multi/summarize"; "multi/document_qa"; "multi/sql"; "multi/search";
        "multi/structured"; "multi/web_content"]%string) /\
    (forall c a session,
       _capability self = Some c ->
       Capability_call self a = CapabilityBase_call c a /\
       Capability_run_async self a session =
       CapabilityBase_run_async c a session).
Proof.
  intros self w. split; [|split; [|split]].
  - intros c Hc. unfold Capability___post_init__. now rewrite Hc.
  - intros Hmiss. unfold Capability___post_init__. rewrite Hmiss.
    unfold bind, print, ret. cbn.
    unfold emit, after, lookup_failed_lines. cbn.
    rewrite <- !app_assoc, Nat.add_0_r. reflexivity.
  - split.
    + intros Hsome.
      destruct (dict_get _CAPABILITIES (uri self)) as [c|] eqn:Hc;
        [|congruence].
      destruct (registry_cases _ _ Hc)
        as [[-> _]|[[-> _]|[[-> _]|[[-> _]|[[-> _]|[-> _]]]]]];
        simpl; tauto.
    + intros Hin. simpl in Hin.
      destruct Hin as [<-|[<-|[<-|[<-|[<-|[<-|[]]]]]]]; discriminate.
  - intros c a session Hc.
    unfold Capability_call, Capability_run_async. now rewrite Hc.
Qed.

(** ** WebContent, further *)

Lemma WebContent_sends_one_request (url : string) (e : entry) (w : world) :
  entry_ok w e ->
  requests (events_since w
              (snd (invoke A_WebContent (ArgsWebContent url) e w))) =
  [WebContent_request url].
Proof.
  intros Hok.
  destruct e as [|[s|]]; enter; cbn [entry_ok] in Hok; rewrite fmap_run;
    unfold WebContent_run_async.
  - rewrite WebContent_call_run. one_shot_trace. reflexivity.
  - rewrite WebContent_run_async_Some_run by exact Hok.
    one_shot_trace. reflexivity.
  - change (WebContent_run_async_rec 2 url None)
      with (WebContent_run_async url None).
    rewrite WebContent_run_async_None_run. one_shot_trace. reflexivity.
Qed.

(** When [BROWSERLESS_API_KEY] is not set, WebContent does not fail before
    posting: it posts to the endpoint with the token [None]. *)
Theorem WebContent_posts_without_a_token :
  BROWSERLESS_API_KEY = None ->
  forall (url : string) (e : entry) (w : world),
    entry_ok w e ->
    exists r,
      requests (events_since w
                  (snd (invoke A_WebContent (ArgsWebContent url) e w))) = [r]
      /\ req_url r = "https://chrome.browserless.io/content?token=None"%string.
Proof.
  intros Hkey url e w Hok. exists (WebContent_request url). split.
  - apply (WebContent_sends_one_request url e w Hok).
  - unfold WebContent_request, WebContent_endpoint_url, mk_request.
    cbn [req_url]. now rewrite Hkey.
Qed.

(** ** Structured, further *)

(** A Structured call whose specs flatten posts exactly once, whatever the
    reply and whatever the parser makes of it, and waits for nothing.  The
    payload is a dict of four items: the two flattened specs, the
    instructions and the input's field dict. *)
Theorem Structured_posts_its_payload_once :
  forall (self : Structured) (input_spec output_spec : pytype)
         (instructions : string) (input : instance) (f_in f_out : json)
         (e : entry) (w : world),
    flatten_model input_spec = inr f_in ->
    flatten_model output_spec = inr f_out ->
    entry_ok w e ->
    let x := invoke (A_Structured self)
               (ArgsStructured input_spec output_spec instructions input)
               e w in
    let t := events_since w (snd x) in
    exists r d,
      requests t = [r] /\ attempts t = 1 /\ sleeps t = [] /\
      sent (snd x) = sent w + 1 /\
      req_url r = Structured_url self /\
      req_headers r = Structured_headers self /\
      req_json r = JDict d /\ length d = 4 /\
      dict_get d "input_spec" = Some f_in /\
      dict_get d "output_spec" = Some f_out /\
      dict_get d "instructions" = Some (JStr instructions) /\
      dict_get d "input" = Some (inst_fields input).
Proof.
  intros self input_spec output_spec instructions input f_in f_out e w
    Hin Hout Hok x t. subst t x.
  assert (Hinput : input_as_dict input = inst_fields input)
    by (unfold input_as_dict; now destruct (is_dataclass _)).
  destruct e as [|[s|]]; cbn [entry_ok] in Hok; enter; rewrite fmap_run.
  - rewrite (Structured_call_run _ _ _ _ _ f_in f_out) by assumption.
    one_shot_trace. eexists. eexists.
    repeat split; try reflexivity. cbn. now rewrite Hinput.
  - rewrite (Structured_run_async_Some_run _ _ _ _ _ f_in f_out)
      by assumption.
    one_shot_trace. eexists. eexists.
    repeat split; try reflexivity. cbn. now rewrite Hinput.
  - rewrite (Structured_run_async_None_run _ _ _ _ _ f_in f_out)
      by assumption.
    one_shot_trace. eexists. eexists.
    repeat split; try reflexivity. cbn. now rewrite Hinput.
Qed.

End Core.

(** * Concrete runs *)

(** The theorem on retry exhaustion, run on the dead network: a DocumentQA
    call gives up after 8 attempts. *)
Lemma retry_stops_after_patience_attempts_witness :
  transport_down never /\
  exhausted_after "DocumentQA" 8 world0
    (invoke never
       "key" None strict_parse strict_from_dict sample_content sample_summary
       A_DocumentQA (ArgsDocumentQA "doc" "q") Sync world0).
Proof.
  assert (Hdown : transport_down never).
  { intros lib n r. exists (refused_connection lib). reflexivity. }
  split; [exact Hdown|].
  apply (retry_stops_after_patience_attempts never
           "key" None strict_parse strict_from_dict sample_content
           sample_summary Hdown
           A_DocumentQA (ArgsDocumentQA "doc" "q") Sync world0 eq_refl).
  - reflexivity.
  - discriminate.
Defined.

(** C1 as stated, refuted.  On the dead network a Sql call makes one
    attempt and lets the connection error through: it neither makes 8
    attempts nor raises the terminal failure. *)
Lemma Sql_gives_up_after_one_attempt :
  let x := invoke never
             "key" None strict_parse strict_from_dict sample_content
             sample_summary
             (A_Sql (Sql_new "key")) (ArgsSql "q" "schema" None) Sync world0 in
  fst x = Raised ConnectionError /\
  attempts (events_since world0 (snd x)) = 1 /\
  ~ exhausted_after "Sql" 8 world0 x.
Proof.
  vm_compute. repeat split; try reflexivity.
  intros [H _]. discriminate H.
Qed.

(** The asynchronous entry point of DocumentQA without a session, on the
    dead network: the self-call sits inside the [try], so its terminal
    failure is caught and the loop goes on with the session it has just
    closed.  15 calls of [session.post] and 510 units of waiting. *)
Lemma DocumentQA_run_async_without_session_overruns :
  let x := DocumentQA_run_async never "key" "doc" "q" None world0 in
  fst x = Raised (RetriesExhausted "DocumentQA") /\
  attempts (trace (snd x)) = 15 /\
  length (requests (trace (snd x))) = 8 /\
  total (sleeps (trace (snd x))) = 510%Z.
Proof. vm_compute. repeat split; reflexivity. Qed.

(** C2 as stated, refuted.  On the dead network a Search call is not a run
    of the loop of section 4.1 over its request: the loop would post 8
    times, wait 255 units and raise the terminal failure; Search posts
    once and lets the connection error through. *)
Lemma Search_runs_no_retry_loop :
  let x := invoke never
             "key" None strict_parse strict_from_dict sample_content
             sample_summary
             (A_Search (Search_new "key")) (ArgsSearch "q") Sync world0 in
  let y := fmap VJson
             (RetryPolicy_execute
                (post_json never None (Search_request (Search_new "key") "q"))
                "Search" 8) world0 in
  ~ same_run world0 x y /\
  attempts (trace (snd x)) = 1 /\ sleeps (trace (snd x)) = [] /\
  attempts (trace (snd y)) = 8 /\ total (sleeps (trace (snd y))) = 255%Z.
Proof.
  vm_compute. repeat split; try reflexivity.
  intros [H _]. discriminate H.
Qed.

(** The comparison of the entry points, run on a Search call without a
    session, on a network that serves its replies as JSON: one request from
    each entry point, the same one, and the same value returned. *)
Lemma entry_points_agree_witness :
  let net := always (json_reply (JList [JStr "a result"])) in
  let c := A_Search (Search_new "key") in
  let a := ArgsSearch "q" in
  let x := invoke net
    "key" None strict_parse strict_from_dict sample_content sample_summary c a
    Sync world0 in
  let y := invoke net
    "key" None strict_parse strict_from_dict sample_content sample_summary c a
    (Async None) world0 in
  fits c a = true /\ flattens a = true /\ compared c world0 None /\
  retries c = false /\ returns_reply c = true /\ clients_decode_alike net /\
  wire_alike (events_since world0 (snd x)) (events_since world0 (snd y)) /\
  length (requests (events_since world0 (snd y))) = 1 /\
  (forall v, fst x = Returned v <-> fst y = Returned v).
Proof.
  intros net c a x y.
  assert (Halike : clients_decode_alike net) by (intros n r; reflexivity).
  pose proof (proj2 (entry_points_agree net
                "key" None strict_parse strict_from_dict sample_content
                sample_summary c a world0)
                None eq_refl eq_refl eq_refl) as H.
  cbv zeta in H. destruct H as (_ & Hone & Hsame).
  destruct (Hone eq_refl) as (_ & _ & _ & Hy & _).
  destruct (Hsame Halike) as (Hw & Hv & _).
  split; [reflexivity|]. split; [reflexivity|]. split; [reflexivity|].
  split; [reflexivity|]. split; [reflexivity|]. split; [exact Halike|].
  split; [exact Hw|]. split; [exact Hy|exact (Hv eq_refl)].
Defined.

(** Where the two clients part.  On a network that serves JSON as
    [text/plain], requests decodes the reply and aiohttp raises
    [ContentTypeError]: a synchronous Search returns the body and the
    asynchronous one raises; a synchronous DocumentQA returns after one
    request and the asynchronous one, given an open session, sends 8 and
    raises the terminal failure. *)
Lemma entry_points_part_on_text_plain :
  let net := always_as_text (JStr "42") in
  let run c a e w := invoke net
    "key" None strict_parse strict_from_dict sample_content sample_summary c a
    e w in
  let search := run (A_Search (Search_new "key")) (ArgsSearch "q") in
  let ask := run A_DocumentQA (ArgsDocumentQA "doc" "q") in
  fst (search Sync world0) = Returned (VJson (JStr "42")) /\
  fst (search (Async None) world0) = Raised ContentTypeError /\
  fst (ask Sync world0) = Returned (VJson (JStr "42")) /\
  length (requests (trace (snd (ask Sync world0)))) = 1 /\
  fst (ask (Async (Some 0)) world_with_session) =
    Raised (RetriesExhausted "DocumentQA") /\
  length (requests (trace (snd (ask (Async (Some 0)) world_with_session))))
    = 8.
Proof. vm_compute. repeat split; reflexivity. Qed.

(** The backoff theorem, run on the dead network. *)
Lemma backoff_doubles_after_each_failure_witness :
  fits A_DocumentQA (ArgsDocumentQA "doc" "q") = true /\
  retries A_DocumentQA = true /\
  Sync <> Async None /\
  nothing_decodes never (library_of_entry Sync) /\
  sleeps
    (events_since world0
       (snd (invoke never
               "key" None strict_parse strict_from_dict sample_content
               sample_summary
               A_DocumentQA (ArgsDocumentQA "doc" "q") Sync world0)))
  = [1; 2; 4; 8; 16; 32; 64; 128]%Z.
Proof.
  assert (Hne : Sync <> Async None) by discriminate.
  assert (Hnd : nothing_decodes never (library_of_entry Sync))
    by (intros n r; reflexivity).
  split; [reflexivity|]. split; [reflexivity|]. split; [exact Hne|].
  split; [exact Hnd|].
  exact (proj1 (proj2 (proj2
           (backoff_doubles_after_each_failure never
              "key" None strict_parse strict_from_dict sample_content
              sample_summary
              A_DocumentQA (ArgsDocumentQA "doc" "q") Sync world0
              eq_refl eq_refl Hne)) Hnd)).
Defined.

(** The first-success theorem, run on a network whose POST of index 3 is
    the first to succeed: a Summarize call makes exactly 4 attempts. *)
Lemma first_success_returns_at_once_witness :
  let net := succeeds_at 3 (JDict [("summary", JStr "A fox.")]) in
  let a := ArgsSummarize "The quick brown fox" in
  3 < 8 /\
  (forall i, i < 3 ->
     decoded net Requests (sent world0 + i) (retry_request "key" a) = None) /\
  decoded net Requests (sent world0 + 3) (retry_request "key" a) =
    Some (JDict [("summary", JStr "A fox.")]) /\
  let x := invoke net
             "key" None strict_parse strict_from_dict sample_content
             sample_summary
             A_Summarize a Sync world0 in
  fst x = Returned (VJson (JDict [("summary", JStr "A fox.")])) /\
  attempts (events_since world0 (snd x)) = 4 /\
  sleeps (events_since world0 (snd x)) = [1; 2; 4]%Z.
Proof.
  intros net a.
  assert (Hk : 3 < 8) by lia.
  assert (Hfail : forall i, i < 3 ->
            decoded net Requests (sent world0 + i) (retry_request "key" a)
            = None).
  { intros i Hi. destruct i as [|[|[|i]]]; try reflexivity. lia. }
  assert (Hwin : decoded net Requests (sent world0 + 3)
                   (retry_request "key" a) =
                 Some (JDict [("summary", JStr "A fox.")])) by reflexivity.
  split; [exact Hk|]. split; [exact Hfail|]. split; [exact Hwin|].
  pose proof (first_success_returns_at_once net
                "key" None strict_parse strict_from_dict sample_content
                sample_summary
                A_Summarize a Sync world0 3
                (JDict [("summary", JStr "A fox.")])
                eq_refl eq_refl I Hk Hfail Hwin) as H.
  cbv zeta in H. destruct H as (Hr & _ & Ha & _ & Hs & _).
  split; [exact Hr|]. split; [exact Ha|exact Hs].
Defined.

(** The theorem on unsupported types, run on a schema with a
    [datetime] field. *)
Lemma unsupported_type_fails_flatten_witness :
  let t := Opaque "datetime.datetime" in
  lists_have_element Appointment = true /\
  occurs_in Appointment t /\
  unsupported t = true /\
  exists t',
    occurs_in Appointment t' /\ unsupported t' = true /\
    flatten_model Appointment = inl (UnsupportedDatatype t').
Proof.
  intros t.
  assert (Hocc : occurs_in Appointment t).
  { apply (occurs_in_model "Appointment" "when" _ t t);
      [right; left; reflexivity|constructor]. }
  split; [reflexivity|]. split; [exact Hocc|]. split; [reflexivity|].
  exact (proj1 (unsupported_type_fails_flatten never
           strict_parse strict_from_dict )
           Appointment t eq_refl Hocc eq_refl).
Defined.

(** The theorem on the parsers of Structured, run with the two strict
    parsers on a reply whose [output] lacks a required nested field: the
    failure is pydantic's when the output class is a model, dacite's when
    it is a dataclass. *)
Lemma Structured_hands_output_to_the_parser_of_its_class_witness :
  let net := always (reply_with_output customer_without_city) in
  let spec_in := Model "Question" [("text", Str)] in
  let call spec_out :=
    fst (invoke net
           "key" None strict_parse strict_from_dict sample_content
           sample_summary
           (A_Structured (Structured_new "key"))
           (ArgsStructured spec_in spec_out "extract" a_question) Sync
           world0) in
  flatten_model spec_in = inr (JDict [("text", JStr "string")]) /\
  flatten_model Customer =
    inr (JDict [("address", JDict [("city", JStr "string")]);
                ("previous", JList [JDict [("city", JStr "string")]])]) /\
  flatten_model CustomerRecord =
    inr (JDict [("address", JDict [("city", JStr "string")]);
                ("previous", JList [JDict [("city", JStr "string")]])]) /\
  entry_ok world0 Sync /\
  (forall r, net (library_of_entry Sync) (sent world0) r =
             inr (reply_with_output customer_without_city)) /\
  resp_json (reply_with_output customer_without_city) =
    inr (JDict [("output", customer_without_city)]) /\
  call Customer =
    Raised (ValidationError "value does not conform to the class") /\
  call CustomerRecord =
    Raised (DaciteError "value does not conform to the class").
Proof.
  intros net spec_in call.
  assert (Hnet : forall r,
            net (library_of_entry Sync) (sent world0) r =
            inr (reply_with_output customer_without_city))
    by (intros r; reflexivity).
  split; [reflexivity|]. split; [reflexivity|]. split; [reflexivity|].
  split; [exact I|]. split; [exact Hnet|]. split; [reflexivity|].
  split.
  - pose proof (Structured_hands_output_to_the_parser_of_its_class net

                    "key" None strict_parse strict_from_dict sample_content
                    sample_summary
                  (Structured_new "key") spec_in Customer "extract" a_question
                  _ _ Sync world0 (reply_with_output customer_without_city)
                  (JDict [("output", customer_without_city)])
                  eq_refl eq_refl I Hnet eq_refl) as H.
    cbv zeta in H. destruct H as (H & _ & _).
    exact (H customer_without_city eq_refl).
  - pose proof (Structured_hands_output_to_the_parser_of_its_class net

                    "key" None strict_parse strict_from_dict sample_content
                    sample_summary
                  (Structured_new "key") spec_in CustomerRecord "extract"
                  a_question
                  _ _ Sync world0 (reply_with_output customer_without_city)
                  (JDict [("output", customer_without_city)])
                  eq_refl eq_refl I Hnet eq_refl) as H.
    cbv zeta in H. destruct H as (H & _ & _).
    exact (H customer_without_city eq_refl).
Defined.

(** The theorem on sessions, run on the dead network: the session a
    Summarize call created for itself is closed when retries run out. *)
Lemma sessions_closed_by_their_owner_witness :
  fits A_Summarize (ArgsSummarize "doc") = true /\
  flattens (ArgsSummarize "doc") = true /\
  sessions
    (snd (invoke never
            "key" None strict_parse strict_from_dict sample_content
            sample_summary
            A_Summarize (ArgsSummarize "doc") (Async None) world0))
  = [Closed].
Proof.
  split; [reflexivity|]. split; [reflexivity|].
  exact (proj1 (proj2
           (sessions_closed_by_their_owner never
              "key" None strict_parse strict_from_dict sample_content
              sample_summary
              A_Summarize (ArgsSummarize "doc") world0)) eq_refl eq_refl).
Defined.

(** The theorem on the registry, run on a URI that is not registered. *)
Lemma unknown_capability_fails_on_use_witness :
  dict_get (_CAPABILITIES "key") "multi/translate" = None /\
  Capability_new "key" "multi/translate" world0 =
    (Returned {| uri := "multi/translate"; _capability := None |},
     after world0 0 (lookup_failed_lines "multi/translate")).
Proof.
  split; [reflexivity|].
  exact (proj1 (unknown_capability_fails_on_use never
                  "key" None strict_parse strict_from_dict sample_content
                  sample_summary
                  "multi/translate" world0 eq_refl)).
Defined.

(** The theorem on WebContent, run with the key [tok] on a network that
    returns a page: the request carries the key in its URL, the
    synchronous entry point returns the content of the page and the
    asynchronous one its summary. *)
Lemma web_content_paths_witness :
  let page := {| resp_json := inl JSONDecodeError;
                 resp_content := inr "<p>hello</p>" |} in
  let run e :=
    invoke (always page)
      "key" (Some "tok") strict_parse strict_from_dict sample_content
      sample_summary
      A_WebContent (ArgsWebContent "https://example.org") e world0 in
  entry_ok world0 Sync /\ entry_ok world0 (Async None) /\
  requests (events_since world0 (snd (run Sync))) =
    [mk_request "https://chrome.browserless.io/content?token=tok"
       [("Content-Type", "application/json"); ("Cache-Control", "no-cache")]
       (JDict [("url", JStr "https://example.org")])] /\
  fst (run Sync) = Returned (VText "content of <p>hello</p>") /\
  fst (run (Async None)) = Returned (VText "summary of <p>hello</p>").
Proof.
  intros page run.
  pose proof (web_content_paths (always page)
                "key" (Some "tok") strict_parse strict_from_dict
                sample_content sample_summary
                "https://example.org" Sync world0 I) as Hs.
  pose proof (web_content_paths (always page)
                "key" (Some "tok") strict_parse strict_from_dict
                sample_content sample_summary
                "https://example.org" (Async None) world0 I) as Ha.
  cbv zeta in Hs, Ha.
  split; [exact I|]. split; [exact I|].
  split; [exact (proj1 Hs)|].
  split; [exact (proj2 (proj2 (proj2 (proj2 Hs))))|].
  exact (proj2 (proj2 (proj2 (proj2 Ha)))).
Defined.

(** On an empty page readability fails, and the failure is the call's. *)
Lemma WebContent_fails_on_an_empty_page :
  let page := {| resp_json := inl JSONDecodeError;
                 resp_content := inr EmptyString |} in
  let x := invoke (always page)
             "key" (Some "tok") strict_parse strict_from_dict sample_content
             sample_summary
             A_WebContent (ArgsWebContent "https://example.org") Sync
             world0 in
  fst x = Raised (ParserError "Document is empty") /\
  attempts (trace (snd x)) = 1 /\ sleeps (trace (snd x)) = [].
Proof. vm_compute. repeat split; reflexivity. Qed.

(** * Concrete runs of the further properties *)

(** The bounds of a retrying call, run on a network whose third POST
    succeeds. *)
Lemma retrying_call_is_bounded_and_absorbs_errors_witness :
  let net := succeeds_at 2 (JDict [("answer", JStr "42")]) in
  fits A_DocumentQA (ArgsDocumentQA "doc" "q") = true /\
  retries A_DocumentQA = true /\
  Sync <> Async None /\
  let x := invoke net
             "key" None strict_parse strict_from_dict sample_content
             sample_summary
             A_DocumentQA (ArgsDocumentQA "doc" "q") Sync world0 in
  1 <= attempts (events_since world0 (snd x)) <= 8 /\
  (0 <= total (sleeps (events_since world0 (snd x))) <= 255)%Z.
Proof.
  intros net.
  assert (Hne : Sync <> Async None) by discriminate.
  split; [reflexivity|]. split; [reflexivity|]. split; [exact Hne|].
  pose proof (retrying_call_is_bounded_and_absorbs_errors net
                "key" None strict_parse strict_from_dict sample_content
                sample_summary
                A_DocumentQA (ArgsDocumentQA "doc" "q") Sync world0
                eq_refl eq_refl Hne) as H.
  cbv zeta in H. destruct H as (H1 & H2 & _). split; [exact H1|exact H2].
Defined.

(** The overrun without a session, run on the dead network. *)
Lemma run_async_without_session_overruns_witness :
  nothing_decodes never Aiohttp /\
  fits A_Summarize (ArgsSummarize "doc") = true /\
  retries A_Summarize = true /\
  let x := invoke never
             "key" None strict_parse strict_from_dict sample_content
             sample_summary
             A_Summarize (ArgsSummarize "doc") (Async None) world0 in
  fst x = Raised (RetriesExhausted "Summarize") /\
  attempts (events_since world0 (snd x)) = 15 /\
  total (sleeps (events_since world0 (snd x))) = 510%Z.
Proof.
  assert (Hnd : nothing_decodes never Aiohttp) by (intros n r; reflexivity).
  split; [exact Hnd|]. split; [reflexivity|]. split; [reflexivity|].
  pose proof (run_async_without_session_overruns never
                "key" None strict_parse strict_from_dict sample_content
                sample_summary Hnd
                A_Summarize (ArgsSummarize "doc") world0 eq_refl eq_refl) as H.
  cbv zeta in H. destruct H as (H1 & H2 & _ & _ & H5 & _).
  split; [exact H1|]. split; [exact H2|exact H5].
Defined.

(** The outcome of a single post, run on a Search call whose reply is JSON
    served as [text/plain]: through aiohttp the call sends its one request
    and raises the [ContentTypeError] of [json()]. *)
Lemma single_post_outcome_is_the_first_reply_witness :
  let c := A_Search (Search_new "key") in
  let net := always_as_text (JStr "found") in
  let x := invoke net
             "key" None strict_parse strict_from_dict sample_content
             sample_summary
             c (ArgsSearch "q") (Async None) world0 in
  fits c (ArgsSearch "q") = true /\ retries c = false /\
  returns_reply c = true /\ entry_ok world0 (Async None) /\
  length (requests (events_since world0 (snd x))) = 1 /\
  fst x = Raised ContentTypeError.
Proof.
  intros c net x.
  split; [reflexivity|]. split; [reflexivity|]. split; [reflexivity|].
  split; [exact I|].
  destruct (single_post_outcome_is_the_first_reply net
              "key" None strict_parse strict_from_dict sample_content
              sample_summary
              c (ArgsSearch "q") (Async None) world0
              eq_refl eq_refl eq_refl I) as (r & Hr & _ & _ & _ & Hx).
  split; [fold x in Hr; now rewrite Hr|exact Hx].
Defined.

(** Replies that do not decode, run on a network that always answers with
    a page of HTML. *)
Lemma undecodable_replies_are_retried_witness :
  (forall n r, exists resp err,
     always not_json (library_of_entry Sync) n r = inr resp /\
     resp_json resp = inl err) /\
  fits A_DocumentQA (ArgsDocumentQA "doc" "q") = true /\
  retries A_DocumentQA = true /\
  Sync <> Async None /\ entry_ok world0 Sync /\
  fst (invoke (always not_json)
         "key" None strict_parse strict_from_dict sample_content
         sample_summary
         A_DocumentQA (ArgsDocumentQA "doc" "q") Sync world0)
  = Raised (RetriesExhausted "DocumentQA").
Proof.
  assert (Hnet : forall n r, exists resp err,
            always not_json (library_of_entry Sync) n r = inr resp /\
            resp_json resp = inl err).
  { intros n r. exists not_json, JSONDecodeError. split; reflexivity. }
  assert (Hne : Sync <> Async None) by discriminate.
  split; [exact Hnet|]. split; [reflexivity|]. split; [reflexivity|].
  split; [exact Hne|]. split; [exact I|].
  exact (proj1 (undecodable_replies_are_retried (always not_json)
                  "key" None strict_parse strict_from_dict sample_content
                  sample_summary
                  A_DocumentQA (ArgsDocumentQA "doc" "q") Sync world0
                  Hnet eq_refl eq_refl Hne I)).
Defined.

(** The separation of credentials, run on the registered Search. *)
Lemma credentials_stay_with_their_service_witness :
  dict_get (_CAPABILITIES "key") "multi/search"
    = Some (A_Search (Search_new "key")) /\
  Forall
    (fun r =>
       String.prefix "https://api.multi.dev/" (req_url r) = true /\
       dict_get (req_headers r) "api-key" = Some "key" /\
       dict_get (req_headers r) "Content-type" = Some "application/json")
    (requests
       (events_since world0
          (snd (invoke never
                  "key" (Some "tok") strict_parse strict_from_dict
                  sample_content sample_summary
                  (A_Search (Search_new "key")) (ArgsSearch "q")
                  Sync world0)))).
Proof.
  split; [reflexivity|].
  exact (credentials_stay_with_their_service never
           "key" (Some "tok") strict_parse strict_from_dict sample_content
           sample_summary
           "multi/search" (A_Search (Search_new "key")) (ArgsSearch "q")
           Sync world0 eq_refl).
Defined.

(** One request per retry, run on the dead network. *)
Lemma retries_resend_one_request_witness :
  fits A_Summarize (ArgsSummarize "doc") = true /\
  retries A_Summarize = true /\
  exists n, n <= 8 /\
    requests
      (events_since world0
         (snd (invoke never
                 "key" None strict_parse strict_from_dict sample_content
                 sample_summary
                 A_Summarize (ArgsSummarize "doc") (Async None) world0)))
    = repeat (retry_request "key" (ArgsSummarize "doc")) n.
Proof.
  split; [reflexivity|]. split; [reflexivity|].
  exact (retries_resend_one_request never
           "key" None strict_parse strict_from_dict sample_content
           sample_summary
           A_Summarize (ArgsSummarize "doc") (Async None) world0
           eq_refl eq_refl).
Defined.

(** The payloads of Sql, run in a world where the caller holds an open
    session. *)
Lemma Sql_payload_by_entry_point_witness :
  session_is_open world_with_session 0 = true /\
  requests
    (events_since world_with_session
       (snd (invoke never
               "key" None strict_parse strict_from_dict sample_content
               sample_summary
               (A_Sql (Sql_new "key"))
               (ArgsSql "how many?" "t(a int)" None) (Async (Some 0))
               world_with_session)))
  = [mk_request "https://api.multi.dev/sql"
       [("Content-type", "application/json"); ("api-key", "key")]
       (JDict [("query", JStr "how many?")])].
Proof.
  split; [reflexivity|].
  exact (proj2 (proj2
           (Sql_payload_by_entry_point never
              "key" None strict_parse strict_from_dict sample_content
              sample_summary
              (Sql_new "key") "how many?" "t(a int)" None world_with_session))
           0 eq_refl).
Defined.

(** The shape of a flattened schema, on the record of the specification's
    example. *)
Lemma flatten_model_returns_a_flat_schema_witness :
  flatten_model Person =
    inr (JDict [("name", JStr "string"); ("age", JStr "int");
                ("tags", JList [JStr "string"])]) /\
  flat_schema (JDict [("name", JStr "string"); ("age", JStr "int");
                      ("tags", JList [JStr "string"])]).
Proof.
  split; [reflexivity|].
  exact (flatten_model_returns_a_flat_schema Person _ eq_refl).
Defined.

(** Flattening and support, on a nested record. *)
Lemma flatten_model_succeeds_iff_supported_witness :
  lists_have_element Customer = true /\
  forall t, occurs_in Customer t -> unsupported t = false.
Proof.
  split; [reflexivity|].
  apply (proj1 (flatten_model_succeeds_iff_supported Customer eq_refl)).
  eexists. reflexivity.
Defined.

(** The first failing field, on a record with two fields that do not
    flatten: the exception names the first. *)
Lemma flatten_model_reports_the_first_failing_field_witness :
  Forall (fun f => exists fv, flatten_model (snd f) = inr fv)
    [("title", Str)] /\
  flatten_model (Opaque "datetime.datetime")
    = inl (UnsupportedDatatype (Opaque "datetime.datetime")) /\
  flatten_model
    (Model "Meeting"
       [("title", Str); ("when", Opaque "datetime.datetime");
        ("where", Opaque "Room")])
  = inl (UnsupportedDatatype (Opaque "datetime.datetime")).
Proof.
  assert (Hok : Forall (fun f => exists fv, flatten_model (snd f) = inr fv)
                  [("title", Str)]).
  { constructor; [|constructor]. eexists. reflexivity. }
  split; [exact Hok|]. split; [reflexivity|].
  exact (proj1 (flatten_model_reports_the_first_failing_field "Meeting"
                  [("title", Str)] [("where", Opaque "Room")] "when"
                  (Opaque "datetime.datetime") _ Hok eq_refl)).
Defined.

(** [__post_init__], run on a reference built with an invoker of the
    caller's and a registered URI: the registry's invoker replaces it. *)
Lemma post_init_binds_from_the_registry_witness :
  let self := {| uri := "multi/summarize";
                 _capability := Some A_WebContent |} in
  dict_get (_CAPABILITIES "key") (uri self) = Some A_Summarize /\
  Capability___post_init__ "key" self world0 =
    (Returned {| uri := "multi/summarize"; _capability := Some A_Summarize |},
     world0).
Proof.
  intros self. split; [reflexivity|].
  exact (proj1 (post_init_binds_from_the_registry never
           "key" None strict_parse strict_from_dict sample_content
           sample_summary self world0)
           A_Summarize eq_refl).
Defined.

(** WebContent without a token, run on the dead network. *)
Lemma WebContent_posts_without_a_token_witness :
  (@None string) = None /\ entry_ok world0 Sync /\
  exists r,
    requests
      (events_since world0
         (snd (invoke never
                 "key" None strict_parse strict_from_dict sample_content
                 sample_summary
                 A_WebContent (ArgsWebContent "https://example.org") Sync
                 world0))) = [r] /\
    req_url r = "https://chrome.browserless.io/content?token=None".
Proof.
  split; [reflexivity|]. split; [exact I|].
  exact (WebContent_posts_without_a_token never
           "key" None strict_parse strict_from_dict sample_content
           sample_summary eq_refl
           "https://example.org" Sync world0 I).
Defined.

(** The payload of Structured, run on the dead network. *)
Lemma Structured_posts_its_payload_once_witness :
  flatten_model (Model "Question" [("text", Str)])
    = inr (JDict [("text", JStr "string")]) /\
  flatten_model Address = inr (JDict [("city", JStr "string")]) /\
  entry_ok world0 Sync /\
  exists r d,
    requests
      (events_since world0
         (snd (invoke never
                 "key" None strict_parse strict_from_dict sample_content
                 sample_summary
                 (A_Structured (Structured_new "key"))
                 (ArgsStructured (Model "Question" [("text", Str)]) Address
                    "extract" a_question) Sync world0))) = [r] /\
    req_json r = JDict d /\
    dict_get d "input" = Some (JDict [("text", JStr "who?")]).
Proof.
  split; [reflexivity|]. split; [reflexivity|]. split; [exact I|].
  destruct (Structured_posts_its_payload_once never
              "key" None strict_parse strict_from_dict sample_content
              sample_summary
              (Structured_new "key") (Model "Question" [("text", Str)])
              Address "extract" a_question _ _ Sync world0
              eq_refl eq_refl I)
    as (r & d & Hr & _ & _ & _ & _ & _ & Hd & _ & _ & _ & _ & Hi).
  exists r, d. split; [exact Hr|]. split; [exact Hd|exact Hi].
Defined.
